(** * De-Synthesize Pro: a shallow embedding of the client logic

    The development follows the TypeScript sources:
    - [types.ts]: the data model (module [Types]);
    - [services/geminiService.ts]: [processImage] (module [GeminiService]);
    - the application component: prompt construction, aspect-ratio
      detection, and the handlers that drive the UI state (modules
      [Prompt], [Ratio] and [App]).

    Module [Spec] holds the vocabulary the properties are stated in,
    module [Examples] the concrete inputs they are tried on; the
    properties follow, source file by source file.

    JavaScript strings are modelled by [string]; every [ascii] stands for
    one UTF-16 code unit in the range 0..255.  JavaScript numbers that the
    code only uses as integers are modelled by [Z]; the numbers used by the
    aspect-ratio arithmetic are IEEE 754 binary64 values ([spec_float]). *)

From Stdlib Require Import ZArith List String Ascii Bool Lia.
From Stdlib Require Import DecimalString SpecFloat.
Import ListNotations.

Local Open Scope string_scope.
Local Open Scope Z_scope.

(* ================================================================== *)
(** ** JavaScript string primitives used by the sources *)

Module Js.

(** [s.startsWith(p)] *)
Fixpoint startsWith (s p : string) {struct p} : bool :=
  match p with
  | EmptyString => true
  | String c p' =>
      match s with
      | EmptyString => false
      | String d s' => Ascii.eqb d c && startsWith s' p'
      end
  end.

(** [s.includes(p)] *)
Fixpoint includes (s p : string) : bool :=
  startsWith s p ||
  match s with
  | EmptyString => false
  | String _ s' => includes s' p
  end.

(** White space in the sense of [String.prototype.trim], restricted to
    code units below 256: TAB, LF, VT, FF, CR, SPACE and NBSP. *)
Definition isWhiteSpace (c : ascii) : bool :=
  let n := nat_of_ascii c in
  ((9 <=? n)%nat && (n <=? 13)%nat) || (n =? 32)%nat || (n =? 160)%nat.

Fixpoint trimStart (s : string) : string :=
  match s with
  | EmptyString => EmptyString
  | String c s' => if isWhiteSpace c then trimStart s' else s
  end.

Fixpoint trimEnd (s : string) : string :=
  match s with
  | EmptyString => EmptyString
  | String c s' =>
      match trimEnd s' with
      | EmptyString => if isWhiteSpace c then EmptyString else String c EmptyString
      | t => String c t
      end
  end.

(** [s.trim()] *)
Definition trim (s : string) : string := trimEnd (trimStart s).

(** Truthiness of a string value: every string but the empty one. *)
Definition truthy (s : string) : bool :=
  match s with EmptyString => false | _ => true end.

(** Truthiness of a possibly missing string ([undefined] is falsy). *)
Definition truthy_opt (o : option string) : bool :=
  match o with Some s => truthy s | None => false end.

(** [o || d] on a possibly missing string. *)
Definition or_else (o : option string) (d : string) : string :=
  match o with
  | Some s => if truthy s then s else d
  | None => d
  end.

(** [s.split(sep)] for a one-character separator. *)
Fixpoint split (sep : ascii) (s : string) : list string :=
  match s with
  | EmptyString => [EmptyString]
  | String c s' =>
      if Ascii.eqb c sep then EmptyString :: split sep s'
      else match split sep s' with
           | [] => [String c EmptyString]
           | h :: t => String c h :: t
           end
  end.

(** Number-to-string conversion of an integer of absolute value below
    10^21; from there on JavaScript prints an exponent form.  The values
    converted in the sources stay below: ISO values, the year of a date,
    and readings of [Date.now()], which are at most 8.64 * 10^15. *)
Definition toString (z : Z) : string := NilZero.string_of_int (Z.to_int z).

(** JavaScript numbers: IEEE 754 binary64, with the operators the sources
    apply to them ([/], [-], [Math.abs], [<]), rounding to nearest even. *)
Definition number : Type := spec_float.

Definition prec : Z := 53.
Definition emax : Z := 1024.

Definition num_of_Z (z : Z) : number := binary_normalize prec emax z 0 false.
Definition num_div (x y : number) : number := SFdiv prec emax x y.
Definition num_sub (x y : number) : number := SFsub prec emax x y.
Definition Math_abs (x : number) : number := SFabs x.
Definition num_lt (x y : number) : bool := SFltb x y.

(** The outcome of awaiting a promise: it resolves with a value or
    rejects with a thrown error. *)
Inductive Outcome (E A : Type) : Type :=
| Resolved (a : A)
| Rejected (e : E).
Arguments Resolved {E A} a.
Arguments Rejected {E A} e.

(** Thrown values as far as the sources inspect them: [message] and
    [status]. *)
Record Error : Type := mkError {
  message : option string;
  status : option Z
}.

(** [new Error(msg)] *)
Definition newError (msg : string) : Error :=
  {| message := Some msg; status := None |}.

End Js.

(* ================================================================== *)
(** ** types.ts *)

Module Types.

Inductive ImageSize := Size1K | Size2K | Size4K.

Inductive AspectRatio := R1_1 | R3_4 | R4_3 | R9_16 | R16_9.

Inductive FilmStock :=
| KodakPortra400
| KodakGold200
| KodakEktachromeE100
| KodakTriX400
| FujifilmVelvia50
| FujifilmProvia100F
| FujifilmPro400H
| IlfordHP5Plus
| Cinestill800T.

Inductive ISOValue := ISO200 | ISO400 | ISO800 | ISO1600.

(** The number an [ISOValue] stands for. *)
Definition iso_number (i : ISOValue) : Z :=
  match i with
  | ISO200 => 200
  | ISO400 => 400
  | ISO800 => 800
  | ISO1600 => 1600
  end.

Record ProcessedImage := mkProcessedImage {
  id : string;
  originalUrl : string;
  processedUrl : string;
  timestamp : Z;
  prompt : string;
  size : ImageSize;
  aspectRatio : AspectRatio;
  filmStock : FilmStock;
  iso : ISOValue;
  skinDetail : Z;
  selected : option bool
}.

Inductive Status := idle | checking_key | uploading | processing | error.

Record ProcessingState := mkProcessingState {
  status : Status;
  message : option string
}.

End Types.

(* ================================================================== *)
(** ** services/geminiService.ts *)

Module GeminiService.
Import Js.

(** The part of the SDK's response that [processImage] reads. *)
Record Blob := mkBlob { data : string }.

Record Part := mkPart {
  inlineData : option Blob;
  text : option string
}.

Record Content := mkContent { parts : option (list Part) }.

Record Candidate := mkCandidate {
  finishReason : option string;
  content : option Content
}.

Record GenerateContentResponse := mkResponse {
  candidates : option (list Candidate)
}.

(** The request handed to [ai.models.generateContent]. *)
Record GenerateContentRequest := mkRequest {
  model : string;
  req_data : option string;
  req_mimeType : option string;
  req_text : string;
  req_aspectRatio : Types.AspectRatio;
  req_imageSize : Types.ImageSize
}.

Definition Api : Type :=
  GenerateContentRequest -> Outcome Error GenerateContentResponse.

(** The SDK as one call of [processImage] meets it.  [new GoogleGenAI(...)]
    either throws an error or returns a client, and the client's
    [generateContent] settles as the function tells. *)
Definition Sdk : Type := Outcome Error Api.

Definition MSG_BLOCKED : string :=
  "REJECTION: The Lab could not process this image. WHY: The source image triggered automated safety filters, which often happens with content that is interpreted as sensitive or restricted. REMEDY: Please try a different photo. Ensure the subject is clearly a standard portrait and the composition is neutral.".

Definition MSG_SAFETY : string :=
  "REJECTION: Development halted due to safety guardrails. WHY: The Emulsion Engine detected features in the image that are restricted for processing. This is a common precaution for certain types of portraits. REMEDY: Try an image with more standard lighting, a clear head-and-shoulders crop, or a different character subject.".

Definition MSG_RECITATION : string :=
  "REJECTION: Style processing failed. WHY: The requested development style or the subject matter closely matches protected content or copyright-sensitive material. REMEDY: Try a different film stock or a less specific subject to proceed with development.".

Definition MSG_OTHER : string :=
  "REJECTION: An unexpected lab interruption occurred. WHY: The model encountered an internal error or the content was rejected for an unspecified safety reason. REMEDY: Attempt the development again with a slightly different grain intensity or a new source image.".

Definition MSG_REFUSAL (why : string) : string :=
  "REJECTION: The Lab encountered a problem. WHY: " ++ why ++
  " REMEDY: Adjust your input image or settings to resolve the concern mentioned above.".

Definition MSG_NO_IMAGE : string :=
  "REJECTION: The Lab was unable to generate the new texture. WHY: Although the image was accepted, the reconstruction process failed to complete safely. REMEDY: Please try a different image. Ensure the person is in a well-lit environment and the framing is a typical photographic portrait.".

Definition MSG_PERMISSION_DENIED : string :=
  "PERMISSION_DENIED: gemini-3-pro-image-preview requires a PAID API key from a Google Cloud project with billing enabled. Please check your project status at ai.google.dev/gemini-api/docs/billing".

Definition MSG_KEY_RESET_REQUIRED : string := "KEY_RESET_REQUIRED".

Definition MSG_RATE_LIMIT : string :=
  "The lab is busy. WHY: Rate limit exceeded. REMEDY: Please wait 60 seconds before submitting the next negative for development.".

Definition MSG_GENERIC : string :=
  "A technical chemical imbalance occurred in the lab. Please check your connection and try again.".

(** The [for (const part of parts)] loop: the first part with
    [inlineData] ends the function with the image; text parts met before
    it are accumulated in [refusalText]. *)
Fixpoint scanParts (ps : list Part) (refusalText : string)
  : string + string :=
  match ps with
  | [] => inr refusalText
  | part :: rest =>
      match inlineData part with
      | Some blob => inl ("data:image/png;base64," ++ data blob)
      | None =>
          match text part with
          | Some t =>
              if truthy t then scanParts rest (refusalText ++ t ++ " ")
              else scanParts rest refusalText
          | None => scanParts rest refusalText
          end
      end
  end.

Definition finishReason_is (c : Candidate) (r : string) : bool :=
  match finishReason c with
  | Some f => String.eqb f r
  | None => false
  end.

(** The body of the [try] block once the response has arrived. *)
Definition tryBody (response : GenerateContentResponse)
  : Outcome Error string :=
  match candidates response with
  | None | Some [] => Rejected (newError MSG_BLOCKED)
  | Some (candidate :: _) =>
      if finishReason_is candidate "SAFETY" then
        Rejected (newError MSG_SAFETY)
      else if finishReason_is candidate "RECITATION" then
        Rejected (newError MSG_RECITATION)
      else if finishReason_is candidate "OTHER" then
        Rejected (newError MSG_OTHER)
      else
        let parts :=
          match content candidate with
          | Some c => match parts c with Some ps => ps | None => [] end
          | None => []
          end in
        match scanParts parts "" with
        | inl url => Resolved url
        | inr refusalText =>
            if truthy (trim refusalText) then
              Rejected (newError (MSG_REFUSAL (trim refusalText)))
            else
              Rejected (newError MSG_NO_IMAGE)
        end
  end.

(** The [catch] block. *)
Definition catchHandler (error : Error) : Error :=
  if match message error with
     | Some m => truthy m && startsWith m "REJECTION:"
     | None => false
     end
  then error
  else
    let errorMessage := or_else (message error) "" in
    if includes errorMessage "403" ||
       match status error with Some n => n =? 403 | None => false end
    then newError MSG_PERMISSION_DENIED
    else if includes errorMessage "Requested entity was not found."
    then newError MSG_KEY_RESET_REQUIRED
    else if includes errorMessage "429"
    then newError MSG_RATE_LIMIT
    else newError (or_else (Some errorMessage) MSG_GENERIC).

(** [processImage]: [GoogleGenAI] tells how the constructor call in the
    first statement ends.  That statement stands before the [try] block,
    so an error it throws leaves the function as it is, without passing
    the [catch] block.  The image data and the MIME type are optional
    here because the caller computes them with [split(...)[1]], which is
    [undefined] when the data URL lacks the separator. *)
Definition processImage (GoogleGenAI : Sdk)
    (base64Image mimeType : option string) (prompt : string)
    (size : Types.ImageSize) (aspectRatio : Types.AspectRatio)
  : Outcome Error string :=
  match GoogleGenAI with
  | Rejected error => Rejected error
  | Resolved generateContent =>
      match generateContent
              {| model := "gemini-3-pro-image-preview";
                 req_data := base64Image;
                 req_mimeType := mimeType;
                 req_text := prompt;
                 req_aspectRatio := aspectRatio;
                 req_imageSize := size |} with
      | Resolved response =>
          match tryBody response with
          | Resolved url => Resolved url
          | Rejected error => Rejected (catchHandler error)
          end
      | Rejected error => Rejected (catchHandler error)
      end
  end.

End GeminiService.

(* ================================================================== *)
(** ** The application component: module-level constants and helpers *)

Module Prompt.
Import Js Types.

Definition SKIN_LIGHT : string :=
  "Apply a light photographic grain and micro-texture to the skin, effectively removing synthetic digital smoothness while keeping the character's appearance clean and polished.".

Definition SKIN_HIGH_FIDELITY : string :=
  "Apply professional high-fidelity skin reconstruction. Focus on restoring intricate skin details like natural pore structure and fine organic textures. The result should feel raw and authentic, resembling an unretouched high-resolution film negative, while honoring the character's original features and avoiding any exaggerated blemishes.".

Definition SKIN_BALANCED : string :=
  "Restore realistic skin texture with natural variation. Preserve the character's features while adding the subtle depth and organic feel of real skin, effectively bridging the gap between digital generation and authentic photography.".

Definition BASE_PROMPT_TEMPLATE (intensity : Z) : string :=
  let skinPrompt :=
    if intensity <? 30 then SKIN_LIGHT
    else if intensity >? 70 then SKIN_HIGH_FIDELITY
    else SKIN_BALANCED in
  "A portrait with " ++ skinPrompt ++
  ", while maintaining consistent lighting, props, and set design.".

(** The double-quote character, which occurs in one of the texts below. *)
Definition dquote : string :=
  String (Ascii false true false false false true false false) EmptyString.

(** The string each [FilmStock] literal stands for. *)
Definition stock_name (stock : FilmStock) : string :=
  match stock with
  | KodakPortra400 => "Kodak Portra 400"
  | KodakGold200 => "Kodak Gold 200"
  | KodakEktachromeE100 => "Kodak Ektachrome E100"
  | KodakTriX400 => "Kodak Tri-X 400 (B&W)"
  | FujifilmVelvia50 => "Fujifilm Velvia 50"
  | FujifilmProvia100F => "Fujifilm Provia 100F"
  | FujifilmPro400H => "Fujifilm Pro 400H"
  | IlfordHP5Plus => "Ilford HP5 Plus (B&W)"
  | Cinestill800T => "Cinestill 800T"
  end.

Definition FILM_STOCK_CHARACTERISTICS (stock : FilmStock) : string :=
  match stock with
  | KodakPortra400 =>
      "Legendary skin tones. Warm, golden hues with a natural highlight roll-off. Ideal for portraits requiring a soft, organic feel."
  | KodakGold200 =>
      "The classic consumer aesthetic. Saturated yellows and punchy reds with a warm, nostalgic 90s snapshot vibe."
  | KodakEktachromeE100 =>
      "Professional color reversal film. Exceptional sharpness, clean cool shadows, and neutral, realistic whites."
  | KodakTriX400 =>
      "High-contrast monochrome. Gritty, punchy textures with deep blacks and a legendary journalistic character."
  | FujifilmVelvia50 =>
      "Hyper-saturated color. Intense greens and magentas with very high contrast. A distinctive, high-drama slide film look."
  | FujifilmProvia100F =>
      "Balanced professional slide film. Neutral color reproduction with incredible sharpness and fine grain structure."
  | FujifilmPro400H =>
      "Pastel palette. Soft, airy tones with a signature subtle cyan/green tint in the shadows. Perfect for ethereal lighting."
  | IlfordHP5Plus =>
      "Classic street photography film. Wide tonal range with a punchy, organic grain that feels raw and authentic."
  | Cinestill800T =>
      "Cinematic tungsten-balanced film. Unique " ++ dquote ++ "red glow" ++ dquote ++
      " halation around bright lights with a cool, moody night-time color shift."
  end.

(** The grain sentence of [buildFinalPrompt]. *)
Definition grainPrompt (iso : ISOValue) : string :=
  "Add a substantial amount of organic film grain, resembling a " ++
  toString (iso_number iso) ++
  " ISO film to the image, preserving the original aesthetic. The grain should feel raw and authentic.".

End Prompt.

Module Ratio.
Import Js Types.

Definition standardRatios : list (number * AspectRatio) :=
  [ (num_of_Z 1, R1_1);
    (num_div (num_of_Z 3) (num_of_Z 4), R3_4);
    (num_div (num_of_Z 4) (num_of_Z 3), R4_3);
    (num_div (num_of_Z 9) (num_of_Z 16), R9_16);
    (num_div (num_of_Z 16) (num_of_Z 9), R16_9) ].

(** [Math.abs(entry.ratio - ratio)] *)
Definition distance (ratio : number) (entry : number * AspectRatio) : number :=
  Math_abs (num_sub (fst entry) ratio).

(** The callback handed to [reduce]. *)
Definition closer (ratio : number) (prev curr : number * AspectRatio)
  : number * AspectRatio :=
  if num_lt (distance ratio curr) (distance ratio prev) then curr else prev.

(** [array.reduce(f)] without an initial value: the first element starts
    the accumulation; on an empty array JavaScript throws. *)
Definition reduce {A : Type} (f : A -> A -> A) (l : list A) : option A :=
  match l with
  | [] => None
  | first :: rest => Some (fold_left f rest first)
  end.

Definition calculateClosestAspectRatio (width height : number) : option AspectRatio :=
  let ratio := num_div width height in
  option_map snd (reduce (closer ratio) standardRatios).

End Ratio.

(* ================================================================== *)
(** ** The application component: state and handlers *)

Module App.
Import Js Types.

Definition SESSION_KEY : string := "desynthesize_session_active".

(** [sessionStorage], a list of key/value pairs. *)
Definition Storage : Type := list (string * string).

Fixpoint getItem (k : string) (st : Storage) : option string :=
  match st with
  | [] => None
  | (k', v) :: rest => if String.eqb k' k then Some v else getItem k rest
  end.

Definition removeItem (k : string) (st : Storage) : Storage :=
  filter (fun kv => negb (String.eqb (fst kv) k)) st.

Definition setItem (k v : string) (st : Storage) : Storage :=
  (k, v) :: removeItem k st.

(** [sessionStorage.getItem(SESSION_KEY) === 'true'] *)
Definition sessionActive (st : Storage) : bool :=
  match getItem SESSION_KEY st with
  | Some v => String.eqb v "true"
  | None => false
  end.

(** The interface of [services/dbService] as the component imports it.
    The store itself lives outside the component; the handlers below are
    written against this interface. *)
Class DbService : Type := {
  DB : Type;
  getHistory : DB -> list ProcessedImage;
  saveHistoryItem : ProcessedImage -> DB -> DB;
  deleteHistoryItemFromDB : string -> DB -> DB;
  clearHistoryDB : DB -> DB
}.

(** Modelled from the spec: [services/dbService] is not part of the
    sources at hand.  The spec describes a table of processed-image
    records, addressable by identifier, stored in append order, supporting
    insert, list-all, delete-by-id and clear-all. *)
Definition tableDb : DbService := {|
  DB := list ProcessedImage;
  getHistory := fun t => t;
  saveHistoryItem := fun item t => (t ++ [item])%list;
  deleteHistoryItemFromDB :=
    fun i t => filter (fun item => negb (String.eqb (Types.id item) i)) t;
  clearHistoryDB := fun _ => []
|}.

(** The [useState] cells of the component. *)
Record State := mkState {
  originalBase64 : option string;
  processedUrl : option string;
  processingState : ProcessingState;
  imageSize : ImageSize;
  aspectRatio : AspectRatio;
  filmStock : FilmStock;
  iso : ISOValue;
  skinDetail : Z;
  history : list ProcessedImage;
  compareMode : bool;
  zoomScale : number;
  isKeyReady : bool;
  showKeyModal : bool
}.

Definition initialState : State := {|
  originalBase64 := None;
  processedUrl := None;
  processingState := {| Types.status := idle; Types.message := None |};
  imageSize := Size1K;
  aspectRatio := R1_1;
  filmStock := KodakPortra400;
  iso := ISO400;
  skinDetail := 50;
  history := [];
  compareMode := false;
  zoomScale := num_of_Z 1;
  isKeyReady := false;
  showKeyModal := false
|}.

(** The state setters. *)
Definition setOriginalBase64 (v : option string) (s : State) : State :=
  mkState v (processedUrl s) (processingState s) (imageSize s) (aspectRatio s)
    (filmStock s) (iso s) (skinDetail s) (history s) (compareMode s)
    (zoomScale s) (isKeyReady s) (showKeyModal s).

Definition setProcessedUrl (v : option string) (s : State) : State :=
  mkState (originalBase64 s) v (processingState s) (imageSize s) (aspectRatio s)
    (filmStock s) (iso s) (skinDetail s) (history s) (compareMode s)
    (zoomScale s) (isKeyReady s) (showKeyModal s).

Definition setProcessingState (v : ProcessingState) (s : State) : State :=
  mkState (originalBase64 s) (processedUrl s) v (imageSize s) (aspectRatio s)
    (filmStock s) (iso s) (skinDetail s) (history s) (compareMode s)
    (zoomScale s) (isKeyReady s) (showKeyModal s).

Definition setImageSize (v : ImageSize) (s : State) : State :=
  mkState (originalBase64 s) (processedUrl s) (processingState s) v (aspectRatio s)
    (filmStock s) (iso s) (skinDetail s) (history s) (compareMode s)
    (zoomScale s) (isKeyReady s) (showKeyModal s).

Definition setAspectRatio (v : AspectRatio) (s : State) : State :=
  mkState (originalBase64 s) (processedUrl s) (processingState s) (imageSize s) v
    (filmStock s) (iso s) (skinDetail s) (history s) (compareMode s)
    (zoomScale s) (isKeyReady s) (showKeyModal s).

Definition setFilmStock (v : FilmStock) (s : State) : State :=
  mkState (originalBase64 s) (processedUrl s) (processingState s) (imageSize s)
    (aspectRatio s) v (iso s) (skinDetail s) (history s) (compareMode s)
    (zoomScale s) (isKeyReady s) (showKeyModal s).

Definition setIso (v : ISOValue) (s : State) : State :=
  mkState (originalBase64 s) (processedUrl s) (processingState s) (imageSize s)
    (aspectRatio s) (filmStock s) v (skinDetail s) (history s) (compareMode s)
    (zoomScale s) (isKeyReady s) (showKeyModal s).

Definition setSkinDetail (v : Z) (s : State) : State :=
  mkState (originalBase64 s) (processedUrl s) (processingState s) (imageSize s)
    (aspectRatio s) (filmStock s) (iso s) v (history s) (compareMode s)
    (zoomScale s) (isKeyReady s) (showKeyModal s).

(** [setHistory(prev => f(prev))] *)
Definition setHistory (f : list ProcessedImage -> list ProcessedImage)
    (s : State) : State :=
  mkState (originalBase64 s) (processedUrl s) (processingState s) (imageSize s)
    (aspectRatio s) (filmStock s) (iso s) (skinDetail s) (f (history s))
    (compareMode s) (zoomScale s) (isKeyReady s) (showKeyModal s).

Definition setCompareMode (v : bool) (s : State) : State :=
  mkState (originalBase64 s) (processedUrl s) (processingState s) (imageSize s)
    (aspectRatio s) (filmStock s) (iso s) (skinDetail s) (history s) v
    (zoomScale s) (isKeyReady s) (showKeyModal s).

Definition setZoomScale (v : number) (s : State) : State :=
  mkState (originalBase64 s) (processedUrl s) (processingState s) (imageSize s)
    (aspectRatio s) (filmStock s) (iso s) (skinDetail s) (history s)
    (compareMode s) v (isKeyReady s) (showKeyModal s).

Definition setIsKeyReady (v : bool) (s : State) : State :=
  mkState (originalBase64 s) (processedUrl s) (processingState s) (imageSize s)
    (aspectRatio s) (filmStock s) (iso s) (skinDetail s) (history s)
    (compareMode s) (zoomScale s) v (showKeyModal s).

Definition setShowKeyModal (v : bool) (s : State) : State :=
  mkState (originalBase64 s) (processedUrl s) (processingState s) (imageSize s)
    (aspectRatio s) (filmStock s) (iso s) (skinDetail s) (history s)
    (compareMode s) (zoomScale s) (isKeyReady s) v.

Definition status_eqb (a b : Status) : bool :=
  match a, b with
  | idle, idle | checking_key, checking_key | uploading, uploading
  | processing, processing | error, error => true
  | _, _ => false
  end.

(** [buildFinalPrompt], a closure over the state of the render that
    created it. *)
Definition buildFinalPrompt (s : State) : string :=
  let basePrompt := Prompt.BASE_PROMPT_TEMPLATE (skinDetail s) in
  let grainPrompt := Prompt.grainPrompt (iso s) in
  let stockPrompt := Prompt.FILM_STOCK_CHARACTERISTICS (filmStock s) in
  basePrompt ++ " " ++ stockPrompt ++ " " ++ grainPrompt.

(** The [disabled] attribute of the submit button. *)
Definition submitDisabled (s : State) : bool :=
  negb (truthy_opt (originalBase64 s)) ||
  negb (status_eqb (Types.status (processingState s)) idle).

(** Which of its five alternatives the main panel renders. *)
Inductive View :=
| ComparisonView
| DevelopingView
| ResultView
| ErrorView
| DropZoneView.

Definition mainView (s : State) : View :=
  if compareMode s then ComparisonView
  else if negb (status_eqb (Types.status (processingState s)) idle) &&
          negb (status_eqb (Types.status (processingState s)) error)
  then DevelopingView
  else if truthy_opt (processedUrl s) && truthy_opt (originalBase64 s)
  then ResultView
  else if status_eqb (Types.status (processingState s)) error
  then ErrorView
  else DropZoneView.

(** [history.filter(h => h.selected).length > 0] *)
Definition anySelected (s : State) : bool :=
  existsb (fun h => match selected h with Some b => b | None => false end)
    (history s).

(** [{ ...item, selected: v }] *)
Definition with_selected (item : ProcessedImage) (v : option bool) : ProcessedImage :=
  mkProcessedImage (Types.id item) (originalUrl item) (Types.processedUrl item)
    (timestamp item) (prompt item) (size item) (Types.aspectRatio item)
    (Types.filmStock item) (Types.iso item) (Types.skinDetail item) v.

(** [!item.selected] on an optional boolean ([undefined] is falsy). *)
Definition not_selected (item : ProcessedImage) : bool :=
  match selected item with
  | Some b => negb b
  | None => true
  end.

(** The state update of [toggleSelection]. *)
Definition toggleSelection (i : string) (prev : list ProcessedImage)
  : list ProcessedImage :=
  map (fun item =>
         if String.eqb (Types.id item) i
         then with_selected item (Some (not_selected item))
         else item) prev.

(** The state update of [deleteHistoryItem]. *)
Definition deleteFromHistory (i : string) (prev : list ProcessedImage)
  : list ProcessedImage :=
  filter (fun item => negb (String.eqb (Types.id item) i)) prev.

(** The state update of [startProcessing] on success. *)
Definition prependToHistory (newEntry : ProcessedImage)
    (prev : list ProcessedImage) : list ProcessedImage :=
  newEntry :: prev.

(** *** Asynchronous handlers

    A handler that awaits is suspended with the variables of the render
    that created it (its closure); setters act on the current state when
    the handler resumes. *)

Section WithDbService.
Context {dbs : DbService}.

Inductive Task :=
| AwaitCheckKey (sessionActive : bool)
| AwaitGetHistory
| AwaitHasKey (closure : State)
| AwaitProcessImage (closure : State) (finalPrompt : string)
| AwaitSave (entry : ProcessedImage)
| AwaitDelete (i : string).

Record World := mkWorld {
  ui : State;
  sessionStorage : Storage;
  db : DB;
  tasks : list Task
}.

Definition with_ui (f : State -> State) (w : World) : World :=
  mkWorld (f (ui w)) (sessionStorage w) (db w) (tasks w).

Definition with_sessionStorage (f : Storage -> Storage) (w : World) : World :=
  mkWorld (ui w) (f (sessionStorage w)) (db w) (tasks w).

Definition with_db (f : DB -> DB) (w : World) : World :=
  mkWorld (ui w) (sessionStorage w) (f (db w)) (tasks w).

Definition with_tasks (f : list Task -> list Task) (w : World) : World :=
  mkWorld (ui w) (sessionStorage w) (db w) (f (tasks w)).

Fixpoint remove_nth {A : Type} (n : nat) (l : list A) : list A :=
  match l, n with
  | [], _ => []
  | _ :: t, O => t
  | x :: t, S n' => x :: remove_nth n' t
  end.

Fixpoint replace_nth {A : Type} (n : nat) (y : A) (l : list A) : list A :=
  match l, n with
  | [], _ => []
  | _ :: t, O => y :: t
  | x :: t, S n' => x :: replace_nth n' y t
  end.

(** The component right after mounting: both effects of the mount
    [useEffect] have started and await their promises. *)
Definition mount (st : Storage) (d : DB) : World := {|
  ui := initialState;
  sessionStorage := st;
  db := d;
  tasks := [ AwaitCheckKey (sessionActive st); AwaitGetHistory ]
|}.

(** [checkKeyStatus] after its await. *)
Definition checkKeyStatus_resume (sessionActive actuallyHasKey : bool)
    (w : World) : World :=
  with_ui (setIsKeyReady (sessionActive && actuallyHasKey)) w.

(** [loadHistory] after its await. *)
Definition loadHistory_resume (w : World) : World :=
  with_ui (setHistory (fun _ =>
             map (fun item => with_selected item (Some false))
                 (getHistory (db w)))) w.

(** [handleFileUpload], once the picked file has been read and decoded:
    [result] is the data URL, [width] and [height] the image's size. *)
Definition handleFileUpload (result : string) (width height : number)
    (w : World) : option World :=
  match Ratio.calculateClosestAspectRatio width height with
  | None => None
  | Some detectedRatio =>
      Some (with_ui (fun s =>
              setZoomScale (num_of_Z 1)
                (setProcessingState {| Types.status := idle; Types.message := None |}
                   (setProcessedUrl None
                      (setOriginalBase64 (Some result)
                         (setAspectRatio detectedRatio s))))) w)
  end.

(** [handleKeyActivation] after [openSelectKey] has resolved. *)
Definition handleKeyActivation (w : World) : World :=
  with_ui (fun s => setShowKeyModal false (setIsKeyReady true s))
    (with_sessionStorage (setItem SESSION_KEY "true") w).

(** [startProcessing] up to its first await. *)
Definition startProcessing (w : World) : World :=
  let closure := ui w in
  if negb (truthy_opt (originalBase64 closure)) then w
  else
    if negb (sessionActive (sessionStorage w)) then with_ui (setShowKeyModal true) w
    else
      with_tasks (fun ts => (ts ++ [AwaitHasKey closure])%list)
        (with_ui (setProcessingState
                    {| Types.status := checking_key;
                       Types.message := Some "Verifying Emulsion Engine..." |}) w).

(** The arguments [startProcessing] computes for [processImage]. *)
Definition base64Data (closure : State) : option string :=
  match originalBase64 closure with
  | Some o => nth_error (split "," o) 1
  | None => None
  end.

Definition mimeType (closure : State) : option string :=
  match originalBase64 closure with
  | Some o =>
      match split ";" o with
      | [] => None
      | h :: _ => nth_error (split ":" h) 1
      end
  | None => None
  end.

(** [startProcessing] from the resolution of [hasSelectedApiKey] to the
    call of [processImage], for the task at position [n]. *)
Definition startProcessing_hasKey (n : nat) (closure : State) (hasKey : bool)
    (w : World) : World :=
  if negb hasKey then
    with_tasks (remove_nth n)
      (with_ui (fun s =>
         setProcessingState {| Types.status := idle; Types.message := None |}
           (setShowKeyModal true s)) w)
  else
    with_tasks (replace_nth n (AwaitProcessImage closure (buildFinalPrompt closure)))
      (with_ui (setProcessingState
         {| Types.status := processing;
            Types.message :=
              Some ("Developing as " ++ Prompt.stock_name (filmStock closure) ++
                    " at ISO " ++ toString (iso_number (iso closure)) ++ "...") |}) w).

(** [err.message === text] *)
Definition message_is (err : Error) (text : string) : bool :=
  match Js.message err with
  | Some m => String.eqb m text
  | None => false
  end.

(** The [catch] block of [startProcessing]. *)
Definition startProcessing_catch (n : nat) (err : Error) (w : World) : World :=
  if message_is err "KEY_RESET_REQUIRED" then
    with_tasks (remove_nth n)
      (with_ui (fun s =>
         setProcessingState {| Types.status := idle; Types.message := None |}
           (setShowKeyModal true s))
         (with_sessionStorage (removeItem SESSION_KEY) w))
  else
    with_tasks (remove_nth n)
      (with_ui (setProcessingState
         {| Types.status := error;
            Types.message :=
              Some (or_else (Js.message err) "Chemical imbalance detected.") |}) w).

(** The record [startProcessing] builds for a developed image: [now_id]
    and [now_ts] are the two readings of [Date.now()]. *)
Definition newEntry (closure : State) (finalPrompt resultUrl : string)
    (now_id now_ts : Z) : ProcessedImage := {|
  Types.id := toString now_id;
  originalUrl := match originalBase64 closure with Some o => o | None => "" end;
  Types.processedUrl := resultUrl;
  timestamp := now_ts;
  prompt := finalPrompt;
  size := imageSize closure;
  Types.aspectRatio := aspectRatio closure;
  Types.filmStock := filmStock closure;
  Types.iso := iso closure;
  Types.skinDetail := skinDetail closure;
  selected := Some false
|}.

(** [startProcessing] once [processImage] has settled with [result]. *)
Definition startProcessing_processed (n : nat) (closure : State)
    (finalPrompt : string) (result : Outcome Error string)
    (now_id now_ts : Z) (w : World) : World :=
  match result with
  | Resolved resultUrl =>
      with_tasks
        (replace_nth n
           (AwaitSave (newEntry closure finalPrompt resultUrl now_id now_ts)))
        (with_ui (setProcessedUrl (Some resultUrl)) w)
  | Rejected err => startProcessing_catch n err w
  end.

(** [startProcessing] once [saveHistoryItem] has settled. *)
Definition startProcessing_saved (n : nat) (entry : ProcessedImage)
    (result : Outcome Error unit) (w : World) : World :=
  match result with
  | Resolved _ =>
      with_tasks (remove_nth n)
        (with_ui (fun s =>
           setIsKeyReady true
             (setZoomScale (num_of_Z 1)
                (setProcessingState {| Types.status := idle; Types.message := None |}
                   (setHistory (prependToHistory entry) s))))
           (with_db (saveHistoryItem entry) w))
  | Rejected err => startProcessing_catch n err w
  end.

(** [deleteHistoryItem] once [deleteHistoryItemFromDB] has settled; a
    rejection is not caught and ends the handler. *)
Definition deleteHistoryItem_resume (n : nat) (i : string)
    (result : Outcome Error unit) (w : World) : World :=
  match result with
  | Resolved _ =>
      with_tasks (remove_nth n)
        (with_ui (setHistory (deleteFromHistory i))
           (with_db (deleteHistoryItemFromDB i) w))
  | Rejected _ => with_tasks (remove_nth n) w
  end.

(** Selecting a print of the history strip. *)
Definition selectHistoryItem (item : ProcessedImage) (s : State) : State :=
  setZoomScale (num_of_Z 1)
    (setSkinDetail (if Types.skinDetail item =? 0 then 50 else Types.skinDetail item)
       (setIso (Types.iso item)
          (setFilmStock (Types.filmStock item)
             (setImageSize (size item)
                (setAspectRatio (Types.aspectRatio item)
                   (setProcessedUrl (Some (Types.processedUrl item))
                      (setOriginalBase64 (Some (originalUrl item)) s))))))).

(** *** The step relation of the component *)

Inductive Event :=
| KeyStatusChecked (n : nat) (actuallyHasKey : bool)
| HistoryLoaded (n : nat) (result : Outcome Error unit)
| FileLoaded (result : string) (width height : number)
| ClickSubmit
| HasKeySettled (n : nat) (result : Outcome Error bool)
| ProcessImageSettled (n : nat) (sdk : GeminiService.Sdk) (now_id now_ts : Z)
| SaveSettled (n : nat) (result : Outcome Error unit)
| ClickToggleSelection (i : string)
| ClickDelete (i : string)
| DeleteSettled (n : nat) (result : Outcome Error unit)
| ClickHistoryItem (k : nat)
| ClickRestartLab
| ClickClearProcessed
| ClickOpenKeyModal
| ClickCloseKeyModal
| KeyActivated
| ChooseFilmStock (stock : FilmStock)
| ChooseIso (v : ISOValue)
| ChooseSkinDetail (v : Z)
| ChooseImageSize (v : ImageSize)
| ClickCompareSelected
| ClickBackToLab.

(** What [processImage] returns for the task's arguments when the SDK
    behaves as [sdk] tells. *)
Definition processImage_result (closure : State) (finalPrompt : string)
    (sdk : GeminiService.Sdk) : Outcome Error string :=
  GeminiService.processImage sdk (base64Data closure)
    (mimeType closure) finalPrompt (imageSize closure) (aspectRatio closure).

(** One event of the component; [None] when the event cannot happen in
    the given world (a disabled or absent control, or no such task). *)
Definition step (w : World) (ev : Event) : option World :=
  match ev with
  | KeyStatusChecked n actuallyHasKey =>
      match nth_error (tasks w) n with
      | Some (AwaitCheckKey sessionActive) =>
          Some (with_tasks (remove_nth n)
                  (checkKeyStatus_resume sessionActive actuallyHasKey w))
      | _ => None
      end
  | HistoryLoaded n result =>
      match nth_error (tasks w) n with
      | Some AwaitGetHistory =>
          match result with
          | Resolved _ => Some (with_tasks (remove_nth n) (loadHistory_resume w))
          | Rejected _ => Some (with_tasks (remove_nth n) w)
          end
      | _ => None
      end
  | FileLoaded result width height => handleFileUpload result width height w
  | ClickSubmit =>
      if submitDisabled (ui w) then None else Some (startProcessing w)
  | HasKeySettled n result =>
      match nth_error (tasks w) n with
      | Some (AwaitHasKey closure) =>
          match result with
          | Resolved hasKey => Some (startProcessing_hasKey n closure hasKey w)
          | Rejected _ => Some (with_tasks (remove_nth n) w)
          end
      | _ => None
      end
  | ProcessImageSettled n sdk now_id now_ts =>
      match nth_error (tasks w) n with
      | Some (AwaitProcessImage closure finalPrompt) =>
          Some (startProcessing_processed n closure finalPrompt
                  (processImage_result closure finalPrompt sdk) now_id now_ts w)
      | _ => None
      end
  | SaveSettled n result =>
      match nth_error (tasks w) n with
      | Some (AwaitSave entry) => Some (startProcessing_saved n entry result w)
      | _ => None
      end
  | ClickToggleSelection i => Some (with_ui (setHistory (toggleSelection i)) w)
  | ClickDelete i => Some (with_tasks (fun ts => (ts ++ [AwaitDelete i])%list) w)
  | DeleteSettled n result =>
      match nth_error (tasks w) n with
      | Some (AwaitDelete i) => Some (deleteHistoryItem_resume n i result w)
      | _ => None
      end
  | ClickHistoryItem k =>
      match nth_error (history (ui w)) k with
      | Some item => Some (with_ui (selectHistoryItem item) w)
      | None => None
      end
  | ClickRestartLab =>
      match mainView (ui w) with
      | ErrorView =>
          Some (with_ui (setProcessingState
                  {| Types.status := idle; Types.message := None |}) w)
      | _ => None
      end
  | ClickClearProcessed =>
      match mainView (ui w) with
      | ResultView =>
          Some (with_ui (fun s => setZoomScale (num_of_Z 1) (setProcessedUrl None s)) w)
      | _ => None
      end
  | ClickOpenKeyModal => Some (with_ui (setShowKeyModal true) w)
  | ClickCloseKeyModal => Some (with_ui (setShowKeyModal false) w)
  | KeyActivated => Some (handleKeyActivation w)
  | ChooseFilmStock stock => Some (with_ui (setFilmStock stock) w)
  | ChooseIso v => Some (with_ui (setIso v) w)
  | ChooseSkinDetail v => Some (with_ui (setSkinDetail v) w)
  | ChooseImageSize v => Some (with_ui (setImageSize v) w)
  | ClickCompareSelected =>
      if anySelected (ui w)
      then Some (with_ui (fun s => setCompareMode (negb (compareMode s)) s) w)
      else None
  | ClickBackToLab =>
      match mainView (ui w) with
      | ComparisonView => Some (with_ui (setCompareMode false) w)
      | _ => None
      end
  end.

(** Running a sequence of events. *)
Fixpoint run (w : World) (evs : list Event) : option World :=
  match evs with
  | [] => Some w
  | ev :: rest =>
      match step w ev with
      | Some w' => run w' rest
      | None => None
      end
  end.

(** Running events for as long as they can happen. *)
Fixpoint run_upto (w : World) (evs : list Event) : World :=
  match evs with
  | [] => w
  | ev :: rest =>
      match step w ev with
      | Some w' => run_upto w' rest
      | None => w
      end
  end.

(** One uninterrupted run of [startProcessing], from the click to the
    end of the handler: [hasKey] and [save] are what the first and the
    third awaited promise settle with, [sdk] is the SDK the call of
    [processImage] meets. *)
Definition develop (w : World) (hasKey : Outcome Error bool)
    (sdk : GeminiService.Sdk)
    (now_id now_ts : Z) (save : Outcome Error unit) : World :=
  let n := List.length (tasks w) in
  run_upto w [ ClickSubmit;
               HasKeySettled n hasKey;
               ProcessImageSettled n sdk now_id now_ts;
               SaveSettled n save ].

(** The calls of [processImage] that have been issued and have not yet
    settled. *)
Definition outstanding (w : World) : nat :=
  List.length (filter (fun t => match t with
                                | AwaitProcessImage _ _ => true
                                | _ => false
                                end) (tasks w)).

End WithDbService.

End App.

(* ================================================================== *)
(** ** Vocabulary for stating the properties *)

Module Spec.
Import Js GeminiService.

(** [p] occurs at the start of [s]. *)
Definition Prefix (p s : string) : Prop := exists r, s = p ++ r.

(** [p] occurs somewhere in [s]. *)
Definition Substring (p s : string) : Prop := exists a b, s = a ++ p ++ b.

(** The first candidate of a response, when it has one. *)
Definition firstCandidate (r : GenerateContentResponse) : option Candidate :=
  match candidates r with
  | Some (c :: _) => Some c
  | _ => None
  end.

(** The parts of a candidate; none when content or parts are missing. *)
Definition partsOf (c : Candidate) : list Part :=
  match content c with
  | Some ct => match parts ct with Some ps => ps | None => [] end
  | None => []
  end.

Definition carriesImage (p : Part) : bool :=
  match inlineData p with Some _ => true | None => false end.

(** The data of the first part that carries [inlineData]. *)
Definition firstImage (ps : list Part) : option string :=
  match find carriesImage ps with
  | Some p => option_map data (inlineData p)
  | None => None
  end.

(** The text parts, each followed by one space, in order. *)
Fixpoint accumulatedText (ps : list Part) : string :=
  match ps with
  | [] => ""
  | p :: rest =>
      match text p with
      | Some t => if truthy t then t ++ " " ++ accumulatedText rest
                  else accumulatedText rest
      | None => accumulatedText rest
      end
  end.

(** The decimal numeral of each ISO value. *)
Definition isoNumeral (i : Types.ISOValue) : string :=
  match i with
  | Types.ISO200 => "200"
  | Types.ISO400 => "400"
  | Types.ISO800 => "800"
  | Types.ISO1600 => "1600"
  end.

(** [l'] is [l] without the records whose identifier is [i]: every other
    record stays, unchanged and in its place relative to the others. *)
Inductive RemovedById (i : string)
  : list Types.ProcessedImage -> list Types.ProcessedImage -> Prop :=
| removed_nil : RemovedById i [] []
| removed_drop item l l' :
    Types.id item = i -> RemovedById i l l' -> RemovedById i (item :: l) l'
| removed_keep item l l' :
    Types.id item <> i -> RemovedById i l l' ->
    RemovedById i (item :: l) (item :: l').

(** Two records agree on every field but [selected]. *)
Definition sameButSelected (a b : Types.ProcessedImage) : Prop :=
  Types.id a = Types.id b /\
  Types.originalUrl a = Types.originalUrl b /\
  Types.processedUrl a = Types.processedUrl b /\
  Types.timestamp a = Types.timestamp b /\
  Types.prompt a = Types.prompt b /\
  Types.size a = Types.size b /\
  Types.aspectRatio a = Types.aspectRatio b /\
  Types.filmStock a = Types.filmStock b /\
  Types.iso a = Types.iso b /\
  Types.skinDetail a = Types.skinDetail b.

(** A number that is finite and greater than zero, as the width and the
    height of a decoded picture are. *)
Definition positiveFinite (x : number) : bool :=
  match x with
  | S754_finite false _ _ => true
  | _ => false
  end.




(** The five supported ratios, in the order in which they are listed. *)
Definition listed : list Types.AspectRatio :=
  [Types.R1_1; Types.R3_4; Types.R4_3; Types.R9_16; Types.R16_9].

(** The place of a ratio in that order. *)
Definition place (r : Types.AspectRatio) : nat :=
  match r with
  | Types.R1_1 => 0
  | Types.R3_4 => 1
  | Types.R4_3 => 2
  | Types.R9_16 => 3
  | Types.R16_9 => 4
  end.


(** The two terms of a ratio, as its label names them. *)
Definition terms (r : Types.AspectRatio) : Z * Z :=
  match r with
  | Types.R1_1 => (1, 1)
  | Types.R3_4 => (3, 4)
  | Types.R4_3 => (4, 3)
  | Types.R9_16 => (9, 16)
  | Types.R16_9 => (16, 9)
  end.



(** The same difference in exact arithmetic, for a picture of [w] by [h]
    pixels: the fraction |a/b - w/h| for the ratio a:b, as numerator and
    denominator. *)
Definition exactGap (w h : Z) (r : Types.AspectRatio) : Z * Z :=
  (Z.abs (fst (terms r) * h - w * snd (terms r)), snd (terms r) * h).

(** Order and equality of two fractions with positive denominators. *)
Definition fracLt (x y : Z * Z) : bool := fst x * snd y <? fst y * snd x.

Definition fracEq (x y : Z * Z) : bool := fst x * snd y =? fst y * snd x.

(** The ratio at the least exact difference from w/h, the earliest listed
    one where several are. *)
Definition exactClosest (w h : Z) : Types.AspectRatio :=
  fold_left
    (fun best r => if fracLt (exactGap w h r) (exactGap w h best) then r else best)
    (tl listed) Types.R1_1.

(** The finish reasons that stop [processImage]. *)
Definition stopped (c : Candidate) : Prop :=
  finishReason c = Some "SAFETY" \/
  finishReason c = Some "RECITATION" \/
  finishReason c = Some "OTHER".

End Spec.

(* ================================================================== *)
(** ** Concrete inputs used by the examples below *)

Module Examples.
Import Js Types GeminiService.

(** A response whose only part is a text part holding one space. *)
Definition blankTextCandidate : Candidate :=
  {| finishReason := Some "STOP";
     content := Some {| parts := Some [ {| inlineData := None; text := Some " " |} ] |} |}.

Definition blankTextResponse : GenerateContentResponse :=
  {| candidates := Some [ blankTextCandidate ] |}.

(** A response with a text part followed by two image parts. *)
Definition imageResponse : GenerateContentResponse :=
  {| candidates := Some [
       {| finishReason := Some "STOP";
          content := Some {| parts := Some [
            {| inlineData := None; text := Some "Here is the print." |};
            {| inlineData := Some {| data := "QUJD" |}; text := None |};
            {| inlineData := Some {| data := "REVG" |}; text := None |} ] |} |} ] |}.

(** A response that explains in words why no image was produced. *)
Definition refusalResponse : GenerateContentResponse :=
  {| candidates := Some [
       {| finishReason := None;
          content := Some {| parts := Some [
            {| inlineData := None; text := Some " I cannot edit" |};
            {| inlineData := None; text := Some "" |};
            {| inlineData := None; text := Some "this photo." |} ] |} |} ] |}.

(** Two component states that agree on skin detail, film stock and ISO
    and differ in everything else the prompt could have looked at. *)
Definition freshState : App.State :=
  App.setSkinDetail 85 (App.setIso ISO800 (App.setFilmStock Cinestill800T App.initialState)).

Definition busyState : App.State :=
  App.setShowKeyModal true
    (App.setImageSize Size4K
       (App.setAspectRatio R16_9
          (App.setOriginalBase64 (Some "data:image/png;base64,QUJD")
             (App.setProcessingState
                {| Types.status := processing; Types.message := Some "Developing" |}
                freshState)))).

(** A session with the key flag set and an empty store, right after the
    component has mounted. *)
Definition sessionWorld : App.World (dbs := App.tableDb) :=
  App.mount (dbs := App.tableDb) [(App.SESSION_KEY, "true")] [].

Definition picture : string := "data:image/png;base64,QUJD".
Definition otherPicture : string := "data:image/jpeg;base64,REVG".

(** The user loads a picture, presses the submit button, and the key
    check succeeds: [processImage] is now pending. *)
Definition uploadAndSubmit : list App.Event :=
  [ App.FileLoaded picture (num_of_Z 1920) (num_of_Z 1080);
    App.ClickSubmit;
    App.HasKeySettled 2 (Resolved true) ].

Definition developingWorld : App.World (dbs := App.tableDb) :=
  App.run_upto sessionWorld uploadAndSubmit.

(** While that call is pending the user loads another picture. *)
Definition reloadedWorld : App.World (dbs := App.tableDb) :=
  App.run_upto developingWorld
    [ App.FileLoaded otherPicture (num_of_Z 1080) (num_of_Z 1080) ].

(** ... and presses the submit button again. *)
Definition resubmittedWorld : App.World (dbs := App.tableDb) :=
  App.run_upto reloadedWorld [ App.ClickSubmit; App.HasKeySettled 3 (Resolved true) ].

(** The component state captured by the pending handler. *)
Definition pendingClosure : App.State :=
  App.setZoomScale (num_of_Z 1)
    (App.setProcessingState {| Types.status := idle; Types.message := None |}
       (App.setProcessedUrl None
          (App.setOriginalBase64 (Some picture)
             (App.setAspectRatio R16_9 App.initialState)))).

(** Failures of the API call. *)
Definition entityNotFoundError : Js.Error :=
  {| Js.message := Some "Requested entity was not found.";
     Js.status := Some 404 |}.

Definition entityNotFound : Sdk := Resolved (fun _ => Rejected entityNotFoundError).

Definition tooManyRequests : Sdk :=
  Resolved (fun _ => Rejected {| Js.message := Some "429 Too Many Requests";
                                 Js.status := Some 429 |}).


Definition constructorEntityNotFound : Sdk := Rejected entityNotFoundError.

Definition print1 : ProcessedImage :=
  {| id := "1700000000001"; originalUrl := "data:image/png;base64,QQ==";
     processedUrl := "data:image/png;base64,Qg=="; timestamp := 1700000000001;
     prompt := "p1"; size := Size1K; aspectRatio := R1_1;
     filmStock := KodakPortra400; iso := ISO400; skinDetail := 50;
     selected := Some false |}.

Definition print2 : ProcessedImage :=
  {| id := "1700000000002"; originalUrl := "data:image/png;base64,Qw==";
     processedUrl := "data:image/png;base64,RA=="; timestamp := 1700000000002;
     prompt := "p2"; size := Size2K; aspectRatio := R4_3;
     filmStock := IlfordHP5Plus; iso := ISO1600; skinDetail := 10;
     selected := Some true |}.

Definition print3 : ProcessedImage :=
  {| id := "1700000000003"; originalUrl := "data:image/png;base64,RQ==";
     processedUrl := "data:image/png;base64,Rg=="; timestamp := 1700000000003;
     prompt := "p3"; size := Size4K; aspectRatio := R16_9;
     filmStock := Cinestill800T; iso := ISO800; skinDetail := 90;
     selected := None |}.

End Examples.

(* ================================================================== *)
(** ** Further JavaScript primitives *)

Module JsMore.
Import Js.

(** [+] and [*] on numbers, and the comparisons [<=] and [===]. *)
Definition num_add (x y : number) : number := SFadd prec emax x y.
Definition num_mul (x y : number) : number := SFmul prec emax x y.
Definition num_le (x y : number) : bool := SFleb x y.
Definition num_eq (x y : number) : bool := SFeqb x y.

(** [Math.max] and [Math.min] of two numbers: NaN when either is NaN,
    and +0 counts as larger than -0. *)
Definition Math_max (x y : number) : number :=
  match SFcompare x y with
  | None => S754_nan
  | Some Lt => y
  | Some Gt => x
  | Some Eq => match x with S754_zero true => y | _ => x end
  end.

Definition Math_min (x y : number) : number :=
  match SFcompare x y with
  | None => S754_nan
  | Some Lt => x
  | Some Gt => y
  | Some Eq => match y with S754_zero true => y | _ => x end
  end.

(** The characters of [s] that satisfy [keep]. *)
Fixpoint filterChars (keep : ascii -> bool) (s : string) : string :=
  match s with
  | EmptyString => EmptyString
  | String c s' =>
      if keep c then String c (filterChars keep s') else filterChars keep s'
  end.

Definition isParen (c : ascii) : bool :=
  Ascii.eqb c "("%char || Ascii.eqb c ")"%char.

(** [s.replace(/[()]/g, '')] *)
Definition removeParens (s : string) : string :=
  filterChars (fun c => negb (isParen c)) s.

(** [s.replace(/\s+/g, '-')]: [inRun] tells that the previous character
    was white space, so that the current run has its hyphen already. *)
Fixpoint hyphenateFrom (inRun : bool) (s : string) : string :=
  match s with
  | EmptyString => EmptyString
  | String c s' =>
      if isWhiteSpace c
      then if inRun then hyphenateFrom true s'
           else String "-"%char (hyphenateFrom true s')
      else String c (hyphenateFrom false s')
  end.

Definition hyphenate (s : string) : string := hyphenateFrom false s.

Fixpoint repeatChar (n : nat) (c : ascii) : string :=
  match n with
  | O => EmptyString
  | S n' => String c (repeatChar n' c)
  end.

(** [s.padStart(target, c)] for a one-character pad string. *)
Definition padStart (target : nat) (c : ascii) (s : string) : string :=
  repeatChar (target - String.length s) c ++ s.

Fixpoint dropChars (n : nat) (s : string) : string :=
  match n, s with
  | S n', String _ s' => dropChars n' s'
  | _, _ => s
  end.

(** [s.replace(sub, rep)] for a string pattern: the first occurrence. *)
Fixpoint replaceFirst (s sub rep : string) : string :=
  if startsWith s sub then rep ++ dropChars (String.length sub) s
  else match s with
       | EmptyString => EmptyString
       | String c s' => String c (replaceFirst s' sub rep)
       end.

(** [s.split(sep)] for a separator of one or more characters: [skip]
    counts the characters of a separator just found that are still to be
    passed over. *)
Fixpoint splitFrom (sep : string) (skip : nat) (s : string) : list string :=
  match s with
  | EmptyString => [EmptyString]
  | String c s' =>
      match skip with
      | S k => splitFrom sep k s'
      | O =>
          if startsWith s sep
          then EmptyString :: splitFrom sep (String.length sep - 1) s'
          else match splitFrom sep 0 s' with
               | [] => [String c EmptyString]
               | h :: t => String c h :: t
               end
      end
  end.

Definition splitOn (sep s : string) : list string := splitFrom sep 0 s.

End JsMore.

(* ================================================================== *)
(** ** The application component: theme, file names, zoom, error panel *)

Module AppMore.
Import Js JsMore Types App.

Record ThemeConfig := mkTheme {
  brand : string;
  accent : string;
  logo : string;
  logoBg : string;
  logoText : string
}.

Definition THEMES_kodak : ThemeConfig :=
  {| brand := "#E12127"; accent := "#FFD500"; logo := "K";
     logoBg := "#FFD500"; logoText := "#E12127" |}.

Definition THEMES_fuji : ThemeConfig :=
  {| brand := "#00843D"; accent := "#FFFFFF"; logo := "F";
     logoBg := "#FFFFFF"; logoText := "#00843D" |}.

Definition THEMES_mono : ThemeConfig :=
  {| brand := "#FFFFFF"; accent := "#444444"; logo := "I";
     logoBg := "#222222"; logoText := "#FFFFFF" |}.

(** [{ ...theme, logo: l }] *)
Definition with_logo (theme : ThemeConfig) (l : string) : ThemeConfig :=
  mkTheme (brand theme) (accent theme) l (logoBg theme) (logoText theme).

(** [getThemeForStock], on the string a film stock is. *)
Definition getThemeForStock (stock : string) : ThemeConfig :=
  if includes stock "Kodak" && negb (includes stock "B&W") then THEMES_kodak
  else if includes stock "Fujifilm" then THEMES_fuji
  else if includes stock "Cinestill" then with_logo THEMES_mono "C"
  else if includes stock "B&W" || includes stock "Ilford" then THEMES_mono
  else THEMES_kodak.

(** What [getDownloadFilename] reads of the [Date] object it creates:
    the fields of the local time. *)
Record LocalDate := mkLocalDate {
  getFullYear : Z;
  getMonth : Z;
  getDate : Z;
  getHours : Z;
  getMinutes : Z;
  getSeconds : Z
}.

(** [pad] of [getDownloadFilename] *)
Definition pad (n : Z) : string := padStart 2 "0"%char (toString n).

Definition dateStr (date : LocalDate) : string :=
  toString (getFullYear date) ++ pad (getMonth date + 1) ++ pad (getDate date)
  ++ "-" ++ pad (getHours date) ++ pad (getMinutes date) ++ pad (getSeconds date).

Definition slug (stock : string) : string :=
  hyphenate (trim (removeParens stock)).

(** [getDownloadFilename]; [date] is the [Date] made from the time stamp,
    or the current one when there is none. *)
Definition getDownloadFilename (stock : string) (isoValue : Z)
    (date : LocalDate) : string :=
  slug stock ++ "-iso" ++ toString isoValue ++ "-" ++ dateStr date ++ ".png".

(** The steps of the zoom buttons. *)
Definition half : number := num_div (num_of_Z 1) (num_of_Z 2).
Definition minus_half : number := SFopp half.

(** [handleZoom] *)
Definition handleZoom (delta : number) (s : State) : State :=
  setZoomScale
    (Math_min (Math_max (num_add (zoomScale s) delta) (num_of_Z 1)) (num_of_Z 4))
    s.

Inductive ParsedType := rejection | plain_error.

Record Parsed := mkParsed {
  type : ParsedType;
  main : string;
  why : option string;
  remedy : option string
}.

(** [parseErrorMessage] *)
Definition parseErrorMessage (msg : string) : Parsed :=
  if startsWith msg "REJECTION:" then
    let parts := splitOn "WHY:" msg in
    let main := trim (replaceFirst (nth 0 parts "") "REJECTION:" "") in
    let whyAndRemedy :=
      match nth_error parts 1 with
      | Some p1 => if truthy p1 then map Some (splitOn "REMEDY:" p1)
                   else [None; None]
      | None => [None; None]
      end in
    {| type := rejection;
       main := main;
       why := option_map trim (nth 0 whyAndRemedy None);
       remedy := option_map trim (nth 1 whyAndRemedy None) |}
  else
    {| type := plain_error; main := msg; why := None; remedy := None |}.

End AppMore.

(* ================================================================== *)
(** ** components/ComparisonSlider.tsx *)

Module Slider.
Import Js JsMore.

(** The state cells of the slider and its [lastMousePos] reference. *)
Record State := mkState {
  position : number;
  isDraggingSlider : bool;
  pan : number * number;
  isPanning : bool;
  containerWidth : number;
  lastMousePos : number * number
}.

Definition zero : number := num_of_Z 0.

Definition initialState : State := {|
  position := num_of_Z 50;
  isDraggingSlider := false;
  pan := (zero, zero);
  isPanning := false;
  containerWidth := zero;
  lastMousePos := (zero, zero)
|}.

(** The part of [getBoundingClientRect()] the handlers read. *)
Record Rect := mkRect { left : number; width : number }.

(** The effect on [zoomScale]: back at 1, the pan is reset. *)
Definition zoomEffect (zoomScale : number) (st : State) : State :=
  if num_eq zoomScale (num_of_Z 1)
  then mkState (position st) (isDraggingSlider st) (zero, zero)
         (isPanning st) (containerWidth st) (lastMousePos st)
  else st.

(** [handleMouseMove]: [container] is absent while the element is not
    mounted; [clientX] and [clientY] are the pointer's coordinates. *)
Definition handleMouseMove (zoomScale : number) (container : option Rect)
    (clientX clientY : number) (st : State) : State :=
  match container with
  | None => st
  | Some rect =>
      if isDraggingSlider st then
        let x := num_mul (num_div (num_sub clientX (left rect)) (width rect))
                         (num_of_Z 100) in
        mkState (Math_min (Math_max x zero) (num_of_Z 100))
          (isDraggingSlider st) (pan st) (isPanning st) (containerWidth st)
          (lastMousePos st)
      else if isPanning st && num_lt (num_of_Z 1) zoomScale then
        let dx := num_sub clientX (fst (lastMousePos st)) in
        let dy := num_sub clientY (snd (lastMousePos st)) in
        mkState (position st) (isDraggingSlider st)
          (num_add (fst (pan st)) dx, num_add (snd (pan st)) dy)
          (isPanning st) (containerWidth st) (clientX, clientY)
      else st
  end.

Definition startDraggingSlider (st : State) : State :=
  mkState (position st) true (pan st) (isPanning st) (containerWidth st)
    (lastMousePos st).

Definition startPanning (zoomScale : number) (clientX clientY : number)
    (st : State) : State :=
  if num_le zoomScale (num_of_Z 1) || isDraggingSlider st then st
  else mkState (position st) (isDraggingSlider st) (pan st) true
         (containerWidth st) (clientX, clientY).

Definition stopAll (st : State) : State :=
  mkState (position st) false (pan st) false (containerWidth st)
    (lastMousePos st).

(** The events of the slider, for a given [zoomScale] property. *)
Inductive Event :=
| MouseMove (container : option Rect) (clientX clientY : number)
| DragStart
| PanStart (clientX clientY : number)
| Stop
| Resized (w : number).

Definition step (zoomScale : number) (st : State) (ev : Event) : State :=
  match ev with
  | MouseMove container clientX clientY =>
      handleMouseMove zoomScale container clientX clientY st
  | DragStart => startDraggingSlider st
  | PanStart clientX clientY => startPanning zoomScale clientX clientY st
  | Stop => stopAll st
  | Resized w =>
      mkState (position st) (isDraggingSlider st) (pan st) (isPanning st) w
        (lastMousePos st)
  end.

End Slider.

(* ================================================================== *)
(** ** Further vocabulary and inputs *)

Module SpecMore.
Import Js JsMore Types.


(** Every character of [s] satisfies [ok]. *)
Fixpoint allChars (ok : ascii -> bool) (s : string) : bool :=
  match s with
  | EmptyString => true
  | String c s' => ok c && allChars ok s'
  end.

(** Every record has its [selected] flag. *)
Definition flagsDefined (l : list ProcessedImage) : bool :=
  forallb (fun item => match selected item with Some _ => true | None => false end) l.

(** No record is flagged as selected. *)
Definition noneSelected (l : list ProcessedImage) : bool :=
  forallb (fun item => match selected item with Some false => true | _ => false end) l.

(** No record of [l] has the identifier [i]. *)
Definition freshId (i : string) (l : list ProcessedImage) : bool :=
  forallb (fun item => negb (String.eqb (Types.id item) i)) l.

(** The three intensity bands of the base prompt. *)
Inductive Band := Light | Balanced | HighFidelity.

Definition band (intensity : Z) : Band :=
  if intensity <? 30 then Light
  else if intensity >? 70 then HighFidelity
  else Balanced.

Definition allBands : list Band := [Light; Balanced; HighFidelity].

Definition allStocks : list FilmStock :=
  [KodakPortra400; KodakGold200; KodakEktachromeE100; KodakTriX400;
   FujifilmVelvia50; FujifilmProvia100F; FujifilmPro400H; IlfordHP5Plus;
   Cinestill800T].

Definition allIsos : list ISOValue := [ISO200; ISO400; ISO800; ISO1600].

(** An intensity of each band. *)
Definition sample (b : Band) : Z :=
  match b with Light => 0 | Balanced => 50 | HighFidelity => 100 end.

(** The settings a prompt is built from, up to the band. *)
Definition Settings : Type := (Band * FilmStock * ISOValue)%type.

Definition allSettings : list Settings :=
  list_prod (list_prod allBands allStocks) allIsos.

Definition promptOf (t : Settings) : string :=
  let '(b, stock, i) := t in
  Prompt.BASE_PROMPT_TEMPLATE (sample b) ++ " " ++
  Prompt.FILM_STOCK_CHARACTERISTICS stock ++ " " ++ Prompt.grainPrompt i.

Definition band_eqb (a b : Band) : bool :=
  match a, b with
  | Light, Light | Balanced, Balanced | HighFidelity, HighFidelity => true
  | _, _ => false
  end.

Definition stock_eqb (a b : FilmStock) : bool :=
  String.eqb (Prompt.stock_name a) (Prompt.stock_name b).

Definition iso_eqb (a b : ISOValue) : bool := iso_number a =? iso_number b.

Definition settings_eqb (a b : Settings) : bool :=
  let '(b1, s1, i1) := a in
  let '(b2, s2, i2) := b in
  band_eqb b1 b2 && stock_eqb s1 s2 && iso_eqb i1 i2.

(** Some non-empty end of [p] is a start of [b]. *)
Fixpoint suffixStarts (p b : string) : bool :=
  match p with
  | EmptyString => false
  | String _ p' => startsWith b p || suffixStarts p' b
  end.

(** No occurrence of [sep] in [a ++ tail] starts within [a]. *)
Fixpoint clean (sep a tail : string) : bool :=
  match a with
  | EmptyString => true
  | String _ a' => negb (startsWith (a ++ tail) sep) && clean sep a' tail
  end.

(** The characters a slug is made of: no white space, no parenthesis. *)
Definition slugChar (c : ascii) : bool :=
  negb (isWhiteSpace c) && negb (isParen c).

(** The integers from [lo] on, [len] of them. *)
Definition zrange (lo len : Z) : list Z :=
  map (fun k => lo + Z.of_nat k) (seq 0 (Z.to_nat len)).

(** A number lies between [lo] and [hi], both included. *)
Definition within (lo hi x : number) : bool := num_le lo x && num_le x hi.

Definition ratio_eqb (a b : Types.AspectRatio) : bool :=
  (Spec.place a =? Spec.place b)%nat.

(** For a picture of [w] by [h] pixels, the answer of
    [calculateClosestAspectRatio] set against the ratio at the least
    exact difference: the two agree, unless w:h is 7:6 or 14:9, where
    the answer is 4:3 and 16:9 and the earlier ratio at the same exact
    difference is 1:1 and 4:3. *)
Definition agreesWithExact (w h : Z) : bool :=
  match Ratio.calculateClosestAspectRatio (num_of_Z w) (num_of_Z h) with
  | None => false
  | Some r =>
      if 6 * w =? 7 * h
      then ratio_eqb r Types.R4_3 && ratio_eqb (Spec.exactClosest w h) Types.R1_1
      else if 9 * w =? 14 * h
      then ratio_eqb r Types.R16_9 && ratio_eqb (Spec.exactClosest w h) Types.R4_3
      else ratio_eqb r (Spec.exactClosest w h)
  end.

Definition isNaN (x : number) : bool :=
  match x with S754_nan => true | _ => false end.

Definition isFinite (x : number) : bool :=
  match x with S754_finite _ _ _ | S754_zero _ => true | _ => false end.

End SpecMore.

(* ================================================================== *)
(** ** Runs of the component *)

Module AppRuns.
Import Js Types App.

(** The tasks of a development: a [startProcessing] that has passed its
    checks and has not ended. *)
Definition inFlight (t : Task) : bool :=
  match t with
  | AwaitHasKey _ | AwaitProcessImage _ _ | AwaitSave _ => true
  | _ => false
  end.

Definition isFileLoaded (ev : Event) : bool :=
  match ev with FileLoaded _ _ _ => true | _ => false end.

Section WithDbService.
Context {dbs : DbService}.

(** The number of developments under way. *)
Definition developments (w : World) : nat :=
  List.length (filter inFlight (tasks w)).

(** A run in which no picture is loaded while a development is under
    way. *)
Fixpoint run_calm (w : World) (evs : list Event) : option World :=
  match evs with
  | [] => Some w
  | ev :: rest =>
      if isFileLoaded ev && negb (developments w =? 0)%nat then None
      else match step w ev with
           | Some w' => run_calm w' rest
           | None => None
           end
  end.

End WithDbService.

(** A session in which one picture has been developed and saved, and a
    second development of the same picture is pending. *)
Definition secondDevelopment : World (dbs := tableDb) :=
  run_upto Examples.developingWorld
    [ ProcessImageSettled 2 (Resolved (fun _ => Resolved Examples.imageResponse))
        1700000000005 1700000000006;
      SaveSettled 2 (Resolved tt);
      ClickSubmit;
      HasKeySettled 2 (Resolved true) ].

(** The component state captured by that second development. *)
Definition secondClosure : State :=
  match nth_error (tasks secondDevelopment) 2 with
  | Some (AwaitProcessImage closure _) => closure
  | _ => initialState
  end.

(** A session from its mounting on: a picture is developed and saved, it
    is developed a second time, and while the second print is being
    saved the first print is ticked. *)
Definition savingEvents : list Event :=
  (Examples.uploadAndSubmit ++
   [ ProcessImageSettled 2 (Resolved (fun _ => Resolved Examples.imageResponse))
       1700000000005 1700000000006;
     SaveSettled 2 (Resolved tt);
     ClickSubmit;
     HasKeySettled 2 (Resolved true);
     ProcessImageSettled 2 (Resolved (fun _ => Resolved Examples.imageResponse))
       1700000000015 1700000000016;
     ClickToggleSelection "1700000000005" ])%list.

Definition savingWorld : World (dbs := tableDb) :=
  run_upto Examples.sessionWorld savingEvents.

End AppRuns.

(* ================================================================== *)
(** * Properties *)

Import Js.

(** ** Strings *)

Lemma startsWith_Prefix (s p : string) :
  startsWith s p = true <-> Spec.Prefix p s.
Proof.
  revert s; induction p as [|c p IH]; intros s; simpl.
  - split; [intros _; exists s; reflexivity | reflexivity].
  - destruct s as [|d s].
    + split; [discriminate | intros [r H]; discriminate].
    + rewrite andb_true_iff, Ascii.eqb_eq, IH. split.
      * intros [-> [r ->]]. exists r. reflexivity.
      * intros [r H]. simpl in H. injection H as -> ->.
        split; [reflexivity | exists r; reflexivity].
Qed.

Lemma includes_Substring (s p : string) :
  includes s p = true <-> Spec.Substring p s.
Proof.
  induction s as [|d s IH].
  - cbn [includes]. rewrite orb_false_r, startsWith_Prefix. split.
    + intros [r H]. exists "", r. exact H.
    + intros [a [b H]]. destruct a; [exists b; exact H | discriminate].
  - cbn [includes]. rewrite orb_true_iff, IH, startsWith_Prefix. split.
    + intros [[r H] | [a [b H]]].
      * exists "", r. exact H.
      * exists (String d a), b. simpl. rewrite H. reflexivity.
    + intros [a [b H]]. destruct a as [|d' a]; simpl in H.
      * left. exists b. exact H.
      * right. injection H as _ ->. exists a, b. reflexivity.
Qed.

Lemma append_assoc (a b c : string) : (a ++ b) ++ c = a ++ b ++ c.
Proof. induction a as [|x a IH]; simpl; [reflexivity | now rewrite IH]. Qed.

Lemma truthy_false (s : string) : truthy s = false <-> s = "".
Proof. destruct s; simpl; split; congruence. Qed.

Lemma truthy_true (s : string) : truthy s = true <-> s <> "".
Proof. destruct s; simpl; split; congruence. Qed.

(** ** services/geminiService.ts *)

Section ProcessImage.
Import GeminiService.

Lemma find_carriesImage_none (ps : list Part) :
  find Spec.carriesImage ps = None <->
  forall part, In part ps -> inlineData part = None.
Proof.
  induction ps as [|p ps IH]; simpl.
  - split; [intros _ part [] | reflexivity].
  - unfold Spec.carriesImage at 1. destruct (inlineData p) as [blob|] eqn:E.
    + split; [discriminate |].
      intros H. specialize (H p (or_introl eq_refl)). congruence.
    + rewrite IH. split.
      * intros H part [<- | Hin]; [exact E | exact (H part Hin)].
      * intros H part Hin. apply H. right. exact Hin.
Qed.

Lemma firstImage_some (ps : list Part) :
  (exists d, Spec.firstImage ps = Some d) <->
  (exists part, In part ps /\ inlineData part <> None).
Proof.
  unfold Spec.firstImage. destruct (find Spec.carriesImage ps) as [p|] eqn:F.
  - apply find_some in F. destruct F as [Hin Hc].
    unfold Spec.carriesImage in Hc.
    destruct (inlineData p) as [blob|] eqn:E; [|discriminate].
    split.
    + intros _. exists p. split; [exact Hin | congruence].
    + intros _. exists (data blob). reflexivity.
  - split; [intros [d H]; discriminate |].
    intros [part [Hin Hne]].
    rewrite find_carriesImage_none in F. elim Hne. exact (F part Hin).
Qed.

(** The loop over the parts returns the first image, or else the text it
    has accumulated. *)
Lemma scanParts_firstImage (ps : list Part) (acc : string) :
  scanParts ps acc =
  match Spec.firstImage ps with
  | Some d => inl ("data:image/png;base64," ++ d)
  | None => inr (acc ++ Spec.accumulatedText ps)
  end.
Proof.
  revert acc. induction ps as [|p ps IH]; intros acc.
  - cbn. f_equal. induction acc as [|c acc IHa]; simpl; congruence.
  - cbn [scanParts Spec.accumulatedText]. unfold Spec.firstImage. cbn [find].
    unfold Spec.carriesImage at 1.
    destruct (inlineData p) as [blob|] eqn:E.
    + rewrite E. reflexivity.
    + fold (Spec.firstImage ps).
      destruct (text p) as [t|]; [destruct (truthy t)|]; rewrite IH;
        destruct (Spec.firstImage ps); try reflexivity.
      rewrite !append_assoc. reflexivity.
Qed.

Lemma finishReason_is_true (c : Candidate) (r : string) :
  finishReason_is c r = true <-> finishReason c = Some r.
Proof.
  unfold finishReason_is. destruct (finishReason c) as [f|].
  - rewrite String.eqb_eq. split; congruence.
  - split; discriminate.
Qed.

Lemma not_stopped (c : Candidate) :
  ~ Spec.stopped c <->
  finishReason_is c "SAFETY" = false /\
  finishReason_is c "RECITATION" = false /\
  finishReason_is c "OTHER" = false.
Proof.
  unfold Spec.stopped. rewrite <- !finishReason_is_true.
  destruct (finishReason_is c "SAFETY"), (finishReason_is c "RECITATION"),
    (finishReason_is c "OTHER"); intuition congruence.
Qed.

(** What the [try] block does with a response. *)
Lemma tryBody_cases (r : GenerateContentResponse) :
  tryBody r =
  match Spec.firstCandidate r with
  | None => Rejected (newError MSG_BLOCKED)
  | Some c =>
      if finishReason_is c "SAFETY" then Rejected (newError MSG_SAFETY)
      else if finishReason_is c "RECITATION" then Rejected (newError MSG_RECITATION)
      else if finishReason_is c "OTHER" then Rejected (newError MSG_OTHER)
      else match Spec.firstImage (Spec.partsOf c) with
           | Some d => Resolved ("data:image/png;base64," ++ d)
           | None =>
               if truthy (trim (Spec.accumulatedText (Spec.partsOf c)))
               then Rejected (newError
                      (MSG_REFUSAL (trim (Spec.accumulatedText (Spec.partsOf c)))))
               else Rejected (newError MSG_NO_IMAGE)
           end
  end.
Proof.
  unfold tryBody, Spec.firstCandidate.
  destruct (candidates r) as [[|c cs]|]; try reflexivity.
  destruct (finishReason_is c "SAFETY"); [reflexivity|].
  destruct (finishReason_is c "RECITATION"); [reflexivity|].
  destruct (finishReason_is c "OTHER"); [reflexivity|].
  fold (Spec.partsOf c). rewrite scanParts_firstImage.
  destruct (Spec.firstImage (Spec.partsOf c)); reflexivity.
Qed.

(** An error whose message starts with the rejection marker passes
    through the [catch] block as it is. *)
Lemma catchHandler_rejection (e : Error) (msg : string) :
  message e = Some msg -> Spec.Prefix "REJECTION:" msg -> catchHandler e = e.
Proof.
  intros Hm Hp. unfold catchHandler. rewrite Hm.
  assert (Hs : startsWith msg "REJECTION:" = true) by now apply startsWith_Prefix.
  rewrite Hs. destruct Hp as [rest ->]. reflexivity.
Qed.

Lemma MSG_REFUSAL_Prefix (why : string) :
  Spec.Prefix "REJECTION:" (MSG_REFUSAL why).
Proof. eexists. unfold MSG_REFUSAL. cbn. reflexivity. Qed.

(** Every error the [try] block throws by itself carries a rejection
    message. *)
Lemma tryBody_rejection (r : GenerateContentResponse) (e : Error) :
  tryBody r = Rejected e ->
  exists msg, e = newError msg /\ Spec.Prefix "REJECTION:" msg.
Proof.
  rewrite tryBody_cases.
  assert (P : forall m, Spec.Prefix "REJECTION:" m ->
                        Rejected (newError m) = Rejected (A:=string) e ->
                        exists msg, e = newError msg /\ Spec.Prefix "REJECTION:" msg).
  { intros m Hm H. injection H as <-. exists m. split; [reflexivity | exact Hm]. }
  destruct (Spec.firstCandidate r) as [c|].
  - destruct (finishReason_is c "SAFETY");
      [apply P; eexists; cbn; reflexivity|].
    destruct (finishReason_is c "RECITATION");
      [apply P; eexists; cbn; reflexivity|].
    destruct (finishReason_is c "OTHER");
      [apply P; eexists; cbn; reflexivity|].
    destruct (Spec.firstImage (Spec.partsOf c)); [discriminate|].
    destruct (truthy _).
    + apply P. apply MSG_REFUSAL_Prefix.
    + apply P. eexists; cbn; reflexivity.
  - apply P. eexists; cbn; reflexivity.
Qed.

(** On a response, [processImage] returns what the [try] block returns. *)
Lemma processImage_resolved (r : GenerateContentResponse)
    (b m : option string) (p : string) (sz : Types.ImageSize)
    (ar : Types.AspectRatio) :
  processImage (Resolved (fun _ => Resolved r)) b m p sz ar = tryBody r.
Proof.
  unfold processImage. destruct (tryBody r) as [url|e] eqn:E; [reflexivity|].
  apply tryBody_rejection in E. destruct E as [msg [-> Hp]].
  f_equal. apply (catchHandler_rejection _ msg); [reflexivity | exact Hp].
Qed.

(** C1 (amended).  For every API response, [processImage] resolves
    with the string "data:image/png;base64," followed by the data of the
    first part carrying [inlineData] exactly when the response has a first
    candidate whose finish reason is none of SAFETY, RECITATION, OTHER and
    one of whose parts carries [inlineData].  Otherwise it throws an error
    whose message starts with "REJECTION:": the blocked-by-safety-filter
    message when there is no candidate, the safety message for SAFETY, the
    copyright message for RECITATION, the unspecified-reason message for
    OTHER, and a no-image message when no part carries an image.  The
    no-image message quotes the accumulated text parts, trimmed, when that
    trimmed text is not empty, and is the generic one otherwise. *)
Theorem processImage_response_outcome
    (r : GenerateContentResponse) (b m : option string) (p : string)
    (sz : Types.ImageSize) (ar : Types.AspectRatio) :
  let out := processImage (Resolved (fun _ => Resolved r)) b m p sz ar in
  (Spec.firstCandidate r = None -> out = Rejected (newError MSG_BLOCKED)) /\
  (forall c, Spec.firstCandidate r = Some c ->
     (finishReason c = Some "SAFETY" -> out = Rejected (newError MSG_SAFETY)) /\
     (finishReason c = Some "RECITATION" ->
        out = Rejected (newError MSG_RECITATION)) /\
     (finishReason c = Some "OTHER" -> out = Rejected (newError MSG_OTHER)) /\
     (~ Spec.stopped c ->
        (forall d, Spec.firstImage (Spec.partsOf c) = Some d ->
           out = Resolved ("data:image/png;base64," ++ d)) /\
        (Spec.firstImage (Spec.partsOf c) = None ->
           (trim (Spec.accumulatedText (Spec.partsOf c)) <> "" ->
              out = Rejected (newError
                      (MSG_REFUSAL (trim (Spec.accumulatedText (Spec.partsOf c)))))) /\
           (trim (Spec.accumulatedText (Spec.partsOf c)) = "" ->
              out = Rejected (newError MSG_NO_IMAGE))))) /\
  ((exists url, out = Resolved url) <->
   (exists c, Spec.firstCandidate r = Some c /\ ~ Spec.stopped c /\
              exists part, In part (Spec.partsOf c) /\ inlineData part <> None)) /\
  (forall e, out = Rejected e ->
     exists msg, e = newError msg /\ Spec.Prefix "REJECTION:" msg).
Proof.
  intros out. subst out. rewrite processImage_resolved.
  split; [|split; [|split]].
  - intros H. rewrite tryBody_cases, H. reflexivity.
  - intros c H. rewrite tryBody_cases, H.
    split; [|split; [|split]].
    + intros E. apply finishReason_is_true in E. rewrite E. reflexivity.
    + intros E. pose proof E as E'. apply finishReason_is_true in E'.
      unfold finishReason_is in *. rewrite E in *. rewrite E'. reflexivity.
    + intros E. pose proof E as E'. apply finishReason_is_true in E'.
      unfold finishReason_is in *. rewrite E in *. rewrite E'. reflexivity.
    + intros N. apply not_stopped in N. destruct N as [-> [-> ->]].
      split.
      * intros d ->. reflexivity.
      * intros ->. split.
        -- intros T. apply truthy_true in T. rewrite T. reflexivity.
        -- intros T. rewrite T. reflexivity.
  - rewrite tryBody_cases. split.
    + intros [url H]. destruct (Spec.firstCandidate r) as [c|]; [|discriminate].
      exists c. split; [reflexivity|].
      destruct (finishReason_is c "SAFETY") eqn:E1; [discriminate|].
      destruct (finishReason_is c "RECITATION") eqn:E2; [discriminate|].
      destruct (finishReason_is c "OTHER") eqn:E3; [discriminate|].
      split; [apply not_stopped; auto|].
      apply firstImage_some.
      destruct (Spec.firstImage (Spec.partsOf c)) as [d|]; [exists d; reflexivity|].
      destruct (truthy _); discriminate.
    + intros [c [-> [N Hp]]]. apply not_stopped in N. destruct N as [-> [-> ->]].
      apply firstImage_some in Hp. destruct Hp as [d ->].
      eexists. reflexivity.
  - intros e. apply tryBody_rejection.
Qed.

(** C1, counterexample.  The only part of this response is a text part
    holding one space: a text part is present and no part carries an
    image, yet the error thrown is the generic no-image message, which
    quotes no text. *)
Lemma processImage_blank_text_generic :
  Spec.firstCandidate Examples.blankTextResponse = Some Examples.blankTextCandidate /\
  ~ Spec.stopped Examples.blankTextCandidate /\
  (exists part, In part (Spec.partsOf Examples.blankTextCandidate) /\
                text part = Some " ") /\
  (forall part, In part (Spec.partsOf Examples.blankTextCandidate) ->
                inlineData part = None) /\
  processImage (Resolved (fun _ => Resolved Examples.blankTextResponse))
    None None "" Types.Size1K Types.R1_1 = Rejected (newError MSG_NO_IMAGE) /\
  (forall why,
     processImage (Resolved (fun _ => Resolved Examples.blankTextResponse))
       None None "" Types.Size1K Types.R1_1
     <> Rejected (newError (MSG_REFUSAL why))).
Proof.
  split; [reflexivity|]. split.
  { intros [H | [H | H]]; discriminate. }
  split.
  { eexists. split; [left; reflexivity | reflexivity]. }
  split.
  { intros part [<- | []]. reflexivity. }
  split; [reflexivity|].
  intros why H. vm_compute in H. discriminate.
Qed.

(** The first image wins, and text met before it is dropped. *)
Example processImage_imageResponse :
  processImage (Resolved (fun _ => Resolved Examples.imageResponse))
    None None "" Types.Size1K Types.R1_1
  = Resolved "data:image/png;base64,QUJD".
Proof. reflexivity. Qed.

(** Text parts are joined with spaces and trimmed at both ends. *)
Example processImage_refusalResponse :
  processImage (Resolved (fun _ => Resolved Examples.refusalResponse))
    None None "" Types.Size1K Types.R1_1
  = Rejected (newError (MSG_REFUSAL "I cannot edit this photo.")).
Proof. reflexivity. Qed.

(** The [catch] block as a cascade of tests on the error's message (the
    empty string when the error has none). *)
Lemma catchHandler_cascade (e : Error) :
  catchHandler e =
  let msg := or_else (message e) "" in
  if startsWith msg "REJECTION:" then e
  else if includes msg "403" ||
          match status e with Some n => n =? 403 | None => false end
  then newError MSG_PERMISSION_DENIED
  else if includes msg "Requested entity was not found."
  then newError MSG_KEY_RESET_REQUIRED
  else if includes msg "429" then newError MSG_RATE_LIMIT
  else if truthy msg then newError msg
  else newError MSG_GENERIC.
Proof.
  unfold catchHandler. destruct (message e) as [[|c m]|]; reflexivity.
Qed.



(** The four signatures on concrete errors of the API call. *)
Example catchHandler_403_message :
  catchHandler {| message := Some "got status: 403 Forbidden"; status := None |}
  = newError MSG_PERMISSION_DENIED.
Proof. reflexivity. Qed.

Example catchHandler_403_status :
  catchHandler {| message := Some "Forbidden"; status := Some 403 |}
  = newError MSG_PERMISSION_DENIED.
Proof. reflexivity. Qed.

Example catchHandler_entity_not_found :
  catchHandler {| message := Some "404: Requested entity was not found.";
                  status := Some 404 |}
  = newError MSG_KEY_RESET_REQUIRED.
Proof. reflexivity. Qed.

Example catchHandler_429 :
  catchHandler {| message := Some "429 Too Many Requests"; status := Some 429 |}
  = newError MSG_RATE_LIMIT.
Proof. reflexivity. Qed.

Example catchHandler_other :
  catchHandler {| message := Some "Failed to fetch"; status := None |}
  = newError "Failed to fetch".
Proof. reflexivity. Qed.

Example catchHandler_no_message :
  catchHandler {| message := None; status := Some 500 |} = newError MSG_GENERIC.
Proof. reflexivity. Qed.

End ProcessImage.

(** ** Prompt construction *)

Section PromptConstruction.
Import Types Prompt App.

Lemma toString_iso (i : ISOValue) : toString (iso_number i) = Spec.isoNumeral i.
Proof. destruct i; reflexivity. Qed.

(** C3.  Prompt construction is deterministic: two component states with
    equal skin-detail intensity, equal film stock and equal ISO value
    yield equal prompts, whatever the rest of the state is. *)
Theorem buildFinalPrompt_deterministic (s1 s2 : State) :
  skinDetail s1 = skinDetail s2 ->
  filmStock s1 = filmStock s2 ->
  iso s1 = iso s2 ->
  buildFinalPrompt s1 = buildFinalPrompt s2.
Proof.
  intros Hd Hf Hi. unfold buildFinalPrompt. rewrite Hd, Hf, Hi. reflexivity.
Qed.

Lemma buildFinalPrompt_deterministic_witness :
  Examples.freshState <> Examples.busyState /\
  buildFinalPrompt Examples.freshState = buildFinalPrompt Examples.busyState.
Proof.
  split.
  - intros H. apply (f_equal showKeyModal) in H. discriminate H.
  - apply (buildFinalPrompt_deterministic Examples.freshState Examples.busyState);
      reflexivity.
Defined.

(** C4.  For every skin-detail intensity from 0 to 100, every film stock
    and every ISO value, the final prompt is the base sentence, the film
    stock's characteristics text and the grain sentence, joined by single
    spaces.  The skin clause of the base sentence is the light-grain text
    below 30, the high-fidelity text above 70, and the balanced text from
    30 to 70 inclusive; the grain sentence names the ISO number. *)
Theorem buildFinalPrompt_structure (s : State) :
  0 <= skinDetail s <= 100 ->
  exists clause,
    (skinDetail s < 30 -> clause = SKIN_LIGHT) /\
    (skinDetail s > 70 -> clause = SKIN_HIGH_FIDELITY) /\
    (30 <= skinDetail s <= 70 -> clause = SKIN_BALANCED) /\
    buildFinalPrompt s =
      ("A portrait with " ++ clause ++
       ", while maintaining consistent lighting, props, and set design.")
      ++ " " ++ FILM_STOCK_CHARACTERISTICS (filmStock s) ++ " " ++
      ("Add a substantial amount of organic film grain, resembling a " ++
       Spec.isoNumeral (iso s) ++
       " ISO film to the image, preserving the original aesthetic. The grain should feel raw and authentic.").
Proof.
  intros _. unfold buildFinalPrompt, BASE_PROMPT_TEMPLATE, grainPrompt.
  rewrite toString_iso.
  destruct (skinDetail s <? 30) eqn:L.
  - apply Z.ltb_lt in L. exists SKIN_LIGHT.
    repeat split; try reflexivity; intros; lia.
  - apply Z.ltb_ge in L. destruct (skinDetail s >? 70) eqn:G.
    + apply Z.gtb_lt in G. exists SKIN_HIGH_FIDELITY.
      repeat split; try reflexivity; intros; lia.
    + assert (skinDetail s <= 70).
      { destruct (Z.gtb_spec (skinDetail s) 70); [discriminate | assumption]. }
      exists SKIN_BALANCED. repeat split; try reflexivity; intros; lia.
Qed.

Lemma buildFinalPrompt_structure_witness :
  exists clause,
    (skinDetail Examples.freshState < 30 -> clause = SKIN_LIGHT) /\
    (skinDetail Examples.freshState > 70 -> clause = SKIN_HIGH_FIDELITY) /\
    (30 <= skinDetail Examples.freshState <= 70 -> clause = SKIN_BALANCED) /\
    buildFinalPrompt Examples.freshState =
      ("A portrait with " ++ clause ++
       ", while maintaining consistent lighting, props, and set design.")
      ++ " " ++ FILM_STOCK_CHARACTERISTICS (filmStock Examples.freshState) ++ " " ++
      ("Add a substantial amount of organic film grain, resembling a " ++
       Spec.isoNumeral (iso Examples.freshState) ++
       " ISO film to the image, preserving the original aesthetic. The grain should feel raw and authentic.").
Proof.
  apply (buildFinalPrompt_structure Examples.freshState).
  vm_compute. split; discriminate.
Defined.

(** The two boundary intensities take the balanced text. *)
Example BASE_PROMPT_TEMPLATE_30 :
  BASE_PROMPT_TEMPLATE 30 =
  "A portrait with " ++ SKIN_BALANCED ++
  ", while maintaining consistent lighting, props, and set design.".
Proof. reflexivity. Qed.

Example BASE_PROMPT_TEMPLATE_70 :
  BASE_PROMPT_TEMPLATE 70 =
  "A portrait with " ++ SKIN_BALANCED ++
  ", while maintaining consistent lighting, props, and set design.".
Proof. reflexivity. Qed.

Example BASE_PROMPT_TEMPLATE_29 :
  BASE_PROMPT_TEMPLATE 29 =
  "A portrait with " ++ SKIN_LIGHT ++
  ", while maintaining consistent lighting, props, and set design.".
Proof. reflexivity. Qed.

Example BASE_PROMPT_TEMPLATE_71 :
  BASE_PROMPT_TEMPLATE 71 =
  "A portrait with " ++ SKIN_HIGH_FIDELITY ++
  ", while maintaining consistent lighting, props, and set design.".
Proof. reflexivity. Qed.

End PromptConstruction.

(** ** History *)

Section History.
Import Types App.
Context {dbs : DbService}.

Lemma deleteFromHistory_RemovedById (i : string) (prev : list ProcessedImage) :
  Spec.RemovedById i prev (deleteFromHistory i prev).
Proof.
  induction prev as [|item prev IH]; simpl.
  - constructor.
  - destruct (String.eqb_spec (Types.id item) i) as [E|N]; simpl.
    + apply Spec.removed_drop; assumption.
    + apply Spec.removed_keep; assumption.
Qed.

Lemma deleteFromHistory_In (i : string) (prev : list ProcessedImage)
    (item : ProcessedImage) :
  In item (deleteFromHistory i prev) <-> In item prev /\ Types.id item <> i.
Proof.
  unfold deleteFromHistory. rewrite filter_In, negb_true_iff.
  destruct (String.eqb_spec (Types.id item) i); intuition congruence.
Qed.

(** C5.  Insertion and deletion preserve the records and their order.
    When a development has been saved, the history list is the new record
    followed by the previous list as it was, and the store has been handed
    exactly the new record.  When a deletion by identifier has gone
    through, the history list is the previous one without the records
    carrying that identifier, every other record unchanged and in its
    previous order, and the store has been handed exactly that
    identifier. *)
Theorem history_insert_delete_preserve
    (w : World) (n : nat) (newEntry : ProcessedImage) (i : string) :
  (history (ui (startProcessing_saved n newEntry (Resolved tt) w))
     = newEntry :: history (ui w) /\
   db (startProcessing_saved n newEntry (Resolved tt) w)
     = saveHistoryItem newEntry (db w)) /\
  (Spec.RemovedById i (history (ui w))
     (history (ui (deleteHistoryItem_resume n i (Resolved tt) w))) /\
   (forall item,
      In item (history (ui (deleteHistoryItem_resume n i (Resolved tt) w))) <->
      In item (history (ui w)) /\ Types.id item <> i) /\
   db (deleteHistoryItem_resume n i (Resolved tt) w)
     = deleteHistoryItemFromDB i (db w)).
Proof.
  split; [split; reflexivity|].
  split; [|split; [|reflexivity]].
  - apply deleteFromHistory_RemovedById.
  - intros item. apply deleteFromHistory_In.
Qed.

Lemma sameButSelected_refl (item : ProcessedImage) :
  Spec.sameButSelected item item.
Proof. unfold Spec.sameButSelected. repeat split. Qed.

Lemma sameButSelected_with_selected (item : ProcessedImage) (v : option bool) :
  Spec.sameButSelected item (with_selected item v).
Proof. unfold Spec.sameButSelected. repeat split. Qed.

Lemma startProcessing_catch_history (n : nat) (err : Error) (w : World) :
  history (ui (startProcessing_catch n err w)) = history (ui w).
Proof. unfold startProcessing_catch. destruct (message_is err _); reflexivity. Qed.

(** Whatever happens, a record of the history list is a record that was
    there before, up to its [selected] flag, unless this very step has
    put it there: the record of a development just saved, or a record
    just loaded from the store. *)
Lemma step_history_records (w w' : World) (ev : Event) :
  step w ev = Some w' ->
  forall item', In item' (history (ui w')) ->
    (exists item, In item (history (ui w)) /\ Spec.sameButSelected item item') \/
    (exists n, ev = SaveSettled n (Resolved tt) /\
               nth_error (tasks w) n = Some (AwaitSave item')) \/
    (exists n stored, ev = HistoryLoaded n (Resolved tt) /\
               In stored (getHistory (db w)) /\
               Spec.sameButSelected stored item').
Proof.
  intros H item' Hin.
  assert (Keep : In item' (history (ui w)) ->
                 exists item, In item (history (ui w)) /\
                              Spec.sameButSelected item item').
  { intros K. exists item'. split; [exact K | apply sameButSelected_refl]. }
  destruct ev; cbn [step] in H;
    repeat match type of H with
           | match ?x with _ => _ end = Some _ => destruct x eqn:?; try discriminate
           | (if ?x then _ else _) = Some _ => destruct x eqn:?; try discriminate
           end;
    try (injection H as <-);
    try (left; apply Keep; exact Hin).
  - (* the history has been loaded *)
    destruct a. cbn in Hin. apply in_map_iff in Hin.
    destruct Hin as [stored [<- Hs]]. right; right. exists n, stored.
    split; [reflexivity | split; [exact Hs | apply sameButSelected_with_selected]].
  - (* a click on the submit button *)
    left. apply Keep. unfold startProcessing in Hin.
    destruct (negb (truthy_opt _)) in Hin; [exact Hin|].
    destruct (negb (sessionActive _)) in Hin; exact Hin.
  - (* the key check has settled *)
    left. apply Keep. unfold startProcessing_hasKey in Hin.
    destruct (negb a) in Hin; exact Hin.
  - (* [processImage] has settled *)
    left. apply Keep. unfold startProcessing_processed in Hin.
    destruct (processImage_result _ _ _) in Hin; [exact Hin|].
    rewrite startProcessing_catch_history in Hin. exact Hin.
  - (* the store has answered *)
    destruct result as [[]|err]; cbn [startProcessing_saved] in Hin.
    + cbn in Hin. destruct Hin as [<- | Hin].
      * right; left. exists n. split; [reflexivity | assumption].
      * left. apply Keep. exact Hin.
    + left. apply Keep. rewrite startProcessing_catch_history in Hin. exact Hin.
  - (* a click on a selection box *)
    left. cbn in Hin. unfold toggleSelection in Hin. apply in_map_iff in Hin.
    destruct Hin as [item [<- Hi]]. exists item. split; [exact Hi|].
    destruct (String.eqb _ _);
      [apply sameButSelected_with_selected | apply sameButSelected_refl].
  - (* a deletion has settled *)
    left. apply Keep. destruct result as [[]|err]; cbn in Hin; [|exact Hin].
    apply deleteFromHistory_In in Hin. apply Hin.
Qed.

(** C6.  Records are immutable but for the [selected] flag.
    [toggleSelection] keeps the length of the history list and, at every
    position, replaces a record whose identifier matches by one that
    differs from it in the [selected] flag only, which is negated (a
    missing flag counts as false), and leaves a record whose identifier
    does not match as it is.  And in every step of the component, a
    record of the history list is a record that was there before, up to
    its [selected] flag, unless the step has just created it (a saved
    development) or loaded it from the store. *)
Theorem records_immutable_but_selected (i : string) (prev : list ProcessedImage) :
  List.length (toggleSelection i prev) = List.length prev /\
  (forall k item, nth_error prev k = Some item ->
     exists item',
       nth_error (toggleSelection i prev) k = Some item' /\
       (Types.id item = i ->
          Spec.sameButSelected item item' /\
          (forall b, selected item = Some b -> selected item' = Some (negb b)) /\
          (selected item = None -> selected item' = Some true)) /\
       (Types.id item <> i -> item' = item)) /\
  (forall (w w' : World) (ev : Event),
     step w ev = Some w' ->
     forall item', In item' (history (ui w')) ->
       (exists item, In item (history (ui w)) /\ Spec.sameButSelected item item') \/
       (exists n, ev = SaveSettled n (Resolved tt) /\
                  nth_error (tasks w) n = Some (AwaitSave item')) \/
       (exists n stored, ev = HistoryLoaded n (Resolved tt) /\
                  In stored (getHistory (db w)) /\
                  Spec.sameButSelected stored item')).
Proof.
  unfold toggleSelection. split; [apply length_map|]. split.
  - intros k item H.
    rewrite nth_error_map, H. cbn [option_map].
    eexists. split; [reflexivity|].
    destruct (String.eqb_spec (Types.id item) i) as [E|N].
    + split; [intros _ | intros N; now elim N].
      split; [apply sameButSelected_with_selected|].
      unfold not_selected. cbn. split.
      * intros b ->. reflexivity.
      * intros ->. reflexivity.
    + split; [intros E; now elim N | reflexivity].
  - apply step_history_records.
Qed.

Example toggleSelection_example :
  toggleSelection "1700000000002"
    [Examples.print1; Examples.print2; Examples.print3]
  = [Examples.print1; with_selected Examples.print2 (Some false); Examples.print3].
Proof. reflexivity. Qed.

Example toggleSelection_missing_flag :
  toggleSelection "1700000000003" [Examples.print3]
  = [with_selected Examples.print3 (Some true)].
Proof. reflexivity. Qed.

(** The table modelled from the spec lists its records in the order of
    their insertion, and deletes by identifier. *)
Lemma tableDb_append_order (t : list ProcessedImage) (item : ProcessedImage)
    (i : string) :
  getHistory (DbService := tableDb) (saveHistoryItem (DbService := tableDb) item t)
    = (getHistory (DbService := tableDb) t ++ [item])%list /\
  Spec.RemovedById i t (deleteHistoryItemFromDB (DbService := tableDb) i t).
Proof.
  split; [reflexivity|]. apply deleteFromHistory_RemovedById.
Qed.

Example deleteFromHistory_example :
  deleteFromHistory "1700000000002"
    [Examples.print1; Examples.print2; Examples.print3]
  = [Examples.print1; Examples.print3].
Proof. reflexivity. Qed.

End History.

(** ** The development handler *)

Section Development.
Import Types App.
Context {dbs : DbService}.

Lemma nth_error_app_length {A : Type} (l : list A) (x : A) :
  nth_error (l ++ [x])%list (List.length l) = Some x.
Proof. induction l as [|a l IH]; simpl; [reflexivity | exact IH]. Qed.

Lemma replace_nth_app_length {A : Type} (l : list A) (x y : A) :
  replace_nth (List.length l) y (l ++ [x])%list = (l ++ [y])%list.
Proof. induction l as [|a l IH]; simpl; [reflexivity | now rewrite IH]. Qed.

Lemma remove_nth_app_length {A : Type} (l : list A) (x : A) :
  remove_nth (List.length l) (l ++ [x])%list = l.
Proof. induction l as [|a l IH]; simpl; [reflexivity | now rewrite IH]. Qed.


Lemma getItem_removeItem (k : string) (st : Storage) :
  getItem k (removeItem k st) = None.
Proof.
  induction st as [|[k' v] st IH]; simpl; [reflexivity|].
  destruct (String.eqb k' k) eqn:E; simpl; [exact IH|].
  rewrite E. exact IH.
Qed.



Lemma message_is_true (err : Error) (text : string) :
  message_is err text = true <-> Js.message err = Some text.
Proof.
  unfold message_is. destruct (Js.message err) as [m|].
  - rewrite String.eqb_eq. split; congruence.
  - split; discriminate.
Qed.

(** The [catch] block never touches the history, the store or the
    displayed result, and it ends the handler without starting anything. *)
Lemma startProcessing_catch_frame (n : nat) (err : Error) (w : World) :
  history (ui (startProcessing_catch n err w)) = history (ui w) /\
  db (startProcessing_catch n err w) = db w /\
  processedUrl (ui (startProcessing_catch n err w)) = processedUrl (ui w) /\
  tasks (startProcessing_catch n err w) = remove_nth n (tasks w).
Proof.
  unfold startProcessing_catch.
  destruct (message_is err "KEY_RESET_REQUIRED"); repeat split.
Qed.



(** Closes a goal about a run that left history, store and displayed
    result as they were. *)
Ltac unchanged :=
  first
    [ intros ? _; repeat split; reflexivity
    | let H := fresh in
      intros H; exfalso; destruct H as [H | H]; apply H; reflexivity ].

Lemma nth_error_length_None {A : Type} (l : list A) :
  nth_error l (List.length l) = None.
Proof. apply nth_error_None. apply Nat.le_refl. Qed.

Lemma submit_enabled_original (s : State) :
  submitDisabled s = false -> truthy_opt (originalBase64 s) = true.
Proof.
  unfold submitDisabled. intros H. apply orb_false_iff in H.
  destruct H as [H _]. now apply negb_false_iff in H.
Qed.

(** One uninterrupted run of [startProcessing], case by case. *)
Lemma develop_cases (w : World) (hasKey : Outcome Error bool)
    (sdk : GeminiService.Sdk)
    (now_id now_ts : Z) (save : Outcome Error unit) :
  develop w hasKey sdk now_id now_ts save =
  let n := List.length (tasks w) in
  if submitDisabled (ui w) then w
  else if negb (sessionActive (sessionStorage w))
  then with_ui (setShowKeyModal true) w
  else
    let w1 :=
      with_tasks (fun ts => (ts ++ [AwaitHasKey (ui w)])%list)
        (with_ui (setProcessingState
                    {| Types.status := checking_key;
                       Types.message := Some "Verifying Emulsion Engine..." |}) w) in
    match hasKey with
    | Rejected _ => with_tasks (remove_nth n) w1
    | Resolved false => startProcessing_hasKey n (ui w) false w1
    | Resolved true =>
        let w2 := startProcessing_hasKey n (ui w) true w1 in
        match processImage_result (ui w) (buildFinalPrompt (ui w)) sdk with
        | Rejected err => startProcessing_catch n err w2
        | Resolved url =>
            startProcessing_saved n
              (newEntry (ui w) (buildFinalPrompt (ui w)) url now_id now_ts) save
              (startProcessing_processed n (ui w) (buildFinalPrompt (ui w))
                 (Resolved url) now_id now_ts w2)
        end
    end.
Proof.
  unfold develop. cbn [run_upto step]. cbv zeta.
  destruct (submitDisabled (ui w)) eqn:D; [reflexivity|].
  unfold startProcessing. rewrite (submit_enabled_original _ D). cbn [negb].
  destruct (negb (sessionActive (sessionStorage w))).
  { cbn [step tasks with_ui]. rewrite nth_error_length_None. reflexivity. }
  cbn [step tasks with_ui with_tasks]. rewrite nth_error_app_length.
  set (w1 := with_tasks _ _).
  assert (T1 : tasks w1 = (tasks w ++ [AwaitHasKey (ui w)])%list) by reflexivity.
  destruct hasKey as [[|]|e].
  - set (w2 := startProcessing_hasKey _ (ui w) true w1).
    assert (T2 : tasks w2
                 = (tasks w ++ [AwaitProcessImage (ui w) (buildFinalPrompt (ui w))])%list).
    { subst w2. cbn [startProcessing_hasKey negb with_tasks with_ui tasks].
      rewrite T1. apply replace_nth_app_length. }
    rewrite T2, nth_error_app_length.
    destruct (processImage_result (ui w) (buildFinalPrompt (ui w)) sdk) as [url|err].
    + set (w3 := startProcessing_processed _ _ _ _ _ _ _).
      assert (T3 : tasks w3
                   = (tasks w ++ [AwaitSave (newEntry (ui w) (buildFinalPrompt (ui w))
                                               url now_id now_ts)])%list).
      { subst w3. cbn [startProcessing_processed with_tasks with_ui tasks].
        rewrite T2. apply replace_nth_app_length. }
      rewrite T3, nth_error_app_length. reflexivity.
    + cbn [startProcessing_processed].
      destruct (startProcessing_catch_frame (List.length (tasks w)) err w2) as [_ [_ [_ T3]]].
      rewrite T3, T2, remove_nth_app_length, nth_error_length_None. reflexivity.
  - set (w2 := startProcessing_hasKey _ (ui w) false w1).
    assert (T2 : tasks w2 = tasks w).
    { subst w2. cbn [startProcessing_hasKey negb with_tasks with_ui tasks].
      rewrite T1. apply remove_nth_app_length. }
    rewrite T2, nth_error_length_None. reflexivity.
  - cbn [tasks with_tasks]. rewrite T1, remove_nth_app_length, nth_error_length_None.
    reflexivity.
Qed.


(** C9.  A development in which [processImage] throws inserts nothing:
    after the run the history list, the store and the displayed result
    are what they were before it.  A run changes the history list or the
    store only when [processImage] has resolved, and then by exactly one
    record, which holds the resolved image and is prepended to the list
    and handed to the store.  The same holds step by step: whatever else
    is going on, the step in which a pending call fails leaves the three
    untouched. *)
Theorem startProcessing_atomic_on_failure
    (w : World) (hasKey : Outcome Error bool)
    (sdk : GeminiService.Sdk)
    (now_id now_ts : Z) (save : Outcome Error unit) :
  (forall err,
     processImage_result (ui w) (buildFinalPrompt (ui w)) sdk = Rejected err ->
     history (ui (develop w hasKey sdk now_id now_ts save)) = history (ui w) /\
     db (develop w hasKey sdk now_id now_ts save) = db w /\
     processedUrl (ui (develop w hasKey sdk now_id now_ts save))
       = processedUrl (ui w)) /\
  (history (ui (develop w hasKey sdk now_id now_ts save)) <> history (ui w) \/
   db (develop w hasKey sdk now_id now_ts save) <> db w ->
   exists url entry,
     processImage_result (ui w) (buildFinalPrompt (ui w)) sdk = Resolved url /\
     Types.processedUrl entry = url /\
     history (ui (develop w hasKey sdk now_id now_ts save))
       = entry :: history (ui w) /\
     db (develop w hasKey sdk now_id now_ts save)
       = saveHistoryItem entry (db w)) /\
  (forall n closure finalPrompt err,
     nth_error (tasks w) n = Some (AwaitProcessImage closure finalPrompt) ->
     processImage_result closure finalPrompt sdk = Rejected err ->
     exists w',
       step w (ProcessImageSettled n sdk now_id now_ts) = Some w' /\
       history (ui w') = history (ui w) /\
       db w' = db w /\
       processedUrl (ui w') = processedUrl (ui w)).
Proof.
  split; [|split].
  3: { intros n closure finalPrompt err Ht Hr. cbn [step]. rewrite Ht, Hr.
       eexists. split; [reflexivity|]. cbn [startProcessing_processed].
       destruct (startProcessing_catch_frame n err w) as [H1 [H2 [H3 _]]].
       auto. }
  all: rewrite develop_cases; cbv zeta.
  all: destruct (submitDisabled (ui w)); [solve [unchanged]|].
  all: destruct (negb (sessionActive (sessionStorage w))); [solve [unchanged]|].
  all: destruct hasKey as [[|]|e]; try solve [unchanged].
  - intros err ->.
    match goal with
    | |- context [startProcessing_catch ?n ?e ?w0] =>
        destruct (startProcessing_catch_frame n e w0) as [H1 [H2 [H3 _]]]
    end.
    rewrite H1, H2, H3. repeat split.
  - destruct (processImage_result (ui w) (buildFinalPrompt (ui w)) sdk)
      as [url|err].
    + destruct save as [u|e].
      * intros _. exists url, (newEntry (ui w) (buildFinalPrompt (ui w)) url now_id now_ts).
        repeat split.
      * cbn [startProcessing_saved].
        match goal with
        | |- context [startProcessing_catch ?n ?e ?w0] =>
            destruct (startProcessing_catch_frame n e w0) as [H1 [H2 _]]
        end.
        rewrite H1, H2. unchanged.
    + match goal with
      | |- context [startProcessing_catch ?n ?e ?w0] =>
          destruct (startProcessing_catch_frame n e w0) as [H1 [H2 _]]
      end.
      rewrite H1, H2. unchanged.
Qed.

End Development.

(** ** The submit control *)

Section Submit.
Import Types App.

(** Whenever the status is not idle the submit button is disabled, and a
    click on it does nothing. *)
Lemma submitDisabled_unless_idle {dbs : DbService} (w : World) :
  Types.status (processingState (ui w)) <> idle ->
  submitDisabled (ui w) = true /\ step w ClickSubmit = None.
Proof.
  intros H. assert (D : submitDisabled (ui w) = true).
  { unfold submitDisabled. apply orb_true_iff. right.
    destruct (Types.status (processingState (ui w))); try reflexivity.
    now elim H. }
  split; [exact D|]. cbn [step]. rewrite D. reflexivity.
Qed.

(** C7 (defect).  At most one call of [processImage] is meant to be
    outstanding; this run has two.  With a development pending (one call of
    [processImage] outstanding, status processing, submit disabled), the
    user loads another picture: the upload handler sets the status back
    to idle, the submit button is enabled again although the call is
    still outstanding, and a second click starts a second call of
    [processImage] next to the first. *)
Theorem double_submit_while_pending :
  run Examples.sessionWorld Examples.uploadAndSubmit
    = Some Examples.developingWorld /\
  outstanding Examples.developingWorld = 1%nat /\
  Types.status (processingState (ui Examples.developingWorld)) = processing /\
  submitDisabled (ui Examples.developingWorld) = true /\
  step Examples.developingWorld
    (FileLoaded Examples.otherPicture (num_of_Z 1080) (num_of_Z 1080))
    = Some Examples.reloadedWorld /\
  outstanding Examples.reloadedWorld = 1%nat /\
  Types.status (processingState (ui Examples.reloadedWorld)) = idle /\
  submitDisabled (ui Examples.reloadedWorld) = false /\
  run Examples.reloadedWorld [ClickSubmit; HasKeySettled 3 (Resolved true)]
    = Some Examples.resubmittedWorld /\
  outstanding Examples.resubmittedWorld = 2%nat.
Proof. repeat split; vm_compute; reflexivity. Qed.

End Submit.

(** ** Runs of the development handler on concrete worlds *)

Section DevelopmentExamples.
Import Types App.



(** The entity-not-found text in an error of the constructor is not
    read: the error is not turned into the key-reset error, the status
    becomes error with that text, and session flag and modal stay. *)
Example constructor_entity_not_found_run :
  option_map (fun w' => (sessionStorage w', showKeyModal (ui w'),
                         processingState (ui w'), outstanding w'))
    (step Examples.developingWorld
       (ProcessImageSettled 2 Examples.constructorEntityNotFound
          1700000000000 1700000000001))
  = Some ([(SESSION_KEY, "true")], false,
          {| Types.status := error;
             Types.message := Some "Requested entity was not found." |}, 0%nat).
Proof. vm_compute. reflexivity. Qed.

(** The key-reset run, evaluated: the session flag is gone, the modal is
    open, the status is idle and nothing is pending. *)
Example key_reset_run :
  option_map (fun w' => (sessionStorage w', showKeyModal (ui w'),
                         processingState (ui w'), outstanding w'))
    (step Examples.developingWorld
       (ProcessImageSettled 2 Examples.entityNotFound 1700000000000 1700000000001))
  = Some ([], true, {| Types.status := idle; Types.message := None |}, 0%nat).
Proof. vm_compute. reflexivity. Qed.

(** A rate-limited run, evaluated: the status is error with the message
    [processImage] threw; history, store and displayed result are as
    before. *)
Example rate_limit_run :
  option_map (fun w' => (processingState (ui w'), history (ui w'), db w',
                         processedUrl (ui w'), outstanding w'))
    (step Examples.developingWorld
       (ProcessImageSettled 2 Examples.tooManyRequests 1700000000000 1700000000001))
  = Some ({| Types.status := error;
             Types.message := Some GeminiService.MSG_RATE_LIMIT |},
          [], [], None, 0%nat).
Proof. vm_compute. reflexivity. Qed.

(** A successful run from the click on: one record, first in the history
    list and last in the store. *)
Example successful_run :
  let w := develop
             (with_db (dbs := tableDb) (fun _ => [Examples.print1])
                (with_ui (setHistory (fun _ => [Examples.print1]))
                   (run_upto Examples.sessionWorld
                      [FileLoaded Examples.picture (num_of_Z 1920) (num_of_Z 1080)])))
             (Resolved true) (Resolved (fun _ => Resolved Examples.imageResponse))
             1700000000005 1700000000006 (Resolved tt) in
  map Types.id (history (ui w)) = ["1700000000005"; "1700000000001"] /\
  map Types.id (db w) = ["1700000000001"; "1700000000005"] /\
  processedUrl (ui w) = Some "data:image/png;base64,QUJD" /\
  Types.status (processingState (ui w)) = idle.
Proof. vm_compute. repeat split. Qed.

End DevelopmentExamples.

(** ** Aspect-ratio detection *)

Section ClosestAspectRatio.
Import Types Ratio.

(** *** The order of non-negative numbers *)





(** *** Rounding never produces NaN *)

Lemma iter_pos_invariant {A : Type} (P : A -> Prop) (f : A -> A) :
  (forall x, P x -> P (f x)) -> forall p x, P x -> P (iter_pos f p x).
Proof.
  intros Hf. induction p as [p IH|p IH|]; intros x Hx; simpl; auto.
Qed.

Lemma shr_1_nonneg (mrs : shr_record) :
  0 <= shr_m mrs -> 0 <= shr_m (shr_1 mrs).
Proof.
  destruct mrs as [m r s]. destruct m as [|[p|p|]|p]; simpl; lia.
Qed.

Lemma shr_nonneg (mrs : shr_record) (e n : Z) :
  0 <= shr_m mrs -> 0 <= shr_m (fst (shr mrs e n)).
Proof.
  intros H. destruct n as [|p|p]; simpl; try exact H.
  apply (iter_pos_invariant (fun x => 0 <= shr_m x)); [apply shr_1_nonneg | exact H].
Qed.

Lemma shr_fexp_nonneg (m e : Z) (l : location) :
  0 <= m -> 0 <= shr_m (fst (shr_fexp prec emax m e l)).
Proof.
  intros H. unfold shr_fexp. apply shr_nonneg.
  destruct l as [|[| |]]; exact H.
Qed.

Lemma round_nearest_even_nonneg (mx : Z) (lx : location) :
  0 <= mx -> 0 <= round_nearest_even mx lx.
Proof.
  intros H. destruct lx as [|[| |]]; simpl; try destruct (Z.even mx); lia.
Qed.

Lemma binary_round_aux_not_nan (sx : bool) (mx ex : Z) (lx : location) :
  0 <= mx -> binary_round_aux prec emax sx mx ex lx <> S754_nan.
Proof.
  intros H. unfold binary_round_aux.
  pose proof (shr_fexp_nonneg mx ex lx H) as H1.
  destruct (shr_fexp prec emax mx ex lx) as [mrs' e']. cbn [fst] in H1.
  pose proof (shr_fexp_nonneg _ e' loc_Exact
                (round_nearest_even_nonneg _ (loc_of_shr_record mrs') H1)) as H2.
  destruct (shr_fexp prec emax _ e' loc_Exact) as [mrs'' e'']. cbn [fst] in H2.
  destruct (shr_m mrs'') as [|q|q].
  - discriminate.
  - destruct (e'' <=? emax - prec); discriminate.
  - lia.
Qed.







(** *** The reduction *)


(** *** A picture as wide as it is high *)


(** *** Pixel counts *)

Lemma digits2_pos_iter (n p : positive) :
  Z.pos (digits2_pos (Pos.iter xO p n)) = Z.pos (digits2_pos p) + Z.pos n.
Proof.
  induction n as [|n IH] using Pos.peano_ind.
  - cbn. lia.
  - rewrite Pos.iter_succ. cbn [digits2_pos]. lia.
Qed.

Lemma fexp_small (d : Z) : -1021 <= d -> fexp prec emax d = d - 53.
Proof. intros H. unfold fexp, emin, prec, emax. lia. Qed.

(** A mantissa of 53 digits with a small exponent is left as it is. *)
Lemma binary_round_aux_canonical (m : positive) (e : Z) :
  Z.pos (digits2_pos m) = 53 -> -52 <= e <= 0 ->
  binary_round_aux prec emax false (Z.pos m) e loc_Exact = S754_finite false m e.
Proof.
  intros Hd He. unfold binary_round_aux, shr_fexp.
  cbn [Zdigits2 shr_record_of_loc]. rewrite Hd.
  rewrite (fexp_small (53 + e)) by lia.
  replace (53 + e - 53 - e) with 0 by lia.
  cbn [shr shr_m loc_of_shr_record round_nearest_even Zdigits2 shr_record_of_loc].
  rewrite Hd. rewrite (fexp_small (53 + e)) by lia.
  replace (53 + e - 53 - e) with 0 by lia.
  cbn [shr shr_m].
  replace (e <=? emax - prec) with true; [reflexivity|].
  symmetry. apply Z.leb_le. unfold emax, prec. lia.
Qed.

(** Every pixel count below 2^53, the size of any picture a browser
    decodes, is a positive finite number. *)
Lemma pixel_count_positiveFinite (p : positive) :
  Z.pos (digits2_pos p) <= 53 ->
  Spec.positiveFinite (num_of_Z (Z.pos p)) = true.
Proof.
  intros Hd. unfold num_of_Z, binary_normalize, binary_round.
  rewrite fexp_small by lia. unfold shl_align.
  destruct (Z.pos (digits2_pos p) + 0 - 53 - 0) as [|q|q] eqn:E.
  - rewrite binary_round_aux_canonical by lia. reflexivity.
  - lia.
  - rewrite binary_round_aux_canonical; [reflexivity | | lia].
    rewrite digits2_pos_iter. lia.
Qed.


(** *** The table against the labels *)







Lemma In_zrange (lo len n : Z) :
  lo <= n < lo + len -> In n (SpecMore.zrange lo len).
Proof.
  intros H. unfold SpecMore.zrange. apply in_map_iff. exists (Z.to_nat (n - lo)).
  split; [lia | apply in_seq; lia].
Qed.




(** The same between 4:3 and 16:9, for a picture of 1400 by 900. *)
Example calculateClosestAspectRatio_exact_tie_14_9 :
  Spec.fracEq (Spec.exactGap 1400 900 R4_3) (Spec.exactGap 1400 900 R16_9) = true /\
  Spec.exactClosest 1400 900 = R4_3 /\
  calculateClosestAspectRatio (num_of_Z 1400) (num_of_Z 900) = Some R16_9.
Proof. split; [reflexivity|]. split; [reflexivity|]. vm_compute. reflexivity. Qed.

(** Where the exact differences tie and the numbers are exact, the
    computed differences tie too, and the earlier ratio is returned:
    7:8 lies between 3:4 and 1:1, 21:32 between 9:16 and 3:4. *)
Example calculateClosestAspectRatio_7_8 :
  Spec.fracEq (Spec.exactGap 7 8 R1_1) (Spec.exactGap 7 8 R3_4) = true /\
  calculateClosestAspectRatio (num_of_Z 7) (num_of_Z 8) = Some R1_1 /\
  Spec.fracEq (Spec.exactGap 21 32 R3_4) (Spec.exactGap 21 32 R9_16) = true /\
  calculateClosestAspectRatio (num_of_Z 21) (num_of_Z 32) = Some R3_4.
Proof. repeat split; vm_compute; reflexivity. Qed.

Example calculateClosestAspectRatio_1920_1080 :
  calculateClosestAspectRatio (num_of_Z 1920) (num_of_Z 1080) = Some R16_9.
Proof. vm_compute. reflexivity. Qed.

Example calculateClosestAspectRatio_1080_1350 :
  calculateClosestAspectRatio (num_of_Z 1080) (num_of_Z 1350) = Some R3_4.
Proof. vm_compute. reflexivity. Qed.

Lemma agreesWithExact_check :
  forallb (fun w => forallb (SpecMore.agreesWithExact w) (SpecMore.zrange 1 200))
    (SpecMore.zrange 1 200) = true.
Proof. vm_compute. reflexivity. Qed.

(** For every picture of at most 200 by 200 pixels the answer is the
    ratio at the least exact difference from width/height, the earliest
    listed one where several are, with two exceptions: a picture of
    proportions 7:6 gets 4:3, not 1:1, and one of proportions 14:9 gets
    16:9, not 4:3. *)
Example calculateClosestAspectRatio_exact_small (w h : Z) :
  1 <= w <= 200 -> 1 <= h <= 200 ->
  (6 * w = 7 * h ->
     calculateClosestAspectRatio (num_of_Z w) (num_of_Z h) = Some R4_3 /\
     Spec.exactClosest w h = R1_1) /\
  (9 * w = 14 * h ->
     calculateClosestAspectRatio (num_of_Z w) (num_of_Z h) = Some R16_9 /\
     Spec.exactClosest w h = R4_3) /\
  (6 * w <> 7 * h -> 9 * w <> 14 * h ->
     calculateClosestAspectRatio (num_of_Z w) (num_of_Z h)
     = Some (Spec.exactClosest w h)).
Proof.
  intros Hw Hh.
  assert (C := agreesWithExact_check).
  rewrite forallb_forall in C.
  specialize (C w (In_zrange 1 200 w ltac:(lia))).
  rewrite forallb_forall in C.
  specialize (C h (In_zrange 1 200 h ltac:(lia))).
  unfold SpecMore.agreesWithExact in C.
  assert (R : forall a b, SpecMore.ratio_eqb a b = true -> a = b).
  { intros a b; destruct a, b; (reflexivity || discriminate). }
  destruct (calculateClosestAspectRatio (num_of_Z w) (num_of_Z h)) as [r|];
    [|discriminate].
  destruct (6 * w =? 7 * h) eqn:E6; [apply Z.eqb_eq in E6 | apply Z.eqb_neq in E6].
  - apply andb_true_iff in C. destruct C as [C1 C2].
    apply R in C1, C2. subst r.
    split; [intros _; split; [reflexivity | exact C2]|].
    split; [intros E9; exfalso; lia | intros N; contradiction].
  - split; [intros E; contradiction|].
    destruct (9 * w =? 14 * h) eqn:E9;
      [apply Z.eqb_eq in E9 | apply Z.eqb_neq in E9].
    + apply andb_true_iff in C. destruct C as [C1 C2].
      apply R in C1, C2. subst r.
      split; [intros _; split; [reflexivity | exact C2] | intros _ N; contradiction].
    + apply R in C. subst r.
      split; [intros E; contradiction | intros _ _; reflexivity].
Qed.

End ClosestAspectRatio.

(* ================================================================== *)
(** * Further properties *)

(** ** History operations *)

Section HistoryOperations.
Import Types App.

Lemma with_selected_eta (item : ProcessedImage) :
  with_selected item (selected item) = item.
Proof. destruct item. reflexivity. Qed.

(** X1.  Ticking the same selection box twice gives the history list
    back, provided every record has its [selected] flag (as every record
    the component builds or loads has). *)
Theorem toggleSelection_twice (i : string) (l : list ProcessedImage) :
  SpecMore.flagsDefined l = true ->
  toggleSelection i (toggleSelection i l) = l.
Proof.
  unfold SpecMore.flagsDefined, toggleSelection. intros H.
  induction l as [|item l IH]; [reflexivity|].
  cbn [forallb] in H. apply andb_true_iff in H. destruct H as [Hs Hl].
  cbn [map]. rewrite (IH Hl). f_equal.
  destruct (String.eqb (Types.id item) i) eqn:E; [|rewrite E; reflexivity].
  cbn [with_selected Types.id]. rewrite E.
  destruct item as [a b c d e f g h k m [sel|]]; [|discriminate].
  unfold with_selected, not_selected. cbn. rewrite negb_involutive. reflexivity.
Qed.

Lemma toggleSelection_twice_witness :
  toggleSelection "1700000000002"
    (toggleSelection "1700000000002" [Examples.print1; Examples.print2])
  = [Examples.print1; Examples.print2].
Proof.
  apply (toggleSelection_twice "1700000000002" [Examples.print1; Examples.print2]).
  reflexivity.
Defined.

(** A record without the flag comes back with the flag set to false. *)
Example toggleSelection_twice_missing_flag :
  toggleSelection "1700000000003"
    (toggleSelection "1700000000003" [Examples.print3])
  = [with_selected Examples.print3 (Some false)].
Proof. reflexivity. Qed.

(** X2.  Deleting the identifier of a record just prepended gives the
    previous history list back, provided no earlier record carries the
    same identifier. *)
Theorem delete_after_prepend (entry : ProcessedImage) (l : list ProcessedImage) :
  SpecMore.freshId (Types.id entry) l = true ->
  deleteFromHistory (Types.id entry) (prependToHistory entry l) = l.
Proof.
  unfold SpecMore.freshId, deleteFromHistory, prependToHistory. intros H.
  cbn [filter]. rewrite String.eqb_refl. cbn [negb].
  induction l as [|item l IH]; [reflexivity|].
  cbn [forallb] in H. apply andb_true_iff in H. destruct H as [Hi Hl].
  cbn [filter]. rewrite Hi, (IH Hl). reflexivity.
Qed.

Lemma delete_after_prepend_witness :
  deleteFromHistory (Types.id Examples.print3)
    (prependToHistory Examples.print3 [Examples.print1; Examples.print2])
  = [Examples.print1; Examples.print2].
Proof.
  apply (delete_after_prepend Examples.print3 [Examples.print1; Examples.print2]).
  reflexivity.
Defined.

(** Two developments with the same time stamp share their identifier,
    and one deletion removes both. *)
Example delete_removes_all_with_id :
  deleteFromHistory (Types.id Examples.print2)
    (prependToHistory Examples.print2 [Examples.print1; Examples.print2])
  = [Examples.print1].
Proof. reflexivity. Qed.

(** X3.  Deleting and ticking commute, for any two identifiers: whether a
    selection box is ticked before or after a pending deletion goes
    through, the history list ends up the same. *)
Theorem delete_toggle_commute (i j : string) (l : list ProcessedImage) :
  deleteFromHistory i (toggleSelection j l)
  = toggleSelection j (deleteFromHistory i l).
Proof.
  unfold deleteFromHistory, toggleSelection.
  induction l as [|item l IH]; [reflexivity|].
  cbn [map filter].
  assert (Hid : Types.id (if String.eqb (Types.id item) j
                          then with_selected item (Some (not_selected item))
                          else item) = Types.id item).
  { destruct (String.eqb (Types.id item) j); reflexivity. }
  rewrite Hid. destruct (negb (String.eqb (Types.id item) i)).
  - cbn [map]. rewrite IH. reflexivity.
  - exact IH.
Qed.

(** X4.  Clicking a print restores the settings it was developed with:
    picture, result, size, ratio, film stock and ISO always, and the
    skin detail unless it was 0.  With them the prompt built next is the
    prompt stored in the print.  A skin detail of 0 comes back as 50, and
    the prompt built next differs from the stored one. *)
Theorem selectHistoryItem_restores (closure s : State) (o resultUrl : string)
    (now_id now_ts : Z) :
  originalBase64 closure = Some o ->
  originalBase64
    (selectHistoryItem
       (newEntry closure (buildFinalPrompt closure) resultUrl now_id now_ts) s)
    = Some o /\
  processedUrl
    (selectHistoryItem
       (newEntry closure (buildFinalPrompt closure) resultUrl now_id now_ts) s)
    = Some resultUrl /\
  imageSize
    (selectHistoryItem
       (newEntry closure (buildFinalPrompt closure) resultUrl now_id now_ts) s)
    = imageSize closure /\
  aspectRatio
    (selectHistoryItem
       (newEntry closure (buildFinalPrompt closure) resultUrl now_id now_ts) s)
    = aspectRatio closure /\
  filmStock
    (selectHistoryItem
       (newEntry closure (buildFinalPrompt closure) resultUrl now_id now_ts) s)
    = filmStock closure /\
  iso
    (selectHistoryItem
       (newEntry closure (buildFinalPrompt closure) resultUrl now_id now_ts) s)
    = iso closure /\
  (skinDetail closure <> 0 ->
     skinDetail
       (selectHistoryItem
          (newEntry closure (buildFinalPrompt closure) resultUrl now_id now_ts) s)
       = skinDetail closure /\
     buildFinalPrompt
       (selectHistoryItem
          (newEntry closure (buildFinalPrompt closure) resultUrl now_id now_ts) s)
       = prompt (newEntry closure (buildFinalPrompt closure) resultUrl now_id now_ts)) /\
  (skinDetail closure = 0 ->
     skinDetail
       (selectHistoryItem
          (newEntry closure (buildFinalPrompt closure) resultUrl now_id now_ts) s)
       = 50 /\
     buildFinalPrompt
       (selectHistoryItem
          (newEntry closure (buildFinalPrompt closure) resultUrl now_id now_ts) s)
       <> prompt (newEntry closure (buildFinalPrompt closure) resultUrl now_id now_ts)).
Proof.
  intros Ho. unfold selectHistoryItem, newEntry. cbn. rewrite Ho.
  repeat (split; [reflexivity|]). split.
  - intros Hne. apply Z.eqb_neq in Hne. rewrite Hne. split; reflexivity.
  - intros ->. cbn. split; [reflexivity|].
    unfold buildFinalPrompt. cbn. intros H. discriminate H.
Qed.

Lemma selectHistoryItem_restores_witness :
  buildFinalPrompt
    (selectHistoryItem
       (newEntry Examples.pendingClosure (buildFinalPrompt Examples.pendingClosure)
          "data:image/png;base64,Qg==" 1700000000005 1700000000006)
       Examples.busyState)
  = buildFinalPrompt Examples.pendingClosure.
Proof.
  destruct (selectHistoryItem_restores Examples.pendingClosure Examples.busyState
              Examples.picture "data:image/png;base64,Qg=="
              1700000000005 1700000000006 eq_refl)
    as [_ [_ [_ [_ [_ [_ [H _]]]]]]].
  apply H. discriminate.
Defined.

End HistoryOperations.

(** ** The picture handed to the API *)

Section DataUrl.
Import Types App.






(** Without a comma there is no payload, and without a colon no MIME
    type: the API is called with both missing. *)
Example dataUrl_malformed :
  base64Data (setOriginalBase64 (Some "not a data url") initialState) = None /\
  mimeType (setOriginalBase64 (Some "not a data url") initialState) = None.
Proof. split; reflexivity. Qed.

End DataUrl.

(** ** Degenerate picture sizes *)

Section DegenerateRatio.
Import Types Ratio.

Lemma fold_closer_first (ratio : number) (rest : list (number * AspectRatio))
    (first : number * AspectRatio) :
  (forall e, In e rest ->
     num_lt (distance ratio e) (distance ratio first) = false) ->
  fold_left (closer ratio) rest first = first.
Proof.
  induction rest as [|c rest IH]; intros H; [reflexivity|].
  cbn [fold_left]. unfold closer at 2.
  rewrite (H c (or_introl eq_refl)). apply IH.
  intros e He. apply H. right. exact He.
Qed.

(** X6.  When width/height is not a finite number, as for a picture of
    height 0, [calculateClosestAspectRatio] answers 1:1: the five
    distances are all infinite, or all not a number, no comparison
    succeeds and the first entry stays. *)
Theorem calculateClosestAspectRatio_degenerate (width height : number) :
  SpecMore.isFinite (num_div width height) = false ->
  calculateClosestAspectRatio width height = Some R1_1.
Proof.
  intros H. unfold calculateClosestAspectRatio. cbv zeta.
  unfold reduce, standardRatios. rewrite fold_closer_first; [reflexivity|].
  intros e He.
  destruct (num_div width height) as [s|s| |s m x]; try discriminate;
    vm_compute in He;
    repeat (destruct He as [<- | He]; [destruct s; vm_compute; reflexivity|]);
    try contradiction;
    repeat (destruct He as [<- | He]; [vm_compute; reflexivity|]);
    contradiction.
Qed.

Lemma calculateClosestAspectRatio_degenerate_witness :
  calculateClosestAspectRatio (num_of_Z 800) (num_of_Z 0) = Some R1_1.
Proof.
  apply (calculateClosestAspectRatio_degenerate (num_of_Z 800) (num_of_Z 0)).
  reflexivity.
Defined.

Example calculateClosestAspectRatio_0_0 :
  num_div (num_of_Z 0) (num_of_Z 0) = S754_nan /\
  calculateClosestAspectRatio (num_of_Z 0) (num_of_Z 0) = Some R1_1.
Proof. split; vm_compute; reflexivity. Qed.

End DegenerateRatio.

(** ** Prompts and settings *)

Section PromptSettings.
Import Types Prompt App.

Lemma buildFinalPrompt_promptOf (s : State) :
  buildFinalPrompt s
  = SpecMore.promptOf (SpecMore.band (skinDetail s), filmStock s, iso s).
Proof.
  unfold buildFinalPrompt, SpecMore.promptOf, SpecMore.band, BASE_PROMPT_TEMPLATE.
  destruct (skinDetail s <? 30); [reflexivity|].
  destruct (skinDetail s >? 70); reflexivity.
Qed.

Lemma settings_eqb_eq (a b : SpecMore.Settings) :
  SpecMore.settings_eqb a b = true -> a = b.
Proof.
  destruct a as [[b1 s1] i1], b as [[b2 s2] i2].
  destruct b1, b2; try discriminate;
    destruct s1, s2; try discriminate;
    destruct i1, i2; try discriminate; reflexivity.
Qed.

Lemma allSettings_complete (a : SpecMore.Settings) : In a SpecMore.allSettings.
Proof.
  destruct a as [[b s] i]. unfold SpecMore.allSettings.
  apply in_prod; [apply in_prod|].
  - destruct b; cbn; auto.
  - destruct s; cbn; auto 10.
  - destruct i; cbn; auto.
Qed.

Lemma promptOf_injective_check :
  forallb (fun a =>
    forallb (fun b =>
      negb (String.eqb (SpecMore.promptOf a) (SpecMore.promptOf b))
      || SpecMore.settings_eqb a b) SpecMore.allSettings)
    SpecMore.allSettings = true.
Proof. vm_compute. reflexivity. Qed.

(** X7.  The prompt tells the settings: two component states that build
    the same prompt have the same film stock, the same ISO value and skin
    details of the same band (below 30, 30 to 70, above 70). *)
Theorem buildFinalPrompt_injective (s1 s2 : State) :
  buildFinalPrompt s1 = buildFinalPrompt s2 ->
  SpecMore.band (skinDetail s1) = SpecMore.band (skinDetail s2) /\
  filmStock s1 = filmStock s2 /\
  iso s1 = iso s2.
Proof.
  rewrite !buildFinalPrompt_promptOf. intros H.
  pose proof promptOf_injective_check as C.
  rewrite forallb_forall in C.
  specialize (C _ (allSettings_complete
                     (SpecMore.band (skinDetail s1), filmStock s1, iso s1))).
  rewrite forallb_forall in C.
  specialize (C _ (allSettings_complete
                     (SpecMore.band (skinDetail s2), filmStock s2, iso s2))).
  rewrite H, String.eqb_refl in C. cbn [negb orb] in C.
  apply settings_eqb_eq in C. injection C as -> -> ->. auto.
Qed.

Lemma buildFinalPrompt_injective_witness :
  SpecMore.band (skinDetail Examples.freshState)
    = SpecMore.band (skinDetail Examples.busyState) /\
  filmStock Examples.freshState = filmStock Examples.busyState /\
  iso Examples.freshState = iso Examples.busyState.
Proof.
  apply (buildFinalPrompt_injective Examples.freshState Examples.busyState).
  reflexivity.
Defined.

End PromptSettings.

(** ** More on services/geminiService.ts *)

Section ProcessImageMore.
Import GeminiService.



(** An error of the constructor with the 403 signature is not turned
    into the permission error. *)
Example processImage_constructor_403 :
  processImage (Rejected {| message := Some "Forbidden"; status := Some 403 |})
    None None "" Types.Size1K Types.R1_1
  = Rejected {| message := Some "Forbidden"; status := Some 403 |}.
Proof. reflexivity. Qed.

(** X9.  Classifying an error a second time changes nothing: what the
    [catch] block throws, it would throw again unchanged. *)
Theorem catchHandler_idempotent (e : Error) :
  catchHandler (catchHandler e) = catchHandler e.
Proof.
  rewrite (catchHandler_cascade e). cbv zeta.
  destruct (startsWith (or_else (message e) "") "REJECTION:") eqn:R.
  { rewrite catchHandler_cascade. cbv zeta. rewrite R. reflexivity. }
  destruct (includes (or_else (message e) "") "403" || _) eqn:G; [reflexivity|].
  apply orb_false_iff in G. destruct G as [F _].
  destruct (includes (or_else (message e) "") "Requested entity was not found.") eqn:E;
    [reflexivity|].
  destruct (includes (or_else (message e) "") "429") eqn:L; [reflexivity|].
  destruct (truthy (or_else (message e) "")) eqn:T; [|reflexivity].
  rewrite catchHandler_cascade. cbv zeta. cbn [message newError or_else status].
  rewrite T, R, F, E, L, T. reflexivity.
Qed.

End ProcessImageMore.

(** ** Invariants of the component *)

Section Invariants.
Import Types App AppMore AppRuns.
Context {dbs : DbService}.

Lemma In_remove_nth {A : Type} (n : nat) (l : list A) (x : A) :
  In x (remove_nth n l) -> In x l.
Proof.
  revert n. induction l as [|a l IH]; intros [|n] H; cbn in *; auto.
  destruct H as [H | H]; [left; exact H | right; exact (IH n H)].
Qed.

Lemma In_replace_nth {A : Type} (n : nat) (y : A) (l : list A) (x : A) :
  In x (replace_nth n y l) -> x = y \/ In x l.
Proof.
  revert n. induction l as [|a l IH]; intros [|n] H; cbn in *; auto.
  - destruct H as [H | H]; [left; symmetry; exact H | right; right; exact H].
  - destruct H as [H | H]; [right; left; exact H|].
    destruct (IH n H) as [E | I]; [left; exact E | right; right; exact I].
Qed.

(** The flags of the records in sight: every record of the history list
    has its [selected] flag, and every record on its way to the store
    has it set to false. *)
Definition flagsInv (w : World) : Prop :=
  SpecMore.flagsDefined (history (ui w)) = true /\
  (forall entry, In (AwaitSave entry) (tasks w) -> selected entry = Some false).

Lemma flagsDefined_toggle (i : string) (l : list ProcessedImage) :
  SpecMore.flagsDefined l = true ->
  SpecMore.flagsDefined (toggleSelection i l) = true.
Proof.
  unfold SpecMore.flagsDefined, toggleSelection. rewrite !forallb_forall.
  intros H item Hin. apply in_map_iff in Hin. destruct Hin as [x [<- Hx]].
  destruct (String.eqb (Types.id x) i); [reflexivity | exact (H x Hx)].
Qed.

Lemma flagsDefined_delete (i : string) (l : list ProcessedImage) :
  SpecMore.flagsDefined l = true ->
  SpecMore.flagsDefined (deleteFromHistory i l) = true.
Proof.
  unfold SpecMore.flagsDefined, deleteFromHistory. rewrite !forallb_forall.
  intros H item Hin. apply filter_In in Hin. apply H. apply Hin.
Qed.

Lemma flagsDefined_loaded (l : list ProcessedImage) :
  SpecMore.flagsDefined (map (fun item => with_selected item (Some false)) l) = true.
Proof.
  unfold SpecMore.flagsDefined. apply forallb_forall.
  intros item Hin. apply in_map_iff in Hin. destruct Hin as [x [<- _]].
  reflexivity.
Qed.

Lemma startProcessing_catch_tasks (n : nat) (err : Error) (w : World) :
  tasks (startProcessing_catch n err w) = remove_nth n (tasks w).
Proof. unfold startProcessing_catch. destruct (message_is err _); reflexivity. Qed.

(** Closes the part of a goal that a step has left as it was. *)
Ltac kept Hh Ht :=
  split;
  [ exact Hh
  | intros entry Hin; apply Ht;
    repeat first
      [ exact Hin
      | apply In_remove_nth in Hin
      | apply in_app_or in Hin; destruct Hin as [Hin | [Hin | []]];
        [ | discriminate Hin ] ] ].

Lemma step_flagsInv (w w' : World) (ev : Event) :
  step w ev = Some w' -> flagsInv w -> flagsInv w'.
Proof.
  intros H [Hh Ht].
  destruct ev; cbn [step] in H;
    repeat match type of H with
           | match ?x with _ => _ end = Some _ => destruct x eqn:?; try discriminate
           | (if ?x then _ else _) = Some _ => destruct x eqn:?; try discriminate
           end;
    try (injection H as <-);
    try solve [kept Hh Ht].
  - (* the history has been loaded *)
    split; [apply flagsDefined_loaded|].
    intros entry Hin. apply Ht. cbn in Hin. apply In_remove_nth in Hin. exact Hin.
  - (* a click on the submit button *)
    unfold startProcessing.
    destruct (negb (truthy_opt _)); [split; assumption|].
    destruct (negb (sessionActive _)); kept Hh Ht.
  - (* the key check has settled *)
    unfold startProcessing_hasKey. destruct (negb a); [kept Hh Ht|].
    split; [exact Hh|]. intros entry Hin. cbn in Hin.
    apply In_replace_nth in Hin. destruct Hin as [Hin | Hin];
      [discriminate Hin | exact (Ht entry Hin)].
  - (* [processImage] has settled *)
    unfold startProcessing_processed.
    destruct (processImage_result _ _ _) as [url|err].
    + split; [exact Hh|]. intros entry Hin. cbn in Hin.
      apply In_replace_nth in Hin. destruct Hin as [Hin | Hin].
      * injection Hin as ->. reflexivity.
      * exact (Ht entry Hin).
    + split; [rewrite startProcessing_catch_history; exact Hh|].
      intros entry Hin. rewrite startProcessing_catch_tasks in Hin.
      apply In_remove_nth in Hin. exact (Ht entry Hin).
  - (* the store has answered *)
    destruct result as [[]|err]; cbn [startProcessing_saved].
    + split.
      * cbn. rewrite (Ht entry) by (eapply nth_error_In; eassumption). exact Hh.
      * intros e Hin. cbn in Hin. apply In_remove_nth in Hin. exact (Ht e Hin).
    + split; [rewrite startProcessing_catch_history; exact Hh|].
      intros e Hin. rewrite startProcessing_catch_tasks in Hin.
      apply In_remove_nth in Hin. exact (Ht e Hin).
  - (* a click on a selection box *)
    split; [apply flagsDefined_toggle; exact Hh | exact Ht].
  - (* a deletion has settled *)
    destruct result as [[]|err]; [|kept Hh Ht].
    split; [apply flagsDefined_delete; exact Hh|].
    intros e Hin. cbn in Hin. apply In_remove_nth in Hin. exact (Ht e Hin).
Qed.

Lemma run_flagsInv (evs : list Event) (w w' : World) :
  run w evs = Some w' -> flagsInv w -> flagsInv w'.
Proof.
  revert w. induction evs as [|ev evs IH]; intros w H Hinv; cbn [run] in H.
  - injection H as <-. exact Hinv.
  - destruct (step w ev) as [w1|] eqn:E; [|discriminate].
    apply (IH w1 H). apply (step_flagsInv w w1 ev E Hinv).
Qed.

(** X10.  The selection is never stored.  In every world the component
    reaches after mounting, each record of the history list has its
    [selected] flag, and when a save goes through, the record handed to
    the store has the flag set to false, whatever has been ticked in the
    meantime. *)
Theorem selection_never_stored (st : Storage) (d : DB) (evs : list Event)
    (w : World) :
  run (mount st d) evs = Some w ->
  SpecMore.flagsDefined (history (ui w)) = true /\
  (forall n w', step w (SaveSettled n (Resolved tt)) = Some w' ->
     exists entry,
       selected entry = Some false /\
       db w' = saveHistoryItem entry (db w) /\
       history (ui w') = entry :: history (ui w)).
Proof.
  intros H.
  assert (Hinv : flagsInv w).
  { apply (run_flagsInv evs _ _ H). split; [reflexivity|].
    intros entry [Hin | [Hin | []]]; discriminate Hin. }
  destruct Hinv as [Hh Ht]. split; [exact Hh|].
  intros n w' Hs. cbn [step] in Hs.
  destruct (nth_error (tasks w) n) as [[| | | |entry|]|] eqn:E; try discriminate.
  injection Hs as <-. exists entry.
  split; [apply Ht; eapply nth_error_In; exact E|]. split; reflexivity.
Qed.


Lemma count_remove_nth {A : Type} (f : A -> bool) (l : list A) (n : nat) (x : A) :
  nth_error l n = Some x ->
  (List.length (filter f (remove_nth n l)) + (if f x then 1 else 0)
   = List.length (filter f l))%nat.
Proof.
  revert n. induction l as [|a l IH]; intros [|n] H; cbn in *; try discriminate.
  - injection H as ->. destruct (f x); cbn; lia.
  - specialize (IH n H). destruct (f a); cbn; lia.
Qed.

Lemma count_replace_nth {A : Type} (f : A -> bool) (l : list A) (n : nat)
    (x y : A) :
  nth_error l n = Some x ->
  (List.length (filter f (replace_nth n y l)) + (if f x then 1 else 0)
   = List.length (filter f l) + (if f y then 1 else 0))%nat.
Proof.
  revert n. induction l as [|a l IH]; intros [|n] H; cbn in *; try discriminate.
  - injection H as ->. destruct (f x), (f y); cbn; lia.
  - specialize (IH n H). destruct (f a); cbn; lia.
Qed.

Lemma count_app_one {A : Type} (f : A -> bool) (l : list A) (y : A) :
  (List.length (filter f (l ++ [y]))
   = List.length (filter f l) + (if f y then 1 else 0))%nat.
Proof.
  rewrite filter_app, length_app. cbn. destruct (f y); reflexivity.
Qed.

Lemma outstanding_le_developments (w : World) :
  (outstanding w <= developments w)%nat.
Proof.
  unfold outstanding, developments.
  induction (tasks w) as [|t l IH]; [apply Nat.le_refl|].
  cbn. destruct t; cbn; lia.
Qed.

(** At most one development is under way, and while one is, the status
    says so. *)
Definition singleInv (w : World) : Prop :=
  (developments w <= 1)%nat /\
  (developments w = 1%nat ->
   Types.status (processingState (ui w)) = checking_key \/
   Types.status (processingState (ui w)) = processing).

Lemma singleInv_none (w : World) : developments w = 0%nat -> singleInv w.
Proof. intros H. unfold singleInv. rewrite H. split; [lia | discriminate]. Qed.

Lemma singleInv_same (w w0 : World) :
  singleInv w ->
  developments w0 = developments w ->
  Types.status (processingState (ui w0)) = Types.status (processingState (ui w)) ->
  singleInv w0.
Proof. intros [Hle Hst] D S. unfold singleInv. rewrite D, S. split; assumption. Qed.

Lemma developments_removed (w w0 : World) (n : nat) (t : Task) :
  nth_error (tasks w) n = Some t ->
  tasks w0 = remove_nth n (tasks w) ->
  (developments w0 + (if inFlight t then 1 else 0) = developments w)%nat.
Proof.
  intros E T. unfold developments. rewrite T. apply count_remove_nth. exact E.
Qed.

Lemma developments_replaced (w w0 : World) (n : nat) (t t' : Task) :
  nth_error (tasks w) n = Some t ->
  tasks w0 = replace_nth n t' (tasks w) ->
  (developments w0 + (if inFlight t then 1 else 0)
   = developments w + (if inFlight t' then 1 else 0))%nat.
Proof.
  intros E T. unfold developments. rewrite T. apply count_replace_nth. exact E.
Qed.

Lemma mainView_ErrorView (s : State) :
  mainView s = ErrorView -> Types.status (processingState s) = error.
Proof.
  unfold mainView. destruct (compareMode s); [discriminate|].
  destruct (Types.status (processingState s)); cbn;
    destruct (truthy_opt (processedUrl s) && truthy_opt (originalBase64 s));
    try discriminate; reflexivity.
Qed.

Lemma step_singleInv (w w' : World) (ev : Event) :
  step w ev = Some w' ->
  (isFileLoaded ev = true -> developments w = 0%nat) ->
  singleInv w -> singleInv w'.
Proof.
  intros H Hcalm Hinv. pose proof Hinv as [Hle Hst].
  assert (Keep : forall w0, tasks w0 = tasks w ->
            Types.status (processingState (ui w0))
              = Types.status (processingState (ui w)) ->
            singleInv w0).
  { intros w0 T S. apply (singleInv_same w w0 Hinv); [|exact S].
    unfold developments. rewrite T. reflexivity. }
  assert (Drop : forall w0 n t, nth_error (tasks w) n = Some t ->
            tasks w0 = remove_nth n (tasks w) ->
            (inFlight t = true \/
             Types.status (processingState (ui w0))
               = Types.status (processingState (ui w))) ->
            singleInv w0).
  { intros w0 n t E T [F | S].
    - apply singleInv_none. pose proof (developments_removed w w0 n t E T) as D.
      rewrite F in D. lia.
    - pose proof (developments_removed w w0 n t E T) as D.
      destruct (inFlight t); [apply singleInv_none; lia|].
      apply (singleInv_same w w0 Hinv); [lia | exact S]. }
  destruct ev; cbn [step] in H.
  - (* the key status has been checked *)
    destruct (nth_error (tasks w) n) as [[s| | | | |]|] eqn:E; try discriminate.
    injection H as <-. apply (Drop _ n _ E); [reflexivity | right; reflexivity].
  - (* the history has been loaded *)
    destruct (nth_error (tasks w) n) as [[| | | | |]|] eqn:E; try discriminate.
    destruct result; injection H as <-;
      apply (Drop _ n _ E); try reflexivity; right; reflexivity.
  - (* a picture has been loaded *)
    unfold handleFileUpload in H.
    destruct (Ratio.calculateClosestAspectRatio width height); [|discriminate].
    injection H as <-. apply singleInv_none. exact (Hcalm eq_refl).
  - (* a click on the submit button *)
    destruct (submitDisabled (ui w)) eqn:D; [discriminate|]. injection H as <-.
    assert (Hidle : Types.status (processingState (ui w)) = idle).
    { unfold submitDisabled in D. apply orb_false_iff in D. destruct D as [_ D].
      apply negb_false_iff in D.
      destruct (Types.status (processingState (ui w))); try discriminate D.
      reflexivity. }
    assert (Hzero : developments w = 0%nat).
    { destruct (Nat.eq_dec (developments w) 1) as [One|]; [|lia].
      destruct (Hst One) as [C | C]; rewrite Hidle in C; discriminate C. }
    unfold startProcessing.
    destruct (negb (truthy_opt _)); [exact Hinv|].
    destruct (negb (sessionActive _)); [apply Keep; reflexivity|].
    unfold singleInv, developments. cbn [tasks with_tasks with_ui].
    rewrite count_app_one. fold (developments w). rewrite Hzero. cbn.
    split; [lia | intros _; left; reflexivity].
  - (* the key check has settled *)
    destruct (nth_error (tasks w) n) as [[| |closure| | |]|] eqn:E; try discriminate.
    destruct result as [[|]|err]; injection H as <-.
    + pose proof (developments_replaced w
                    (startProcessing_hasKey n closure true w) n _
                    (AwaitProcessImage closure (buildFinalPrompt closure))
                    E eq_refl) as D.
      cbn [inFlight] in D. unfold singleInv. split; [lia|].
      intros _. right. reflexivity.
    + apply (Drop _ n _ E); [reflexivity | left; reflexivity].
    + apply (Drop _ n _ E); [reflexivity | left; reflexivity].
  - (* [processImage] has settled *)
    destruct (nth_error (tasks w) n) as [[| | |closure finalPrompt| |]|] eqn:E;
      try discriminate.
    injection H as <-. unfold startProcessing_processed.
    destruct (processImage_result closure finalPrompt sdk) as [url|err].
    + apply (singleInv_same w _ Hinv); [|reflexivity].
      pose proof (developments_replaced w
                    (with_tasks
                       (replace_nth n
                          (AwaitSave (newEntry closure finalPrompt url now_id now_ts)))
                       (with_ui (setProcessedUrl (Some url)) w))
                    n _ (AwaitSave (newEntry closure finalPrompt url now_id now_ts))
                    E eq_refl) as D.
      cbn [inFlight] in D. lia.
    + apply (Drop _ n _ E); [apply startProcessing_catch_tasks | left; reflexivity].
  - (* the store has answered *)
    destruct (nth_error (tasks w) n) as [[| | | |entry|]|] eqn:E; try discriminate.
    injection H as <-. destruct result as [[]|err].
    + apply (Drop _ n _ E); [reflexivity | left; reflexivity].
    + apply (Drop _ n _ E); [apply startProcessing_catch_tasks | left; reflexivity].
  - (* a click on a selection box *)
    injection H as <-. apply Keep; reflexivity.
  - (* a click on a delete button *)
    injection H as <-. apply (singleInv_same w _ Hinv); [|reflexivity].
    unfold developments. cbn [tasks with_tasks]. rewrite count_app_one. cbn. lia.
  - (* a deletion has settled *)
    destruct (nth_error (tasks w) n) as [[| | | | |j]|] eqn:E; try discriminate.
    injection H as <-.
    destruct result as [[]|err];
      apply (Drop _ n _ E); try reflexivity; right; reflexivity.
  - (* a click on a print *)
    destruct (nth_error (history (ui w)) k); [|discriminate].
    injection H as <-. apply Keep; reflexivity.
  - (* a click on the restart button *)
    destruct (mainView (ui w)) eqn:V; try discriminate. injection H as <-.
    apply mainView_ErrorView in V. apply singleInv_none.
    unfold developments. cbn [tasks with_ui].
    fold (developments w).
    destruct (Nat.eq_dec (developments w) 1) as [One|]; [|lia].
    destruct (Hst One) as [C | C]; rewrite V in C; discriminate C.
  - (* a click on the clear button *)
    destruct (mainView (ui w)); try discriminate.
    injection H as <-. apply Keep; reflexivity.
  - injection H as <-. apply Keep; reflexivity.
  - injection H as <-. apply Keep; reflexivity.
  - injection H as <-. apply Keep; reflexivity.
  - injection H as <-. apply Keep; reflexivity.
  - injection H as <-. apply Keep; reflexivity.
  - injection H as <-. apply Keep; reflexivity.
  - injection H as <-. apply Keep; reflexivity.
  - destruct (anySelected (ui w)); [|discriminate].
    injection H as <-. apply Keep; reflexivity.
  - destruct (mainView (ui w)); try discriminate.
    injection H as <-. apply Keep; reflexivity.
Qed.

Lemma run_calm_singleInv (evs : list Event) (w w' : World) :
  run_calm w evs = Some w' -> singleInv w -> singleInv w'.
Proof.
  revert w. induction evs as [|ev evs IH]; intros w H Hinv; cbn [run_calm] in H.
  - injection H as <-. exact Hinv.
  - destruct (isFileLoaded ev && negb (developments w =? 0)%nat) eqn:G;
      [discriminate|].
    destruct (step w ev) as [w1|] eqn:E; [|discriminate].
    apply (IH w1 H). apply (step_singleInv w w1 ev E); [|exact Hinv].
    intros F. rewrite F in G. cbn in G. apply negb_false_iff in G.
    apply Nat.eqb_eq. exact G.
Qed.

(** X11.  As long as no picture is loaded while a development is under
    way, the submit button does its job: in every world reached after
    mounting, at most one development is under way, at most one call of
    [processImage] is outstanding, and a click on the submit button is
    refused while there is one. *)
Theorem single_development_when_calm (st : Storage) (d : DB)
    (evs : list Event) (w : World) :
  run_calm (mount st d) evs = Some w ->
  (developments w <= 1)%nat /\
  (outstanding w <= 1)%nat /\
  (developments w = 1%nat -> step w ClickSubmit = None).
Proof.
  intros H.
  assert (Hinv : singleInv w).
  { apply (run_calm_singleInv evs _ _ H). apply singleInv_none. reflexivity. }
  destruct Hinv as [Hle Hst]. split; [exact Hle|]. split.
  - pose proof (outstanding_le_developments w). lia.
  - intros One. cbn [step]. unfold submitDisabled.
    destruct (Hst One) as [-> | ->]; cbn; rewrite orb_true_r; reflexivity.
Qed.

Lemma sessionActive_removeItem (st : Storage) :
  sessionActive (removeItem SESSION_KEY st) = false.
Proof. unfold sessionActive. rewrite getItem_removeItem. reflexivity. Qed.

Lemma sessionActive_setItem (st : Storage) :
  sessionActive (setItem SESSION_KEY "true" st) = true.
Proof. reflexivity. Qed.

(** X12.  After a failure with KEY_RESET_REQUIRED the next click on the
    submit button starts nothing and opens the key modal again; once the
    key has been activated, the click starts the key check of a new
    development. *)
Theorem key_reset_then_submit
    (w : World) (n : nat) (closure : State) (finalPrompt : string)
    (sdk : GeminiService.Sdk)
    (now_id now_ts : Z) (err : Error) :
  nth_error (tasks w) n = Some (AwaitProcessImage closure finalPrompt) ->
  processImage_result closure finalPrompt sdk = Rejected err ->
  Js.message err = Some "KEY_RESET_REQUIRED" ->
  truthy_opt (originalBase64 (ui w)) = true ->
  exists w1,
    step w (ProcessImageSettled n sdk now_id now_ts) = Some w1 /\
    (exists w2,
       step w1 ClickSubmit = Some w2 /\
       tasks w2 = tasks w1 /\
       showKeyModal (ui w2) = true /\
       Types.status (processingState (ui w2)) = idle) /\
    (exists w3,
       run w1 [KeyActivated; ClickSubmit] = Some w3 /\
       tasks w3 = (tasks w1 ++ [AwaitHasKey (ui (handleKeyActivation w1))])%list /\
       showKeyModal (ui w3) = false /\
       Types.status (processingState (ui w3)) = checking_key).
Proof.
  intros Ht Hr Hk Ho. cbn [step]. rewrite Ht, Hr.
  eexists. split; [reflexivity|].
  cbn [startProcessing_processed]. unfold startProcessing_catch.
  apply message_is_true in Hk. rewrite Hk.
  split.
  - cbn [step]. unfold submitDisabled. cbn. rewrite Ho. cbn.
    eexists. split; [reflexivity|].
    unfold startProcessing. cbn. rewrite Ho. cbn.
    rewrite sessionActive_removeItem. cbn. repeat split.
  - cbn [run step]. unfold submitDisabled. cbn. rewrite Ho. cbn.
    eexists. split; [reflexivity|].
    unfold startProcessing. cbn. rewrite Ho. cbn. repeat split.
Qed.

(** X13.  A failure that follows an earlier success stays out of sight.
    When a development fails (other than with KEY_RESET_REQUIRED) while
    the result of an earlier one is displayed, the status becomes error,
    but the main panel goes on showing the earlier result: the error
    panel and its restart button are not rendered, and the submit button
    is disabled.  Clearing the displayed result brings the error panel
    up. *)
Theorem failure_behind_result
    (w : World) (n : nat) (closure : State) (finalPrompt : string)
    (sdk : GeminiService.Sdk)
    (now_id now_ts : Z) (err : Error) :
  nth_error (tasks w) n = Some (AwaitProcessImage closure finalPrompt) ->
  processImage_result closure finalPrompt sdk = Rejected err ->
  message_is err "KEY_RESET_REQUIRED" = false ->
  compareMode (ui w) = false ->
  truthy_opt (processedUrl (ui w)) = true ->
  truthy_opt (originalBase64 (ui w)) = true ->
  exists w',
    step w (ProcessImageSettled n sdk now_id now_ts) = Some w' /\
    Types.status (processingState (ui w')) = error /\
    mainView (ui w') = ResultView /\
    step w' ClickRestartLab = None /\
    step w' ClickSubmit = None /\
    exists w'',
      step w' ClickClearProcessed = Some w'' /\
      mainView (ui w'') = ErrorView.
Proof.
  intros Ht Hr Hk Hc Hp Ho. cbn [step]. rewrite Ht, Hr.
  eexists. split; [reflexivity|].
  cbn [startProcessing_processed]. unfold startProcessing_catch. rewrite Hk.
  assert (V : mainView
                (ui (with_tasks (remove_nth n)
                       (with_ui
                          (setProcessingState
                             {| Types.status := error;
                                Types.message :=
                                  Some (or_else (Js.message err)
                                          "Chemical imbalance detected.") |}) w)))
              = ResultView).
  { unfold mainView. cbn. rewrite Hc, Hp, Ho. reflexivity. }
  split; [reflexivity|]. split; [exact V|].
  split; [cbn [step]; rewrite V; reflexivity|].
  split.
  - cbn [step]. unfold submitDisabled. cbn. rewrite orb_true_r. reflexivity.
  - cbn [step]. rewrite V. eexists. split; [reflexivity|].
    unfold mainView. cbn. rewrite Hc. reflexivity.
Qed.

(** X14.  A failure decided by the response never touches the session.
    When the API call resolves and [processImage] throws all the same,
    the status becomes error with a message that starts with REJECTION:,
    which the error panel lays out as a rejection; session storage and
    the key modal are left alone. *)
Theorem response_failure_is_rejection
    (w : World) (n : nat) (closure : State) (finalPrompt : string)
    (r : GeminiService.GenerateContentResponse)
    (now_id now_ts : Z) (err : Error) :
  nth_error (tasks w) n = Some (AwaitProcessImage closure finalPrompt) ->
  processImage_result closure finalPrompt (Resolved (fun _ => Resolved r))
    = Rejected err ->
  exists w' msg,
    step w (ProcessImageSettled n (Resolved (fun _ => Resolved r)) now_id now_ts)
      = Some w' /\
    processingState (ui w')
      = {| Types.status := error; Types.message := Some msg |} /\
    Js.message err = Some msg /\
    Spec.Prefix "REJECTION:" msg /\
    type (parseErrorMessage msg) = rejection /\
    sessionStorage w' = sessionStorage w /\
    showKeyModal (ui w') = showKeyModal (ui w).
Proof.
  intros Ht Hr. cbn [step]. rewrite Ht, Hr.
  unfold processImage_result in Hr. rewrite processImage_resolved in Hr.
  apply tryBody_rejection in Hr. destruct Hr as [msg [-> Hp]].
  exists (startProcessing_processed n closure finalPrompt
            (Rejected (newError msg)) now_id now_ts w), msg.
  split; [reflexivity|].
  pose proof Hp as Hs. apply startsWith_Prefix in Hs.
  assert (Hk : message_is (newError msg) "KEY_RESET_REQUIRED" = false).
  { destruct Hp as [rest ->]. reflexivity. }
  assert (Ht' : truthy msg = true).
  { destruct Hp as [rest ->]. reflexivity. }
  cbn [startProcessing_processed]. unfold startProcessing_catch. rewrite Hk.
  cbn. rewrite Ht'.
  split; [reflexivity|]. split; [reflexivity|]. split; [exact Hp|].
  split; [|split; reflexivity].
  unfold parseErrorMessage. rewrite Hs. reflexivity.
Qed.

End Invariants.

(** ** The further properties on concrete worlds *)

Section InvariantsExamples.
Import Types App AppMore AppRuns.

(** In the world of [savingEvents] the history holds the first print,
    ticked, and the save of the second print is pending and goes
    through. *)
Lemma selection_never_stored_witness :
  (map selected (history (ui savingWorld)) = [Some true] /\
   exists w', step savingWorld (SaveSettled 2 (Resolved tt)) = Some w') /\
  SpecMore.flagsDefined (history (ui savingWorld)) = true /\
  (forall n w',
     step savingWorld (SaveSettled n (Resolved tt)) = Some w' ->
     exists entry,
       selected entry = Some false /\
       db w' = saveHistoryItem entry (db savingWorld) /\
       history (ui w') = entry :: history (ui savingWorld)).
Proof.
  split.
  - split; [vm_compute; reflexivity | eexists; vm_compute; reflexivity].
  - apply (selection_never_stored (dbs := tableDb)
             [(SESSION_KEY, "true")] [] savingEvents savingWorld).
    vm_compute. reflexivity.
Defined.

(** That save, evaluated: the list shows the new print unticked before
    the ticked one, and the store holds both unticked. *)
Example selection_never_stored_run :
  option_map (fun w : World (dbs := tableDb) =>
                (map selected (history (ui w)), map selected (getHistory (db w))))
    (step savingWorld (SaveSettled 2 (Resolved tt)))
  = Some ([Some false; Some true], [Some false; Some false]).
Proof. vm_compute. reflexivity. Qed.

(** A record ticked while its neighbour is being saved: the store gets
    the new record unticked, and the ticked one stays ticked in the
    list only. *)
Example tick_during_save :
  option_map (fun w : World (dbs := tableDb) =>
                (map selected (history (ui w)), map selected (getHistory (db w))))
    (run (with_db (dbs := tableDb) (fun _ => [Examples.print1])
            (with_ui (setHistory (fun _ => [Examples.print1]))
               Examples.developingWorld))
       [ ProcessImageSettled 2 (Resolved (fun _ => Resolved Examples.imageResponse))
           1700000000005 1700000000006;
         ClickToggleSelection "1700000000001";
         SaveSettled 2 (Resolved tt) ])
  = Some ([Some false; Some true], [Some false; Some false]).
Proof. vm_compute. reflexivity. Qed.

Lemma single_development_when_calm_witness :
  (developments Examples.developingWorld <= 1)%nat /\
  (outstanding Examples.developingWorld <= 1)%nat /\
  (developments Examples.developingWorld = 1%nat ->
   step Examples.developingWorld ClickSubmit = None).
Proof.
  apply (single_development_when_calm (dbs := tableDb)
           [(SESSION_KEY, "true")] [] Examples.uploadAndSubmit
           Examples.developingWorld).
  vm_compute. reflexivity.
Defined.

Lemma key_reset_then_submit_witness :
  exists w1,
    step Examples.developingWorld
      (ProcessImageSettled 2 Examples.entityNotFound 1700000000000 1700000000001)
      = Some w1 /\
    (exists w2,
       step w1 ClickSubmit = Some w2 /\
       tasks w2 = tasks w1 /\
       showKeyModal (ui w2) = true /\
       Types.status (processingState (ui w2)) = idle) /\
    (exists w3,
       run w1 [KeyActivated; ClickSubmit] = Some w3 /\
       tasks w3 = (tasks w1 ++ [AwaitHasKey (ui (handleKeyActivation w1))])%list /\
       showKeyModal (ui w3) = false /\
       Types.status (processingState (ui w3)) = checking_key).
Proof.
  apply (key_reset_then_submit (dbs := tableDb)
           Examples.developingWorld 2 Examples.pendingClosure
           (buildFinalPrompt Examples.pendingClosure)
           Examples.entityNotFound 1700000000000 1700000000001
           (newError "KEY_RESET_REQUIRED")).
  - vm_compute. reflexivity.
  - vm_compute. reflexivity.
  - reflexivity.
  - reflexivity.
Defined.

Lemma failure_behind_result_witness :
  exists w',
    step secondDevelopment
      (ProcessImageSettled 2 Examples.tooManyRequests 1700000000007 1700000000008)
      = Some w' /\
    Types.status (processingState (ui w')) = error /\
    mainView (ui w') = ResultView /\
    step w' ClickRestartLab = None /\
    step w' ClickSubmit = None /\
    exists w'',
      step w' ClickClearProcessed = Some w'' /\
      mainView (ui w'') = ErrorView.
Proof.
  apply (failure_behind_result (dbs := tableDb)
           secondDevelopment 2 secondClosure (buildFinalPrompt secondClosure)
           Examples.tooManyRequests 1700000000007 1700000000008
           (newError GeminiService.MSG_RATE_LIMIT)).
  - vm_compute. reflexivity.
  - vm_compute. reflexivity.
  - reflexivity.
  - vm_compute. reflexivity.
  - vm_compute. reflexivity.
  - vm_compute. reflexivity.
Defined.

Lemma response_failure_is_rejection_witness :
  exists w' msg,
    step Examples.developingWorld
      (ProcessImageSettled 2 (Resolved (fun _ => Resolved Examples.blankTextResponse))
         1700000000000 1700000000001) = Some w' /\
    processingState (ui w')
      = {| Types.status := error; Types.message := Some msg |} /\
    Js.message (newError GeminiService.MSG_NO_IMAGE) = Some msg /\
    Spec.Prefix "REJECTION:" msg /\
    type (parseErrorMessage msg) = rejection /\
    sessionStorage w' = sessionStorage Examples.developingWorld /\
    showKeyModal (ui w') = showKeyModal (ui Examples.developingWorld).
Proof.
  apply (response_failure_is_rejection (dbs := tableDb)
           Examples.developingWorld 2 Examples.pendingClosure
           (buildFinalPrompt Examples.pendingClosure)
           Examples.blankTextResponse 1700000000000 1700000000001
           (newError GeminiService.MSG_NO_IMAGE)).
  - vm_compute. reflexivity.
  - vm_compute. reflexivity.
Defined.

End InvariantsExamples.

(** ** Theme and file names *)

Section ThemeAndFileNames.
Import Types Prompt AppMore JsMore.

(** X15.  Whatever the name, the theme is one of the three palettes, the
    monochrome one possibly with the logo C; a name with Kodak and
    without B&W gets the Kodak palette, and only a name with Cinestill
    gets the logo C.  For the nine film stocks this gives: Kodak palette
    for the Kodak colour films, Fuji palette for the Fujifilm films,
    monochrome for the two black-and-white films (Kodak Tri-X among
    them), monochrome with logo C for Cinestill; the final default is
    never reached. *)
Theorem getThemeForStock_classes (name : string) (stock : FilmStock) :
  (getThemeForStock name = THEMES_kodak \/
   getThemeForStock name = THEMES_fuji \/
   getThemeForStock name = THEMES_mono \/
   getThemeForStock name = with_logo THEMES_mono "C") /\
  (Spec.Substring "Kodak" name -> ~ Spec.Substring "B&W" name ->
   getThemeForStock name = THEMES_kodak) /\
  (logo (getThemeForStock name) = "C" -> Spec.Substring "Cinestill" name) /\
  getThemeForStock (stock_name stock) =
    match stock with
    | KodakPortra400 | KodakGold200 | KodakEktachromeE100 => THEMES_kodak
    | FujifilmVelvia50 | FujifilmProvia100F | FujifilmPro400H => THEMES_fuji
    | KodakTriX400 | IlfordHP5Plus => THEMES_mono
    | Cinestill800T => with_logo THEMES_mono "C"
    end.
Proof.
  unfold getThemeForStock.
  rewrite <- !includes_Substring.
  split; [|split; [|split]].
  - destruct (includes name "Kodak" && negb (includes name "B&W")); auto.
    destruct (includes name "Fujifilm"); auto.
    destruct (includes name "Cinestill"); auto.
    destruct (includes name "B&W" || includes name "Ilford"); auto.
  - intros -> N. apply not_true_is_false in N. rewrite N. reflexivity.
  - destruct (includes name "Kodak" && negb (includes name "B&W"));
      [discriminate|].
    destruct (includes name "Fujifilm"); [discriminate|].
    destruct (includes name "Cinestill"); [reflexivity|].
    destruct (includes name "B&W" || includes name "Ilford"); discriminate.
  - destruct stock; reflexivity.
Qed.

(** *** The slug *)

Lemma allChars_removeParens (s : string) :
  SpecMore.allChars (fun c => negb (isParen c)) (removeParens s) = true.
Proof.
  unfold removeParens. induction s as [|c s IH]; [reflexivity|].
  cbn [filterChars]. destruct (negb (isParen c)) eqn:E; [|exact IH].
  cbn [SpecMore.allChars]. rewrite E, IH. reflexivity.
Qed.

Lemma allChars_trimStart (ok : ascii -> bool) (s : string) :
  SpecMore.allChars ok s = true -> SpecMore.allChars ok (trimStart s) = true.
Proof.
  induction s as [|c s IH]; [reflexivity|].
  intros H. cbn [trimStart]. destruct (isWhiteSpace c); [|exact H].
  apply IH. cbn [SpecMore.allChars] in H. apply andb_true_iff in H. apply H.
Qed.

Lemma allChars_trimEnd (ok : ascii -> bool) (s : string) :
  SpecMore.allChars ok s = true -> SpecMore.allChars ok (trimEnd s) = true.
Proof.
  induction s as [|c s IH]; [reflexivity|].
  intros H. cbn [SpecMore.allChars] in H. apply andb_true_iff in H.
  destruct H as [Hc Hs]. specialize (IH Hs). cbn [trimEnd].
  destruct (trimEnd s) as [|d t].
  - destruct (isWhiteSpace c); [reflexivity|]. cbn. rewrite Hc. reflexivity.
  - cbn [SpecMore.allChars]. rewrite Hc. exact IH.
Qed.

Lemma allChars_hyphenateFrom (inRun : bool) (s : string) :
  SpecMore.allChars (fun c => negb (isParen c)) s = true ->
  SpecMore.allChars SpecMore.slugChar (hyphenateFrom inRun s) = true.
Proof.
  revert inRun. induction s as [|c s IH]; intros inRun H; [reflexivity|].
  cbn [SpecMore.allChars] in H. apply andb_true_iff in H. destruct H as [Hc Hs].
  cbn [hyphenateFrom]. destruct (isWhiteSpace c) eqn:W.
  - destruct inRun; [apply IH; exact Hs|].
    cbn [SpecMore.allChars]. rewrite (IH true Hs). reflexivity.
  - cbn [SpecMore.allChars]. unfold SpecMore.slugChar at 1. rewrite W, Hc, (IH false Hs).
    reflexivity.
Qed.

(** X16.  Whatever the name of the film stock, the slug of the file name
    holds no white space and no parenthesis. *)
Theorem slug_characters (stock : string) :
  SpecMore.allChars SpecMore.slugChar (slug stock) = true.
Proof.
  unfold slug, hyphenate, trim. apply allChars_hyphenateFrom.
  apply allChars_trimEnd, allChars_trimStart, allChars_removeParens.
Qed.

Example slug_TriX : slug (stock_name KodakTriX400) = "Kodak-Tri-X-400-B&W".
Proof. reflexivity. Qed.

Example slug_runs : slug "  Agfa   Vista (200)  " = "Agfa-Vista-200".
Proof. reflexivity. Qed.

(** *** The date *)

Lemma pad_length_check :
  forallb (fun n => (String.length (pad n) =? 2)%nat) (SpecMore.zrange 0 100)
  = true.
Proof. vm_compute. reflexivity. Qed.

Lemma year_length_check :
  forallb (fun n => (String.length (toString n) =? 4)%nat)
    (SpecMore.zrange 1000 9000) = true.
Proof. vm_compute. reflexivity. Qed.

Lemma pad_length (n : Z) : 0 <= n <= 99 -> String.length (pad n) = 2%nat.
Proof.
  intros H. pose proof pad_length_check as C. rewrite forallb_forall in C.
  apply Nat.eqb_eq. apply C. apply In_zrange. lia.
Qed.

Lemma year_length (n : Z) :
  1000 <= n <= 9999 -> String.length (toString n) = 4%nat.
Proof.
  intros H. pose proof year_length_check as C. rewrite forallb_forall in C.
  apply Nat.eqb_eq. apply C. apply In_zrange. lia.
Qed.

Lemma length_append (a b : string) :
  String.length (a ++ b) = (String.length a + String.length b)%nat.
Proof. induction a as [|c a IH]; cbn; [reflexivity | now rewrite IH]. Qed.

Lemma get_append_right (a b : string) (k : nat) :
  String.get (String.length a + k) (a ++ b) = String.get k b.
Proof. induction a as [|c a IH]; cbn; [reflexivity | exact IH]. Qed.

(** X17.  For a date of a four-digit year the date part of the file name
    has fifteen characters, eight for the day and six for the time with
    a hyphen between them: every field is padded to its width. *)
Theorem dateStr_width (date : LocalDate) :
  1000 <= getFullYear date <= 9999 ->
  0 <= getMonth date <= 11 ->
  1 <= getDate date <= 31 ->
  0 <= getHours date <= 23 ->
  0 <= getMinutes date <= 59 ->
  0 <= getSeconds date <= 59 ->
  String.length (dateStr date) = 15%nat /\
  String.get 8 (dateStr date) = Some "-"%char.
Proof.
  intros Hy Hm Hd Hh Hi Hs. unfold dateStr.
  pose proof (year_length _ Hy) as Ly.
  assert (Lm : String.length (pad (getMonth date + 1)) = 2%nat)
    by (apply pad_length; lia).
  assert (Ld : String.length (pad (getDate date)) = 2%nat)
    by (apply pad_length; lia).
  assert (Lh : String.length (pad (getHours date)) = 2%nat)
    by (apply pad_length; lia).
  assert (Li : String.length (pad (getMinutes date)) = 2%nat)
    by (apply pad_length; lia).
  assert (Lse : String.length (pad (getSeconds date)) = 2%nat)
    by (apply pad_length; lia).
  split.
  - rewrite !length_append, Ly, Lm, Ld, Lh, Li, Lse. reflexivity.
  - set (day := toString (getFullYear date) ++ pad (getMonth date + 1)
                ++ pad (getDate date)).
    set (time := pad (getHours date) ++ pad (getMinutes date)
                 ++ pad (getSeconds date)).
    assert (L8 : String.length day = 8%nat).
    { unfold day. rewrite !length_append, Ly, Lm, Ld. reflexivity. }
    replace (toString (getFullYear date) ++ pad (getMonth date + 1) ++
             pad (getDate date) ++ "-" ++ time)
      with (day ++ "-" ++ time)
      by (unfold day; rewrite !append_assoc; reflexivity).
    rewrite <- L8, <- (Nat.add_0_r (String.length day)), get_append_right.
    reflexivity.
Qed.

Lemma dateStr_width_witness :
  String.length (dateStr (mkLocalDate 2025 0 5 9 3 7)) = 15%nat /\
  String.get 8 (dateStr (mkLocalDate 2025 0 5 9 3 7)) = Some "-"%char.
Proof.
  apply (dateStr_width (mkLocalDate 2025 0 5 9 3 7)); cbn; lia.
Defined.

Example getDownloadFilename_example :
  getDownloadFilename (stock_name KodakTriX400) 400 (mkLocalDate 2025 0 5 9 3 7)
  = "Kodak-Tri-X-400-B&W-iso400-20250105-090307.png".
Proof. reflexivity. Qed.

End ThemeAndFileNames.

(** ** Clamped numbers: zoom and slider *)

Section Clamping.
Import JsMore.

Lemma SFcompare_antisym (x y : number) :
  SFcompare y x = option_map CompOpp (SFcompare x y).
Proof.
  destruct x as [[|]|[|]| |[|] m1 e1], y as [[|]|[|]| |[|] m2 e2];
    try reflexivity; cbn [SFcompare option_map];
    rewrite (Z.compare_antisym e1 e2);
    destruct (e1 ?= e2); cbn [CompOpp]; try reflexivity;
    rewrite (Pos.compare_cont_antisym m1 m2 Eq); cbn [CompOpp];
    reflexivity.
Qed.

Lemma SFcompare_refl (x : number) :
  SpecMore.isNaN x = false -> SFcompare x x = Some Eq.
Proof.
  destruct x as [[|]|[|]| |[|] m e]; try reflexivity; try discriminate;
    intros _; cbn [SFcompare]; rewrite Z.compare_refl, Pos.compare_cont_refl;
    reflexivity.
Qed.

Lemma num_le_refl (x : number) : SpecMore.isNaN x = false -> num_le x x = true.
Proof. intros H. unfold num_le, SFleb. rewrite (SFcompare_refl x H). reflexivity. Qed.

Lemma num_lt_not_nan (x y : number) :
  num_lt x y = true -> SpecMore.isNaN x = false /\ SpecMore.isNaN y = false.
Proof.
  unfold num_lt, SFltb.
  destruct x as [[|]|[|]| |[|] m1 e1], y as [[|]|[|]| |[|] m2 e2];
    cbn; intros H; try discriminate; split; reflexivity.
Qed.

(** [Math.min(Math.max(x, lo), hi)] lies between [lo] and [hi], unless
    [x] is NaN. *)
Lemma clamp_within (lo hi x : number) :
  num_lt lo hi = true -> SpecMore.isNaN x = false ->
  SpecMore.within lo hi (Math_min (Math_max x lo) hi) = true.
Proof.
  intros Hlt Hx.
  destruct (num_lt_not_nan lo hi Hlt) as [Nlo Nhi].
  assert (Llo : num_le lo lo = true) by (apply num_le_refl; exact Nlo).
  assert (Lhi : num_le hi hi = true) by (apply num_le_refl; exact Nhi).
  assert (Llh : num_le lo hi = true).
  { unfold num_lt, SFltb in Hlt. unfold num_le, SFleb.
    destruct (SFcompare lo hi) as [[| |]|]; try discriminate; reflexivity. }
  assert (Clh : SFcompare lo hi = Some Lt).
  { unfold num_lt, SFltb in Hlt.
    destruct (SFcompare lo hi) as [[| |]|]; try discriminate; reflexivity. }
  assert (InLo : SpecMore.within lo hi (Math_min lo hi) = true).
  { unfold Math_min. rewrite Clh. unfold SpecMore.within. rewrite Llo, Llh.
    reflexivity. }
  assert (InX : (SFcompare x lo = Some Gt \/ SFcompare x lo = Some Eq) ->
                SpecMore.within lo hi (Math_min x hi) = true).
  { intros Hc.
    assert (Lx : num_le lo x = true).
    { unfold num_le, SFleb. rewrite (SFcompare_antisym x lo).
      destruct Hc as [-> | ->]; reflexivity. }
    unfold Math_min, SpecMore.within.
    destruct (SFcompare x hi) as [[| |]|] eqn:C.
    - destruct hi as [[|]| | |]; rewrite ?Llh, ?Lhi, ?Lx; cbn;
        try reflexivity; unfold num_le, SFleb; rewrite C; reflexivity.
    - rewrite Lx. unfold num_le, SFleb. rewrite C. reflexivity.
    - rewrite Llh, Lhi. reflexivity.
    - exfalso. destruct x as [[|]|[|]| |[|] m1 e1]; try discriminate Hx;
        destruct hi as [[|]|[|]| |[|] m2 e2]; try discriminate Nhi;
        discriminate C. }
  unfold Math_max at 1.
  destruct (SFcompare x lo) as [[| |]|] eqn:C.
  - destruct x as [[|]|[|]| |[|] m1 e1];
      try exact InLo; apply InX; right; reflexivity.
  - exact InLo.
  - apply InX. left. reflexivity.
  - exfalso. destruct x as [[|]|[|]| |[|] m1 e1]; try discriminate Hx;
      destruct lo as [[|]|[|]| |[|] m2 e2]; try discriminate Nlo;
      discriminate C.
Qed.

Lemma clamp_nan (lo hi : number) :
  Math_min (Math_max S754_nan lo) hi = S754_nan.
Proof. reflexivity. Qed.

Lemma within_finite (lo hi x : number) :
  SpecMore.isFinite lo = true -> SpecMore.isFinite hi = true ->
  SpecMore.within lo hi x = true -> SpecMore.isFinite x = true.
Proof.
  unfold SpecMore.within, num_le, SFleb. intros Flo Fhi H.
  apply andb_true_iff in H. destruct H as [H1 H2].
  destruct x as [[|]|[|]| |[|] m e]; try reflexivity;
    destruct lo as [[|]|[|]| |[|] m1 e1]; try discriminate Flo;
    destruct hi as [[|]|[|]| |[|] m2 e2]; try discriminate Fhi;
    cbn in H1, H2; discriminate.
Qed.

Lemma num_add_not_nan (x y : number) :
  SpecMore.isFinite x = true -> SpecMore.isFinite y = true ->
  SpecMore.isNaN (num_add x y) = false.
Proof.
  intros Fx Fy.
  destruct x as [sx|sx| |sx mx ex]; try discriminate Fx;
    destruct y as [sy|sy| |sy my ey]; try discriminate Fy;
    unfold num_add, SFadd; try reflexivity.
  - destruct sx, sy; reflexivity.
  - unfold binary_normalize.
    destruct (_ + _) as [|q|q]; [reflexivity| |];
      unfold binary_round; destruct (shl_align _ _ _) as [mz ez];
      match goal with
      | |- SpecMore.isNaN ?t = false =>
          pose proof (binary_round_aux_not_nan
                        ltac:(match t with binary_round_aux _ _ ?s _ _ _ => exact s end)
                        (Z.pos mz) ez loc_Exact ltac:(lia)) as N;
          destruct t; try reflexivity; now elim N
      end.
Qed.

End Clamping.

Section ZoomAndSlider.
Import JsMore App AppMore.

(** X18.  The zoom stays between 1 and 4: from a zoom in that range,
    [handleZoom] with any finite step gives a zoom in that range again.
    At the ends it saturates: half a step up from 4 is 4, half a step
    down from 1 is 1. *)
Theorem handleZoom_within (delta : number) (s : State) :
  SpecMore.within (num_of_Z 1) (num_of_Z 4) (zoomScale s) = true ->
  SpecMore.isFinite delta = true ->
  SpecMore.within (num_of_Z 1) (num_of_Z 4) (zoomScale (handleZoom delta s)) = true /\
  (zoomScale s = num_of_Z 4 -> zoomScale (handleZoom half s) = num_of_Z 4) /\
  (zoomScale s = num_of_Z 1 -> zoomScale (handleZoom minus_half s) = num_of_Z 1).
Proof.
  intros Hz Hd. split; [|split].
  - unfold handleZoom. cbn [zoomScale setZoomScale].
    apply clamp_within; [vm_compute; reflexivity|].
    apply num_add_not_nan; [|exact Hd].
    apply (within_finite (num_of_Z 1) (num_of_Z 4)); [reflexivity | reflexivity | exact Hz].
  - intros E. unfold handleZoom. cbn [zoomScale setZoomScale]. rewrite E.
    vm_compute. reflexivity.
  - intros E. unfold handleZoom. cbn [zoomScale setZoomScale]. rewrite E.
    vm_compute. reflexivity.
Qed.

Lemma handleZoom_within_witness :
  SpecMore.within (num_of_Z 1) (num_of_Z 4)
    (zoomScale (handleZoom half initialState)) = true /\
  (zoomScale initialState = num_of_Z 4 ->
   zoomScale (handleZoom half initialState) = num_of_Z 4) /\
  (zoomScale initialState = num_of_Z 1 ->
   zoomScale (handleZoom minus_half initialState) = num_of_Z 1).
Proof.
  apply (handleZoom_within half initialState); vm_compute; reflexivity.
Defined.

(** Seven clicks on the plus button from the start: 1.5, 2, ... and then
    4 for good. *)
Example handleZoom_seven_times :
  zoomScale
    (handleZoom half (handleZoom half (handleZoom half (handleZoom half
      (handleZoom half (handleZoom half (handleZoom half initialState)))))))
  = num_of_Z 4.
Proof. vm_compute. reflexivity. Qed.

(** X19.  The slider position stays between 0 and 100 under every event,
    with one exception: a pointer move during a drag whose relative
    position is not a number (a container of width 0 with the pointer on
    its left edge, say) makes the position NaN. *)
Theorem slider_position_within (zoomScale : number) (st : Slider.State)
    (ev : Slider.Event) :
  SpecMore.within Slider.zero (num_of_Z 100) (Slider.position st) = true ->
  SpecMore.within Slider.zero (num_of_Z 100)
    (Slider.position (Slider.step zoomScale st ev)) = true \/
  (SpecMore.isNaN (Slider.position (Slider.step zoomScale st ev)) = true /\
   Slider.isDraggingSlider st = true /\
   exists rect clientX clientY,
     ev = Slider.MouseMove (Some rect) clientX clientY /\
     SpecMore.isNaN
       (num_mul (num_div (num_sub clientX (Slider.left rect)) (Slider.width rect))
                (num_of_Z 100)) = true).
Proof.
  intros H. destruct ev as [[rect|] x y| |x y| |w]; cbn [Slider.step];
    try (left; exact H).
  - unfold Slider.handleMouseMove.
    destruct (Slider.isDraggingSlider st) eqn:D.
    + cbn [Slider.position].
      destruct (SpecMore.isNaN
                  (num_mul (num_div (num_sub x (Slider.left rect)) (Slider.width rect))
                           (num_of_Z 100))) eqn:N.
      * right. split; [|split; [reflexivity|]].
        -- destruct (num_mul _ _); try discriminate N. reflexivity.
        -- exists rect, x, y. split; [reflexivity | exact N].
      * left. apply clamp_within; [vm_compute; reflexivity | exact N].
    + left. destruct (Slider.isPanning st && num_lt (num_of_Z 1) zoomScale);
        exact H.
  - left. unfold Slider.startPanning.
    destruct (num_le zoomScale (num_of_Z 1) || Slider.isDraggingSlider st);
      exact H.
Qed.

Lemma slider_position_within_witness :
  SpecMore.within Slider.zero (num_of_Z 100)
    (Slider.position
       (Slider.step (num_of_Z 1) (Slider.startDraggingSlider Slider.initialState)
          (Slider.MouseMove
             (Some {| Slider.left := num_of_Z 100; Slider.width := num_of_Z 400 |})
             (num_of_Z 900) (num_of_Z 20)))) = true \/
  (SpecMore.isNaN
     (Slider.position
        (Slider.step (num_of_Z 1) (Slider.startDraggingSlider Slider.initialState)
           (Slider.MouseMove
              (Some {| Slider.left := num_of_Z 100; Slider.width := num_of_Z 400 |})
              (num_of_Z 900) (num_of_Z 20)))) = true /\
   Slider.isDraggingSlider (Slider.startDraggingSlider Slider.initialState) = true /\
   exists rect clientX clientY,
     Slider.MouseMove
       (Some {| Slider.left := num_of_Z 100; Slider.width := num_of_Z 400 |})
       (num_of_Z 900) (num_of_Z 20)
     = Slider.MouseMove (Some rect) clientX clientY /\
     SpecMore.isNaN
       (num_mul (num_div (num_sub clientX (Slider.left rect)) (Slider.width rect))
                (num_of_Z 100)) = true).
Proof.
  apply (slider_position_within (num_of_Z 1)
           (Slider.startDraggingSlider Slider.initialState)).
  vm_compute. reflexivity.
Defined.

(** A drag far to the right stops at 100; on a container of width 0 the
    position is lost. *)
Example slider_drag_right :
  Slider.position
    (Slider.handleMouseMove (num_of_Z 1)
       (Some {| Slider.left := num_of_Z 100; Slider.width := num_of_Z 400 |})
       (num_of_Z 900) (num_of_Z 20)
       (Slider.startDraggingSlider Slider.initialState))
  = num_of_Z 100.
Proof. vm_compute. reflexivity. Qed.

Example slider_drag_zero_width :
  Slider.position
    (Slider.handleMouseMove (num_of_Z 1)
       (Some {| Slider.left := num_of_Z 100; Slider.width := num_of_Z 0 |})
       (num_of_Z 100) (num_of_Z 20)
       (Slider.startDraggingSlider Slider.initialState))
  = S754_nan.
Proof. vm_compute. reflexivity. Qed.

(** X20.  The handlers pan the picture only while it is zoomed in and no
    drag of the slider is going on: at a zoom not above 1 no pointer or
    resize event changes the pan, nor does any during a drag, and panning
    cannot even start at a zoom of at most 1.  Once the pointer is released, pointer
    moves change nothing at all. *)
Theorem slider_pan_guard (zoomScale : number) (st : Slider.State)
    (ev : Slider.Event) (container : option Slider.Rect)
    (clientX clientY : number) :
  (num_lt (num_of_Z 1) zoomScale = false ->
   Slider.pan (Slider.step zoomScale st ev) = Slider.pan st) /\
  (Slider.isDraggingSlider st = true ->
   Slider.pan (Slider.step zoomScale st ev) = Slider.pan st) /\
  (num_le zoomScale (num_of_Z 1) = true ->
   Slider.startPanning zoomScale clientX clientY st = st) /\
  Slider.handleMouseMove zoomScale container clientX clientY (Slider.stopAll st)
    = Slider.stopAll st.
Proof.
  split; [|split; [|split]].
  - intros Z. destruct ev as [[rect|] x y| |x y| |w]; cbn [Slider.step];
      try reflexivity.
    + unfold Slider.handleMouseMove. rewrite Z, andb_false_r.
      destruct (Slider.isDraggingSlider st); reflexivity.
    + unfold Slider.startPanning.
      destruct (num_le zoomScale (num_of_Z 1) || Slider.isDraggingSlider st);
        reflexivity.
  - intros D. destruct ev as [[rect|] x y| |x y| |w]; cbn [Slider.step];
      try reflexivity.
    + unfold Slider.handleMouseMove. rewrite D. reflexivity.
    + unfold Slider.startPanning. rewrite D, orb_true_r. reflexivity.
  - intros L. unfold Slider.startPanning. rewrite L. reflexivity.
  - unfold Slider.handleMouseMove. destruct container; reflexivity.
Qed.

End ZoomAndSlider.

(** ** The error panel *)

Section ErrorPanel.
Import JsMore AppMore.

Lemma startsWith_app_self (p b : string) : startsWith (p ++ b) p = true.
Proof.
  induction p as [|c p IH]; [reflexivity|].
  cbn. rewrite Ascii.eqb_refl. exact IH.
Qed.

Lemma startsWith_app_self_nil (a : string) : startsWith a (a ++ "") = true.
Proof.
  induction a as [|c a IH]; [reflexivity|].
  cbn. rewrite Ascii.eqb_refl. exact IH.
Qed.

(** A start of [a ++ b] is a start of [a], or [a] is used up within it. *)
Lemma startsWith_app_cases (a b p : string) :
  startsWith (a ++ b) p = true ->
  startsWith a p = true \/ exists p2, p = a ++ p2 /\ startsWith b p2 = true.
Proof.
  revert p. induction a as [|c a IH]; intros p H.
  - right. exists p. split; [reflexivity | exact H].
  - destruct p as [|d p]; [left; reflexivity|].
    cbn in H. apply andb_true_iff in H. destruct H as [Hc H].
    apply Ascii.eqb_eq in Hc. subst d.
    destruct (IH p H) as [L | [p2 [-> R]]].
    + left. cbn. rewrite Ascii.eqb_refl. exact L.
    + right. exists p2. split; [reflexivity | exact R].
Qed.

Lemma suffixStarts_app (a p2 b : string) :
  p2 <> "" -> startsWith b p2 = true -> SpecMore.suffixStarts (a ++ p2) b = true.
Proof.
  intros Hne H. induction a as [|c a IH].
  - destruct p2 as [|d p2]; [now elim Hne|].
    cbn [append SpecMore.suffixStarts]. rewrite H. reflexivity.
  - cbn [append SpecMore.suffixStarts]. rewrite IH. apply orb_true_r.
Qed.

Lemma includes_false_head (s p : string) :
  includes s p = false -> startsWith s p = false.
Proof.
  destruct s; cbn [includes]; intros H; apply orb_false_iff in H; apply H.
Qed.

(** No occurrence in either part and none across the seam: none in the
    whole. *)
Lemma includes_app_false (a b p : string) :
  p <> "" ->
  includes a p = false -> includes b p = false ->
  SpecMore.suffixStarts p b = false ->
  includes (a ++ b) p = false.
Proof.
  intros Hp Ha Hb Hs. induction a as [|c a IH]; [exact Hb|].
  cbn [append includes]. cbn [includes] in Ha.
  apply orb_false_iff in Ha. destruct Ha as [Ha1 Ha2].
  rewrite (IH Ha2), orb_false_r.
  destruct (startsWith (String c (a ++ b)) p) eqn:E; [|reflexivity].
  change (String c (a ++ b)) with (String c a ++ b) in E.
  apply startsWith_app_cases in E. destruct E as [L | [p2 [-> R]]].
  - rewrite L in Ha1. discriminate.
  - destruct p2 as [|d p2].
    + rewrite startsWith_app_self_nil in Ha1. discriminate.
    + rewrite (suffixStarts_app (String c a) (String d p2) b) in Hs;
        [discriminate | discriminate | exact R].
Qed.

Lemma splitFrom_skip (sep x b : string) :
  splitFrom sep (String.length x) (x ++ b) = splitFrom sep 0 b.
Proof.
  induction x as [|c x IH]; [|exact IH].
  destruct b; reflexivity.
Qed.

(** Without an occurrence of the separator the string is the one piece. *)
Lemma splitFrom_none (sep s : string) :
  includes s sep = false -> splitFrom sep 0 s = [s].
Proof.
  induction s as [|c s IH]; intros H; [reflexivity|].
  cbn [splitFrom]. rewrite (includes_false_head _ _ H).
  cbn [includes] in H. apply orb_false_iff in H. destruct H as [_ H].
  rewrite (IH H). reflexivity.
Qed.

(** The first piece ends where the separator first occurs. *)
Lemma splitFrom_first (d : ascii) (sep' a b : string) :
  SpecMore.clean (String d sep') a (String d sep' ++ b) = true ->
  splitFrom (String d sep') 0 (a ++ String d sep' ++ b)
  = a :: splitFrom (String d sep') 0 b.
Proof.
  induction a as [|c a IH]; intros H.
  - change (EmptyString ++ String d sep' ++ b) with (String d (sep' ++ b)).
    cbn [splitFrom].
    change (String d (sep' ++ b)) with (String d sep' ++ b).
    rewrite startsWith_app_self.
    cbn [String.length]. rewrite Nat.sub_succ, Nat.sub_0_r.
    rewrite splitFrom_skip. reflexivity.
  - cbn [SpecMore.clean] in H. apply andb_true_iff in H. destruct H as [H1 H2].
    apply negb_true_iff in H1.
    change (String c a ++ String d sep' ++ b)
      with (String c (a ++ String d sep' ++ b)) in *.
    cbn [splitFrom]. rewrite H1, (IH H2). reflexivity.
Qed.

Lemma clean_intro (sep a tail : string) :
  (forall a1 a2, a = a1 ++ a2 -> a2 <> "" ->
                 startsWith (a2 ++ tail) sep = false) ->
  SpecMore.clean sep a tail = true.
Proof.
  induction a as [|c a IH]; intros H; [reflexivity|].
  cbn [SpecMore.clean]. apply andb_true_iff. split.
  - apply negb_true_iff. apply (H "" (String c a)); [reflexivity | discriminate].
  - apply IH. intros a1 a2 E Hne.
    apply (H (String c a1) a2); [cbn; now rewrite E | exact Hne].
Qed.

(** A non-empty end of a string that ends in a blank ends in a blank. *)
Lemma suffix_ends_blank (x a1 a2 : string) :
  x ++ " " = a1 ++ a2 -> a2 <> "" -> exists a2', a2 = a2' ++ " ".
Proof.
  revert a1. induction x as [|c x IH]; intros a1 E Hne.
  - destruct a1 as [|e a1].
    + exists "". cbn in E. now rewrite <- E.
    + cbn in E. injection E as _ E.
      destruct a1; [cbn in E; now subst a2 | discriminate].
  - destruct a1 as [|e a1].
    + exists (String c x). cbn in E. now rewrite <- E.
    + cbn in E. injection E as _ E. exact (IH a1 E Hne).
Qed.

Lemma startsWith_includes_suffix (a1 a2 p : string) :
  startsWith a2 p = true -> includes (a1 ++ a2) p = true.
Proof.
  intros H. induction a1 as [|c a1 IH].
  - destruct a2; cbn [append includes]; now rewrite H.
  - cbn [append includes]. rewrite IH. apply orb_true_r.
Qed.

Lemma includes_app_right (a b p : string) :
  includes b p = true -> includes (a ++ b) p = true.
Proof.
  intros H. induction a as [|c a IH]; [exact H|].
  cbn [append includes]. rewrite IH. apply orb_true_r.
Qed.

Lemma includes_head_blank (b : string) : includes (" " ++ b) " " = true.
Proof. reflexivity. Qed.

Lemma trimStart_app_blank (t : string) :
  trimStart (t ++ " ")
  = match trimStart t with "" => "" | String c u => String c u ++ " " end.
Proof.
  induction t as [|c t IH]; [reflexivity|].
  cbn [append trimStart]. destruct (isWhiteSpace c); [exact IH | reflexivity].
Qed.

Lemma trimEnd_app_blank (s : string) : trimEnd (s ++ " ") = trimEnd s.
Proof.
  induction s as [|c s IH]; [reflexivity|].
  cbn [append trimEnd]. rewrite IH. reflexivity.
Qed.

(** Blanks around a text do not survive [trim]. *)
Lemma trim_blanks (t : string) : trim (" " ++ t ++ " ") = trim t.
Proof.
  unfold trim. change (" " ++ t ++ " ") with (String " " (t ++ " ")).
  cbn [trimStart]. change (isWhiteSpace " ") with true. cbn iota.
  rewrite trimStart_app_blank.
  destruct (trimStart t) as [|c u]; [reflexivity|].
  apply trimEnd_app_blank.
Qed.

(** The text between the blanks of a refusal message holds no "REMEDY:"
    of its own, so the first one found is the message's. *)
Lemma refusal_text_clean (t tail : string) :
  includes t "REMEDY:" = false ->
  SpecMore.clean "REMEDY:" (" " ++ t ++ " ") ("REMEDY:" ++ tail) = true.
Proof.
  intros Ht. apply clean_intro. intros a1 a2 E Hne.
  destruct (startsWith (a2 ++ "REMEDY:" ++ tail) "REMEDY:") eqn:S;
    [exfalso | reflexivity].
  assert (I : includes (" " ++ t ++ " ") "REMEDY:" = false).
  { change (" " ++ t ++ " ") with (String " " (t ++ " ")).
    cbn [includes]. apply orb_false_iff. split; [reflexivity|].
    apply includes_app_false; [discriminate | exact Ht | reflexivity
                               | reflexivity]. }
  apply startsWith_app_cases in S. destruct S as [L | [p2 [P _]]].
  - rewrite E in I. rewrite (startsWith_includes_suffix a1 a2 _ L) in I.
    discriminate.
  - destruct (suffix_ends_blank (String " " t) a1 a2 E Hne) as [a2' ->].
    assert (B : includes ("REMEDY:") " " = true).
    { rewrite P, append_assoc.
      apply includes_app_right, includes_head_blank. }
    discriminate B.
Qed.

(** X21. The panel shows a model's refusal as it was given: for a text
    that holds neither "WHY:" nor "REMEDY:", the refusal message built in
    [processImage] is taken apart by [parseErrorMessage] into the fixed
    headline, the trimmed text as the reason and the fixed advice. *)
Theorem parseErrorMessage_refusal (t : string) :
  includes t "WHY:" = false ->
  includes t "REMEDY:" = false ->
  parseErrorMessage (GeminiService.MSG_REFUSAL t)
  = {| type := rejection;
       main := "The Lab encountered a problem.";
       why := Some (trim t);
       remedy := Some "Adjust your input image or settings to resolve the concern mentioned above." |}.
Proof.
  intros Hw Hr.
  set (advice := " Adjust your input image or settings to resolve the concern mentioned above.").
  set (head := "REJECTION: The Lab encountered a problem. ").
  assert (M : GeminiService.MSG_REFUSAL t
              = head ++ "WHY:" ++ ((" " ++ t ++ " ") ++ "REMEDY:" ++ advice)).
  { unfold GeminiService.MSG_REFUSAL, head, advice.
    rewrite !append_assoc. reflexivity. }
  assert (W : includes ((" " ++ t ++ " ") ++ "REMEDY:" ++ advice) "WHY:" = false).
  { rewrite !append_assoc.
    change (" " ++ t ++ " " ++ "REMEDY:" ++ advice)
      with (String " " (t ++ " " ++ "REMEDY:" ++ advice)).
    cbn [includes]. apply orb_false_iff. split; [reflexivity|].
    apply includes_app_false; [discriminate | exact Hw | reflexivity
                               | reflexivity]. }
  unfold parseErrorMessage.
  replace (startsWith (GeminiService.MSG_REFUSAL t) "REJECTION:") with true
    by reflexivity.
  unfold splitOn. rewrite M.
  rewrite (splitFrom_first "W" "HY:" head) by reflexivity.
  rewrite (splitFrom_none _ _ W).
  cbn [nth nth_error].
  replace (truthy ((" " ++ t ++ " ") ++ "REMEDY:" ++ advice)) with true
    by reflexivity.
  rewrite (splitFrom_first "R" "EMEDY:" (" " ++ t ++ " ") advice)
    by (apply refusal_text_clean; exact Hr).
  rewrite (splitFrom_none "REMEDY:" advice) by reflexivity.
  cbn [map nth option_map]. rewrite trim_blanks.
  reflexivity.
Qed.

Lemma parseErrorMessage_refusal_witness :
  parseErrorMessage (GeminiService.MSG_REFUSAL "I cannot edit this photo.")
  = {| type := rejection;
       main := "The Lab encountered a problem.";
       why := Some (trim "I cannot edit this photo.");
       remedy := Some "Adjust your input image or settings to resolve the concern mentioned above." |}.
Proof.
  apply (parseErrorMessage_refusal "I cannot edit this photo.");
    reflexivity.
Defined.

(** A reason that itself says "REMEDY:" is cut there: the panel shows the
    model's words after it as the advice and drops the fixed advice. *)
Example parseErrorMessage_reason_with_remedy :
  let p := parseErrorMessage
             (GeminiService.MSG_REFUSAL "Too dark. REMEDY: use a flash.") in
  why p = Some "Too dark." /\ remedy p = Some "use a flash.".
Proof. split; reflexivity. Qed.

(** Messages that are no rejection are shown whole. *)
Example parseErrorMessage_rate_limit :
  parseErrorMessage GeminiService.MSG_RATE_LIMIT
  = {| type := plain_error; main := GeminiService.MSG_RATE_LIMIT;
       why := None; remedy := None |}.
Proof. reflexivity. Qed.

End ErrorPanel.
